(** * Energy meters of energy-leaderboard-runner: a shallow embedding

    Sources embedded here (all under [src/energy_meter/]):
    - [base.py]           the [EnergyMeter] interface;
    - [integrator.py]     [get_platform_meter];
    - [macos_meter.py]    [MacosMeter] (powermetrics subprocess);
    - [nvml_meter.py]     [NvmlMeter] (pynvml polling);
    - [rocm_smi_meter.py] [RocmSmiMeter] (rocm-smi polling);
    - [rapl_meter.py]     [RaplMeter] (powercap counter).

    Of [src/main.py], which drives the meters: [resolve_testset_path],
    [load_testset] and [get_available_testsets].

    Conventions.
    - A Python [float] is an exact rational ([Q]); rounding of binary64
      is outside the model.  Equality of floats is [Qeq] ([==]).
    - A Python [int] is [Z]; a [str] is [string] (ASCII text).
    - A call either returns or raises: [outcome].  A method is a function
      from the object's fields to an outcome and the updated fields ([M]).
    - What a method asks of the operating system or of a library
      ([sys.platform], [pynvml], [shutil.which], [pathlib], [os.access],
      [time.time], ...) is read from a [Host] record: one record is the
      environment as it answers during one method call.
    - The background threads are not run: what they append between
      [start()] and [stop()] is given as the list of their iterations. *)

From Stdlib Require Import ZArith QArith Qfield Lqa Lia.
From Stdlib Require Import List String Ascii Bool DecimalString Floats.
Import ListNotations.

Local Open Scope string_scope.
Local Open Scope Q_scope.

(** ** Python calls: exceptions and object state *)

(** The exception classes the meters raise or meet.  [Exception_ name] is
    any other subclass of [Exception] raised by a library. *)
Inductive exn : Type :=
| RuntimeError (msg : string)
| PermissionError (msg : string)
| NotImplementedError (msg : string)
| FileNotFoundError (msg : string)
| TimeoutExpired (msg : string)
| Exception_ (name : string).

Inductive outcome (A : Type) : Type :=
| Return (a : A)
| Raise (e : exn).
Arguments Return {A} a.
Arguments Raise {A} e.

(** A method of an object with fields [S]: fields written before a raise
    stay written. *)
Definition M (S A : Type) : Type := S -> outcome A * S.

Definition ret {S A} (a : A) : M S A := fun s => (Return a, s).

Definition bind {S A B} (m : M S A) (k : A -> M S B) : M S B :=
  fun s => match m s with
           | (Return a, s') => k a s'
           | (Raise e, s') => (Raise e, s')
           end.

Definition raise {S A} (e : exn) : M S A := fun s => (Raise e, s).

(** [try: m  except Exception as e: h e] *)
Definition try_except {S A} (m : M S A) (h : exn -> M S A) : M S A :=
  fun s => match m s with
           | (Return a, s') => (Return a, s')
           | (Raise e, s') => h e s'
           end.

Definition get {S} : M S S := fun s => (Return s, s).
Definition set_fields {S} (f : S -> S) : M S unit := fun s => (Return tt, f s).

(** A call into the environment, whose outcome the [Host] gives. *)
Definition call {S A} (o : outcome A) : M S A := fun s => (o, s).

Declare Scope py_scope.
Delimit Scope py_scope with py.
Notation "x <- m ;; k" := (bind m (fun x => k))
  (at level 61, m at next level, right associativity) : py_scope.
Notation "m ;;; k" := (bind m (fun _ => k))
  (at level 61, right associativity) : py_scope.
Local Open Scope py_scope.

(** ** Numbers *)

(** The float of a non-negative int. *)
Definition int_to_float (n : N) : Q := inject_Z (Z.of_N n).

(** [x < y] on floats, as a test. *)
Definition Qltb (x y : Q) : bool :=
  match x ?= y with Lt => true | _ => false end.

(** The value every [stop()] returns (a dict with these three keys). *)
Record EnergyResult : Type := mkResult {
  energy_wh_raw : Q;
  duration_s : Q;
  sampling_ms : Z
}.

(** ** The trapezoidal loop

    The three sampling meters end [stop()] with the same loop:
<<
    energy_wh = 0.0
    for i in range(len(power_watts) - 1):
        avg_power = (power_watts[i] + power_watts[i + 1]) / 2.0
        energy_wh += avg_power * dt_hours
>>
    [item] is list indexing; the loop only indexes below the length
    (lemma [integrate_indices_in_range]). *)
Definition item (l : list Q) (i : nat) : Q := nth i l 0.

(** The body of the loop. *)
Definition integrate_step (power_watts : list Q) (dt_hours : Q)
    (energy_wh : Q) (i : nat) : Q :=
  let avg_power := (item power_watts i + item power_watts (i + 1)) / 2 in
  energy_wh + avg_power * dt_hours.

Definition integrate (power_watts : list Q) (dt_hours : Q) : Q :=
  fold_left (integrate_step power_watts dt_hours)
            (seq 0 (List.length power_watts - 1))
            0.

(** [dt_hours = (self.sampling_ms / 1000.0) / 3600.0] *)
Definition dt_hours_of (sampling : Z) : Q := (inject_Z sampling / 1000) / 3600.

(** The specification's words: the sum, over consecutive pairs, of the
    pair's average times the spacing. *)
Fixpoint sum_avg_pairs (p : list Q) (dt : Q) : Q :=
  match p with
  | p_i :: ((p_j :: _) as rest) => ((p_i + p_j) / 2) * dt + sum_avg_pairs rest dt
  | _ => 0
  end.

(** ** Text: the regular expressions of the two parsers

    Every pattern of [macos_meter.py] and [rocm_smi_meter.py] has the shape
    [LITERAL \s+ ([\d.]+) \s+ UNIT] (powermetrics) or
    [LITERAL \s+ ([\d.]+) \s* UNIT] (rocm-smi, with [re.IGNORECASE]).
    The classes [\s], [[\d.]] and the first character of the unit are
    pairwise disjoint, so the greedy repetitions never give anything back:
    matching at a position takes the longest run of each class. *)

(** [\s] on ASCII text: the characters for which [str.isspace()] holds. *)
Definition is_space (c : ascii) : bool :=
  let n := nat_of_ascii c in
  (((9 <=? n) && (n <=? 13)) || ((28 <=? n) && (n <=? 32)))%nat.

(** [\d] on ASCII text. *)
Definition is_digit (c : ascii) : bool :=
  let n := nat_of_ascii c in ((48 <=? n) && (n <=? 57))%nat.

(** [[\d.]] *)
Definition is_num_char (c : ascii) : bool := is_digit c || (c =? ".")%char.

Definition lower (c : ascii) : ascii :=
  let n := nat_of_ascii c in
  if ((65 <=? n) && (n <=? 90))%nat then ascii_of_nat (n + 32) else c.

Definition char_eq (ignorecase : bool) (a b : ascii) : bool :=
  if ignorecase then (lower a =? lower b)%char else (a =? b)%char.

Record pattern : Type := mkPattern {
  literal : string;       (* the text before the first [\s+] *)
  ignorecase : bool;      (* [re.IGNORECASE] *)
  gap_required : bool;    (* [\s+] (true) or [\s*] (false) before the unit *)
  unit_text : string      (* ["mW"] or ["W"] *)
}.

(** [strip_literal ic lit s]: [s] without its prefix [lit], if it starts
    with it. *)
Fixpoint strip_literal (ic : bool) (lit s : string) : option string :=
  match lit, s with
  | EmptyString, _ => Some s
  | String a lit', String b s' =>
      if char_eq ic a b then strip_literal ic lit' s' else None
  | String _ _, EmptyString => None
  end.

(** The longest prefix of [s] in the class [f], and what follows it. *)
Fixpoint span (f : ascii -> bool) (s : string) : string * string :=
  match s with
  | String c s' =>
      if f c then let (a, b) := span f s' in (String c a, b) else (EmptyString, s)
  | EmptyString => (EmptyString, EmptyString)
  end.

Definition is_empty (s : string) : bool :=
  match s with EmptyString => true | _ => false end.

(** A match of the pattern starting at the first character of [s]:
    the text of group 1. *)
Definition match_here (p : pattern) (s : string) : option string :=
  match strip_literal (ignorecase p) (literal p) s with
  | None => None
  | Some s1 =>
      let (ws1, s2) := span is_space s1 in
      if is_empty ws1 then None else
      let (g, s3) := span is_num_char s2 in
      if is_empty g then None else
      let (ws2, s4) := span is_space s3 in
      if gap_required p && is_empty ws2 then None else
      match strip_literal (ignorecase p) (unit_text p) s4 with
      | Some _ => Some g
      | None => None
      end
  end.

(** [re.search(p, s)]: the leftmost match; [match.group(1)]. *)
Fixpoint re_search (p : pattern) (s : string) : option string :=
  match match_here p s with
  | Some g => Some g
  | None =>
      match s with
      | String _ s' => re_search p s'
      | EmptyString => None
      end
  end.

Fixpoint pow10 (k : nat) : positive :=
  match k with O => 1%positive | S k' => (10 * pow10 k')%positive end.

(** [float(g)] for a text of digits and dots ([None]: [ValueError]).
    Such a text is a number when it has at most one dot and at least one
    digit.  [mant] is the digits read so far, [frac] the number of them
    after the dot. *)
Fixpoint float_digits (g : string) (mant : Z) (frac : option nat)
    (any_digit : bool) : option Q :=
  match g with
  | EmptyString =>
      if any_digit
      then Some (Qmake mant (pow10 (match frac with Some k => k | None => 0%nat end)))
      else None
  | String c g' =>
      if is_digit c then
        float_digits g' (10 * mant + Z.of_nat (nat_of_ascii c - 48))
                     (option_map S frac) true
      else if (c =? ".")%char then
        match frac with
        | None => float_digits g' mant (Some 0%nat) any_digit
        | Some _ => None
        end
      else None
  end.

Definition py_float (g : string) : option Q := float_digits g 0 None false.

(** [s.strip()]: [s] without leading and trailing whitespace. *)
Fixpoint lstrip (s : string) : string :=
  match s with
  | String c s' => if is_space c then lstrip s' else s
  | EmptyString => EmptyString
  end.

Fixpoint rstrip (s : string) : string :=
  match s with
  | String c s' =>
      let r := rstrip s' in
      if is_space c && is_empty r then EmptyString else String c r
  | EmptyString => EmptyString
  end.

Definition strip (s : string) : string := rstrip (lstrip s).

(** [str(n)] for an int. *)
Definition str_of_int (n : Z) : string := NilZero.string_of_int (Z.to_int n).

(** [str(e)] for an exception: its message. *)
Definition exn_str (e : exn) : string :=
  match e with
  | RuntimeError m | PermissionError m | NotImplementedError m
  | FileNotFoundError m | TimeoutExpired m | Exception_ m => m
  end.

(** ** The host

    What the environment answers during one method call. *)
Record Host : Type := mkHost {
  sys_platform : string;                          (* [sys.platform] *)
  time_time : Q;                                  (* [time.time()] *)
  (* pynvml *)
  NVML_AVAILABLE : bool;                          (* [import pynvml] worked *)
  nvmlInit : outcome unit;
  nvmlDeviceGetCount : outcome Z;
  nvmlDeviceGetHandleByIndex : Z -> outcome Z;
  nvmlShutdown : outcome unit;
  (* subprocesses *)
  shutil_which : string -> outcome (option string);
  Popen : list string -> outcome unit;
  Popen_terminate : outcome unit;                 (* [process.terminate()] *)
  Popen_wait_timeout : outcome Z;                 (* [process.wait(timeout=2.0)] *)
  Popen_kill : outcome unit;                      (* [process.kill()] *)
  Popen_wait : outcome Z;                         (* [process.wait()] *)
  (* the powercap file system *)
  Path_exists : string -> outcome bool;           (* [Path(p).exists()] *)
  Path_glob : string -> string -> outcome (list string);
                                     (* [list(Path(p).glob(pat))], in the
                                        order the directory gives them *)
  os_access_R_OK : string -> bool;                (* [os.access(p, os.R_OK)] *)
  read_float : string -> outcome Q
                (* [with open(p, "r") as f: float(f.read().strip())] *)
}.

(** [base.py]: the interface of the four meters. *)
Class EnergyMeter (T : Type) : Type := {
  is_available : Host -> M T bool;
  start : Host -> M T unit;
  stop : Host -> M T EnergyResult
}.

(** ** [macos_meter.py] *)
Module MacosMeter.

Record t : Type := mk {
  sampling_ms : Z;
  process : option unit;          (* the [Popen] object, once spawned *)
  output_lines : list string;
  start_time : Q;
  stop_time : Q;
  _running : bool
}.

(** [__init__] *)
Definition init (sampling : Z) : t :=
  mk sampling None [] 0 0 false.

Definition is_available (host : Host) : M t bool :=
  ret (sys_platform host =? "darwin")%string.

Definition cmd (self : t) : list string :=
  ["sudo"; "powermetrics"; "-i"; str_of_int (sampling_ms self);
   "--samplers"; "cpu_power"].

(** The reader thread is started at the end of [start()], which then
    sleeps 0.3 s; neither changes a field. *)
Definition start (host : Host) : M t unit :=
  avail <- is_available host ;;
  if negb avail then
    raise (RuntimeError "macOS powermetrics is not available on this platform")
  else
    set_fields (fun s => mk (sampling_ms s) (process s) [] (time_time host)
                            (stop_time s) true) ;;;
    self <- get ;;
    try_except
      (p <- call (Popen host (cmd self)) ;;
       set_fields (fun s => mk (sampling_ms s) (Some p) (output_lines s)
                               (start_time s) (stop_time s) (_running s)))
      (fun e =>
         match e with
         | FileNotFoundError _ =>
             raise (RuntimeError "powermetrics command not found. Is this macOS?")
         | _ =>
             raise (RuntimeError ("Failed to start powermetrics: " ++ exn_str e))
         end).

(** [_read_output]: the reader thread, for the lines [stdout] the
    subprocess wrote before [stop()].  The loop leaves at the first line
    read when [_running] is false. *)
Definition _read_output (stdout : list string) : M t unit :=
  self <- get ;;
  match process self with
  | Some _ =>
      if _running self then
        set_fields (fun s =>
          mk (sampling_ms s) (process s)
             (fold_left (fun lines line => (lines ++ [strip line])%list) stdout
                        (output_lines s))
             (start_time s) (stop_time s) (_running s))
      else ret tt
  | None => ret tt
  end.

Definition combined : pattern :=
  mkPattern "Combined Power (CPU + GPU + ANE):" false true "mW".

Definition patterns : list pattern :=
  [ combined;
    mkPattern "CPU Power:" false true "mW";
    mkPattern "GPU Power:" false true "mW";
    mkPattern "Package Power:" false true "mW" ].

(** The inner loop [for pattern in patterns[1:]], on one line:
    [break] after an append, [continue] on [ValueError]. *)
Fixpoint try_patterns (pats : list pattern) (line : string)
    (power_samples : list Q) : list Q :=
  match pats with
  | [] => power_samples
  | pat :: rest =>
      match re_search pat line with
      | Some g =>
          match py_float g with
          | Some power_mw => (power_samples ++ [power_mw])%list
          | None => try_patterns rest line power_samples
          end
      | None => try_patterns rest line power_samples
      end
  end.

(** The body of [for line in self.output_lines]. *)
Definition parse_line (line : string) (power_samples : list Q) : list Q :=
  match re_search combined line with
  | Some g =>
      match py_float g with
      | Some power_mw => (power_samples ++ [power_mw])%list         (* continue *)
      | None => try_patterns (tl patterns) line power_samples (* pass *)
      end
  | None => try_patterns (tl patterns) line power_samples
  end.

Definition _parse_power_samples (self : t) : list Q :=
  fold_left (fun power_samples line => parse_line line power_samples)
            (output_lines self) [].

(** The termination of the subprocess in [stop()]:
<<
    if self.process:
        try:
            self.process.terminate()
            self.process.wait(timeout=2.0)
        except subprocess.TimeoutExpired:
            self.process.kill()
            self.process.wait()
>> *)
Definition stop_process (host : Host) : M t unit :=
  self <- get ;;
  match process self with
  | Some _ =>
      try_except
        (call (Popen_terminate host) ;;;
         call (Popen_wait_timeout host) ;;;
         ret tt)
        (fun e =>
           match e with
           | TimeoutExpired _ =>
               call (Popen_kill host) ;;;
               call (Popen_wait host) ;;;
               ret tt
           | _ => raise e
           end)
  | None => ret tt
  end.

(** [stop()].  The two sleeps and the join of the reader change no
    field. *)
Definition stop (host : Host) : M t EnergyResult :=
  set_fields (fun s => mk (sampling_ms s) (process s) (output_lines s)
                          (start_time s) (time_time host) false) ;;;
  stop_process host ;;;
  self <- get ;;
  let duration_s := stop_time self - start_time self in
  let power_samples := _parse_power_samples self in
  if (List.length power_samples <? 2)%nat then
    if (List.length power_samples =? 1)%nat then
      let avg_power_watts := item power_samples 0 / 1000 in
      let energy_wh := avg_power_watts * (duration_s / 3600) in
      ret (mkResult energy_wh duration_s (sampling_ms self))
    else
      ret (mkResult 0 duration_s (sampling_ms self))
  else
    let power_watts := map (fun p => p / 1000) power_samples in
    let dt_hours := dt_hours_of (sampling_ms self) in
    ret (mkResult (integrate power_watts dt_hours) duration_s (sampling_ms self)).

#[global] Instance meter : EnergyMeter t :=
  Build_EnergyMeter t is_available start stop.
End MacosMeter.

(** ** [nvml_meter.py] *)
Module NvmlMeter.

Record t : Type := mk {
  sampling_ms : Z;
  device_index : Z;
  handle : option Z;
  power_samples : list Q;         (* milliwatts *)
  start_time : Q;
  stop_time : Q;
  _running : bool;
  _nvml_initialized : bool
}.

Definition init (sampling device : Z) : t :=
  mk sampling device None [] 0 0 false false.

Definition is_available (host : Host) : M t bool :=
  if negb (NVML_AVAILABLE host) then ret false
  else
    try_except
      (call (nvmlInit host) ;;;
       device_count <- call (nvmlDeviceGetCount host) ;;
       call (nvmlShutdown host) ;;;
       ret (0 <? device_count)%Z)
      (fun _ => ret false).

Definition start (host : Host) : M t unit :=
  if negb (NVML_AVAILABLE host) then
    raise (RuntimeError "pynvml is not installed. Install with: pip install pynvml")
  else
    try_except
      (call (nvmlInit host) ;;;
       set_fields (fun s => mk (sampling_ms s) (device_index s) (handle s)
                               (power_samples s) (start_time s) (stop_time s)
                               (_running s) true) ;;;
       self <- get ;;
       h <- call (nvmlDeviceGetHandleByIndex host (device_index self)) ;;
       set_fields (fun s => mk (sampling_ms s) (device_index s) (Some h)
                               (power_samples s) (start_time s) (stop_time s)
                               (_running s) (_nvml_initialized s)))
      (fun e => raise (RuntimeError ("Failed to initialize NVML: " ++ exn_str e))) ;;;
    set_fields (fun s => mk (sampling_ms s) (device_index s) (handle s)
                            [] (time_time host) (stop_time s)
                            true (_nvml_initialized s)).

(** [_poll_power]: the polling thread.  [reads] is what
    [nvmlDeviceGetPowerUsage] does at each iteration made before
    [stop()]: it returns the power in milliwatts, an unsigned integer of
    the library, or raises.  An iteration is made while [_running] is
    true, and a read that raises is skipped. *)
Fixpoint _poll_power (reads : list (outcome N)) : M t unit :=
  match reads with
  | [] => ret tt
  | r :: rest =>
      self <- get ;;
      if _running self then
        try_except
          (power_mw <- call r ;;
           set_fields (fun s => mk (sampling_ms s) (device_index s) (handle s)
                                   (power_samples s ++ [int_to_float power_mw])%list
                                   (start_time s) (stop_time s)
                                   (_running s) (_nvml_initialized s)))
          (fun _ => ret tt) ;;;
        _poll_power rest
      else ret tt
  end.

Definition stop (host : Host) : M t EnergyResult :=
  set_fields (fun s => mk (sampling_ms s) (device_index s) (handle s)
                          (power_samples s) (start_time s) (time_time host)
                          false (_nvml_initialized s)) ;;;
  self <- get ;;
  (if _nvml_initialized self then
     try_except
       (call (nvmlShutdown host) ;;;
        set_fields (fun s => mk (sampling_ms s) (device_index s) (handle s)
                                (power_samples s) (start_time s) (stop_time s)
                                (_running s) false))
       (fun _ => ret tt)
   else ret tt) ;;;
  self <- get ;;
  let duration_s := stop_time self - start_time self in
  if (List.length (power_samples self) <? 2)%nat then
    ret (mkResult 0 duration_s (sampling_ms self))
  else
    let power_watts := map (fun p => p / 1000) (power_samples self) in
    let dt_hours := dt_hours_of (sampling_ms self) in
    ret (mkResult (integrate power_watts dt_hours) duration_s (sampling_ms self)).

#[global] Instance meter : EnergyMeter t :=
  Build_EnergyMeter t is_available start stop.
End NvmlMeter.

(** ** [rocm_smi_meter.py] *)
Module RocmSmiMeter.

Record t : Type := mk {
  sampling_ms : Z;
  device_index : Z;
  power_samples : list Q;         (* watts *)
  start_time : Q;
  stop_time : Q;
  _running : bool
}.

Definition init (sampling device : Z) : t :=
  mk sampling device [] 0 0 false.

Definition is_available (host : Host) : M t bool :=
  found <- call (shutil_which host "rocm-smi") ;;
  ret (match found with Some _ => true | None => false end).

Definition start (host : Host) : M t unit :=
  avail <- is_available host ;;
  if negb avail then
    raise (RuntimeError
             ("rocm-smi command not found. Please install ROCm tools. " ++
              "See RUNBOOK.md for installation instructions."))
  else
    set_fields (fun s => mk (sampling_ms s) (device_index s) []
                            (time_time host) (stop_time s) true).

Definition patterns : list pattern :=
  [ mkPattern "Average Graphics Package Power:" true false "W";
    mkPattern "Power:" true false "W";
    mkPattern "GPU Power:" true false "W" ].

(** The loop of [_parse_power]: the first pattern that matches and
    whose group is a number. *)
Fixpoint parse_with (pats : list pattern) (output : string) : option Q :=
  match pats with
  | [] => None
  | pat :: rest =>
      match re_search pat output with
      | Some g =>
          match py_float g with
          | Some v => Some v
          | None => parse_with rest output
          end
      | None => parse_with rest output
      end
  end.

Definition _parse_power (output : string) : option Q :=
  parse_with patterns output.

(** [_poll_power]: the polling thread.  [runs] is what
    [subprocess.run(["rocm-smi", "-d", ..., "-p"], ...)] does at each
    iteration made before [stop()]: the return code and the standard
    output, or an exception (which is swallowed).  An iteration is made
    while [_running] is true. *)
Fixpoint _poll_power (runs : list (outcome (Z * string))) : M t unit :=
  match runs with
  | [] => ret tt
  | r :: rest =>
      self <- get ;;
      if _running self then
        try_except
          (result <- call r ;;
           if (fst result =? 0)%Z then
             match _parse_power (snd result) with
             | Some power_watts =>
                 set_fields (fun s => mk (sampling_ms s) (device_index s)
                                         (power_samples s ++ [power_watts])%list
                                         (start_time s) (stop_time s) (_running s))
             | None => ret tt
             end
           else ret tt)
          (fun _ => ret tt) ;;;
        _poll_power rest
      else ret tt
  end.

Definition stop (host : Host) : M t EnergyResult :=
  set_fields (fun s => mk (sampling_ms s) (device_index s) (power_samples s)
                          (start_time s) (time_time host) false) ;;;
  self <- get ;;
  let duration_s := stop_time self - start_time self in
  if (List.length (power_samples self) <? 2)%nat then
    ret (mkResult 0 duration_s (sampling_ms self))
  else
    let power_watts := power_samples self in
    let dt_hours := dt_hours_of (sampling_ms self) in
    ret (mkResult (integrate power_watts dt_hours) duration_s (sampling_ms self)).

#[global] Instance meter : EnergyMeter t :=
  Build_EnergyMeter t is_available start stop.
End RocmSmiMeter.

(** ** [rapl_meter.py] *)
Module RaplMeter.

Record t : Type := mk {
  sampling_ms : Z;
  rapl_path : option string;
  start_energy_uj : Q;
  start_time : Q;
  stop_time : Q
}.

Definition init (sampling : Z) : t := mk sampling None 0 0 0.

Definition rapl_base : string := "/sys/class/powercap".

(** [zone / "energy_uj"] *)
Definition energy_file (zone : string) : string := zone ++ "/energy_uj".

(** The loop [for zone in rapl_zones] of [is_available]. *)
Fixpoint scan_zones (host : Host) (rapl_zones : list string) : M t bool :=
  match rapl_zones with
  | [] => ret false
  | zone :: rest =>
      found <- call (Path_exists host (energy_file zone)) ;;
      if (found : bool) then
        set_fields (fun s => mk (sampling_ms s) (Some zone) (start_energy_uj s)
                                (start_time s) (stop_time s)) ;;;
        ret true
      else scan_zones host rest
  end.

Definition is_available (host : Host) : M t bool :=
  base_exists <- call (Path_exists host rapl_base) ;;
  if negb base_exists then ret false
  else
    rapl_zones <- call (Path_glob host rapl_base "intel-rapl:*") ;;
    scan_zones host rapl_zones.

Definition _read_energy_uj (host : Host) : M t Q :=
  self <- get ;;
  match rapl_path self with
  | None => raise (RuntimeError "RAPL path not initialized")
  | Some zone =>
      try_except
        (call (read_float host (energy_file zone)))
        (fun e => raise (RuntimeError
                           ("Failed to read RAPL energy counter: " ++ exn_str e)))
  end.

Definition start (host : Host) : M t unit :=
  avail <- is_available host ;;
  if negb avail then
    raise (RuntimeError
             ("RAPL interface not available. " ++
              "Ensure you're on a Linux system with Intel/AMD CPU."))
  else
    self <- get ;;
    match rapl_path self with
    | Some zone =>
        if negb (os_access_R_OK host (energy_file zone)) then
          raise (PermissionError
                   ("Permission denied reading " ++ energy_file zone ++ ". " ++
                    "Please run with sudo or check permissions."))
        else ret tt
    | None => ret tt
    end ;;;
    set_fields (fun s => mk (sampling_ms s) (rapl_path s) (start_energy_uj s)
                            (time_time host) (stop_time s)) ;;;
    energy <- _read_energy_uj host ;;
    set_fields (fun s => mk (sampling_ms s) (rapl_path s) energy
                            (start_time s) (stop_time s)).

Definition max_counter : Z := 2 ^ 32.

Definition stop (host : Host) : M t EnergyResult :=
  set_fields (fun s => mk (sampling_ms s) (rapl_path s) (start_energy_uj s)
                          (start_time s) (time_time host)) ;;;
  stop_energy_uj <- _read_energy_uj host ;;
  self <- get ;;
  let duration_s := stop_time self - start_time self in
  let energy_diff_uj := stop_energy_uj - start_energy_uj self in
  let energy_diff_uj :=
    if Qltb energy_diff_uj 0 then energy_diff_uj + inject_Z max_counter
    else energy_diff_uj in
  let energy_wh := energy_diff_uj / 3600000000 in
  ret (mkResult energy_wh duration_s (sampling_ms self)).

#[global] Instance meter : EnergyMeter t :=
  Build_EnergyMeter t is_available start stop.
End RaplMeter.

(** ** [integrator.py]: the selector *)

(** The meter [get_platform_meter] returns. *)
Inductive Meter : Type :=
| Macos (meter : MacosMeter.t)
| Nvml (meter : NvmlMeter.t)
| RocmSmi (meter : RocmSmiMeter.t)
| Rapl (meter : RaplMeter.t).

(** To state the order of the probes, the selector is given a state the
    source does not have: the list of the meters whose [is_available()]
    it has called, oldest first. *)
Inductive Backend : Type := MacosB | NvmlB | RocmSmiB | RaplB.

(** [meter.is_available()], for a meter the selector has just built. *)
Definition probe {T} `{EnergyMeter T} (b : Backend) (host : Host) (meter : T)
    : M (list Backend) (bool * T) :=
  fun probed =>
    match is_available host meter with
    | (Return avail, meter') => (Return (avail, meter'), (probed ++ [b])%list)
    | (Raise e, _) => (Raise e, (probed ++ [b])%list)
    end.

Definition no_linux_meter : string :=
  "No energy meter available on this Linux system. " ++
  "Supported: NVIDIA GPU (NVML), AMD GPU (ROCm-smi), Intel/AMD CPU (RAPL). " ++
  "Please check that appropriate drivers and tools are installed. " ++
  "See RUNBOOK.md for troubleshooting.".

Definition no_platform_meter (platform : string) : string :=
  "No energy meter available for platform: " ++ platform ++ ". " ++
  "Supported platforms: macOS (darwin), Linux. " ++
  "Windows support is not currently planned.".

Definition get_platform_meter (host : Host) (sampling : Z)
    : M (list Backend) Meter :=
  (* if sys.platform == "darwin": ... return meter *)
  returned <-
    (if (sys_platform host =? "darwin")%string then
       p <- probe MacosB host (MacosMeter.init sampling) ;;
       ret (if fst p then Some (Macos (snd p)) else None)
     else ret None) ;;
  match returned with
  | Some meter => ret meter
  | None =>
      if (sys_platform host =? "linux")%string then
        nvml_meter <- probe NvmlB host (NvmlMeter.init sampling 0) ;;
        if fst nvml_meter then ret (Nvml (snd nvml_meter))
        else
          rocm_meter <- probe RocmSmiB host (RocmSmiMeter.init sampling 0) ;;
          if fst rocm_meter then ret (RocmSmi (snd rocm_meter))
          else
            rapl_meter <- probe RaplB host (RaplMeter.init sampling) ;;
            if fst rapl_meter then ret (Rapl (snd rapl_meter))
            else raise (NotImplementedError no_linux_meter)
      else
        raise (NotImplementedError (no_platform_meter (sys_platform host)))
  end.

(** ** One measurement: [start()], the background thread, [stop()]

    [host0] answers during [start()], [host1] during [stop()]. *)
Definition macos_cycle (host0 : Host) (stdout : list string) (host1 : Host)
    : M MacosMeter.t EnergyResult :=
  MacosMeter.start host0 ;;; MacosMeter._read_output stdout ;;;
  MacosMeter.stop host1.

Definition nvml_cycle (host0 : Host) (reads : list (outcome N)) (host1 : Host)
    : M NvmlMeter.t EnergyResult :=
  NvmlMeter.start host0 ;;; NvmlMeter._poll_power reads ;;;
  NvmlMeter.stop host1.

Definition rocm_cycle (host0 : Host) (runs : list (outcome (Z * string)))
    (host1 : Host) : M RocmSmiMeter.t EnergyResult :=
  RocmSmiMeter.start host0 ;;; RocmSmiMeter._poll_power runs ;;;
  RocmSmiMeter.stop host1.

Definition rapl_cycle (host0 host1 : Host) : M RaplMeter.t EnergyResult :=
  RaplMeter.start host0 ;;; RaplMeter.stop host1.

(** ** The loop on binary64 numbers

    The same loop on the floats of the machine, to compare the examples
    of the specification with the rational model. *)
Module Binary64.

Definition integrate (power_watts : list float) (dt_hours : float) : float :=
  fold_left
    (fun energy_wh i =>
       let avg_power :=
         ((nth i power_watts 0 + nth (i + 1) power_watts 0) / 2)%float in
       (energy_wh + avg_power * dt_hours)%float)
    (seq 0 (List.length power_watts - 1))
    0%float.

End Binary64.

(** ** The regular expressions, as languages *)

(** Every character of [s] is in the class [f]. *)
Fixpoint all_chars (f : ascii -> bool) (s : string) : bool :=
  match s with
  | EmptyString => true
  | String c s' => f c && all_chars f s'
  end.

(** [s] starts with a character of the class [f]. *)
Definition head_in (f : ascii -> bool) (s : string) : bool :=
  match s with
  | String c _ => f c
  | EmptyString => false
  end.

(** [s] is the text [lit], up to case under [re.IGNORECASE]. *)
Fixpoint spells (ic : bool) (lit s : string) : bool :=
  match lit, s with
  | EmptyString, EmptyString => true
  | String a lit', String b s' => char_eq ic a b && spells ic lit' s'
  | _, _ => false
  end.

(** The language of [LITERAL \s+ ([\d.]+) \s+ UNIT] (or [\s*] before the
    unit): [s] starts with a text of that shape, whose group 1 is [g]. *)
Definition matches_here (p : pattern) (s g : string) : Prop :=
  exists lit ws1 ws2 u rest,
    s = (lit ++ ws1 ++ g ++ ws2 ++ u ++ rest)%string /\
    spells (ignorecase p) (literal p) lit = true /\
    all_chars is_space ws1 = true /\ ws1 <> EmptyString /\
    all_chars is_num_char g = true /\ g <> EmptyString /\
    all_chars is_space ws2 = true /\
    (gap_required p = true -> ws2 <> EmptyString) /\
    spells (ignorecase p) (unit_text p) u = true.

(** The unit of the pattern starts with a character that is neither
    whitespace nor part of a number, whatever its case. *)
Definition unit_ok (p : pattern) : Prop :=
  forall u, spells (ignorecase p) (unit_text p) u = true ->
            u <> EmptyString /\
            head_in is_space u = false /\ head_in is_num_char u = false.

(** ** Definitions the statements use *)

Definition nonneg (p : Q) : Prop := 0 <= p.


(** The subprocess ends when [stop()] asks it to: [terminate()] and
    [wait(timeout=2.0)] return, or [wait] times out and [kill()] and
    [wait()] return. *)
Definition subprocess_ends (host : Host) : Prop :=
  Popen_terminate host = Return tt /\
  ((exists code, Popen_wait_timeout host = Return code) \/
   ((exists msg, Popen_wait_timeout host = Raise (TimeoutExpired msg)) /\
    Popen_kill host = Return tt /\
    exists code, Popen_wait host = Return code)).

(** What [MacosMeter.stop] returns when it returns. *)
Definition macos_result (host : Host) (self : MacosMeter.t) : EnergyResult :=
  mkResult
    (match MacosMeter._parse_power_samples self with
     | [] => 0
     | [s] => (s / 1000) * ((time_time host - MacosMeter.start_time self) / 3600)
     | samples =>
         integrate (map (fun p => p / 1000) samples)
                   (dt_hours_of (MacosMeter.sampling_ms self))
     end)
    (time_time host - MacosMeter.start_time self)
    (MacosMeter.sampling_ms self).

(** The fields after [MacosMeter.stop]. *)
Definition macos_stopped (host : Host) (self : MacosMeter.t) : MacosMeter.t :=
  MacosMeter.mk (MacosMeter.sampling_ms self) (MacosMeter.process self)
                (MacosMeter.output_lines self) (MacosMeter.start_time self)
                (time_time host) false.

(** The fields after [NvmlMeter.stop]: the library is marked shut down
    when [nvmlShutdown] returned. *)
Definition nvml_stopped (host : Host) (self : NvmlMeter.t) : NvmlMeter.t :=
  NvmlMeter.mk (NvmlMeter.sampling_ms self) (NvmlMeter.device_index self)
               (NvmlMeter.handle self) (NvmlMeter.power_samples self)
               (NvmlMeter.start_time self) (time_time host) false
               (if NvmlMeter._nvml_initialized self then
                  match nvmlShutdown host with
                  | Return _ => false
                  | Raise _ => true
                  end
                else false).

Definition rocm_stopped (host : Host) (self : RocmSmiMeter.t) : RocmSmiMeter.t :=
  RocmSmiMeter.mk (RocmSmiMeter.sampling_ms self) (RocmSmiMeter.device_index self)
                  (RocmSmiMeter.power_samples self)
                  (RocmSmiMeter.start_time self) (time_time host) false.

(** The values of the iterations that returned, in order. *)
Definition returned {A} (reads : list (outcome A)) : list A :=
  flat_map (fun r => match r with Return a => [a] | Raise _ => [] end) reads.

(** What one run of rocm-smi contributes: a sample when it exited with
    code 0 and its output parsed. *)
Definition rocm_sample (run : outcome (Z * string)) : list Q :=
  match run with
  | Return (code, output) =>
      if (code =? 0)%Z then
        match RocmSmiMeter._parse_power output with
        | Some power_watts => [power_watts]
        | None => []
        end
      else []
  | Raise _ => []
  end.

(** What the three pynvml calls of the probe give. *)
Definition nvml_probe (host : Host) : bool :=
  NVML_AVAILABLE host &&
  match nvmlInit host, nvmlDeviceGetCount host, nvmlShutdown host with
  | Return _, Return device_count, Return _ => (0 <? device_count)%Z
  | _, _, _ => false
  end.

(** [Path.exists()] and [Path.glob()] return on this host. *)
Definition pathlib_returns (host : Host) : Prop :=
  (forall p, exists b, Path_exists host p = Return b) /\
  (exists zones, Path_glob host RaplMeter.rapl_base "intel-rapl:*" = Return zones).

(** [zone] is the counter entry the meter uses: the powercap directory
    exists, and [zone] is the first of its zones, in the order the
    directory lists them, whose [energy_uj] exists. *)
Definition counter_entry (host : Host) (zone : string) : Prop :=
  Path_exists host RaplMeter.rapl_base = Return true /\
  exists before after,
    Path_glob host RaplMeter.rapl_base "intel-rapl:*"
    = Return (before ++ zone :: after)%list /\
    (forall z, In z before ->
               Path_exists host (RaplMeter.energy_file z) = Return false) /\
    Path_exists host (RaplMeter.energy_file zone) = Return true.

(** [self.rapl_path = zone] *)
Definition rapl_with_path (self : RaplMeter.t) (zone : string) : RaplMeter.t :=
  RaplMeter.mk (RaplMeter.sampling_ms self) (Some zone)
               (RaplMeter.start_energy_uj self)
               (RaplMeter.start_time self) (RaplMeter.stop_time self).

(** The counter difference after the wrap-around correction of [stop()]. *)
Definition corrected_diff (start_value stop_value : Q) : Q :=
  if Qltb (stop_value - start_value) 0
  then stop_value - start_value + inject_Z (2 ^ 32)
  else stop_value - start_value.

Definition permission_denied (zone : string) : string :=
  ("Permission denied reading " ++ RaplMeter.energy_file zone ++ ". " ++
   "Please run with sudo or check permissions.")%string.

Definition read_failed (e : exn) : exn :=
  RuntimeError ("Failed to read RAPL energy counter: " ++ exn_str e)%string.

(** The figure a pattern finds on a line: the number of its leftmost
    match, when the matched text is a number. *)
Definition figure (pat : pattern) (line : string) : option Q :=
  match re_search pat line with
  | Some g => py_float g
  | None => None
  end.

Definition cpu_power : pattern := mkPattern "CPU Power:" false true "mW".
Definition gpu_power : pattern := mkPattern "GPU Power:" false true "mW".
Definition package_power : pattern := mkPattern "Package Power:" false true "mW".

(** The pattern matches [line] at no position. *)
Definition no_match (p : pattern) (line : string) : Prop :=
  forall a b g, line = (a ++ b)%string -> ~ matches_here p b g.

(** [g] is group 1 of the leftmost match of the pattern on [line]: the
    pattern matches at the end of [pre] and at no earlier position. *)
Definition leftmost_match (p : pattern) (line g : string) : Prop :=
  exists pre post,
    line = (pre ++ post)%string /\ matches_here p post g /\
    forall a b, line = (a ++ b)%string ->
                (String.length a < String.length pre)%nat ->
                forall g', ~ matches_here p b g'.

(** The pattern has the figure [v] on [line]: the text of its leftmost
    match is a number [float] accepts, and [v] is that number. *)
Definition has_figure (p : pattern) (line : string) (v : Q) : Prop :=
  exists g, leftmost_match p line g /\ py_float g = Some v.

(** The pattern has no figure on [line]: it matches nowhere, or the text
    of its leftmost match is not a number ([ValueError]). *)
Definition no_figure (p : pattern) (line : string) : Prop :=
  no_match p line \/ exists g, leftmost_match p line g /\ py_float g = None.

(** The samples one line contributes, in the specification's words: the
    combined figure when the line has one; otherwise the figure of the
    first fragment pattern, in the order CPU, GPU, package, that has one;
    otherwise nothing. *)
Definition line_samples (line : string) : list Q :=
  match figure MacosMeter.combined line with
  | Some combined_mw => [combined_mw]
  | None =>
      match figure cpu_power line with
      | Some cpu_mw => [cpu_mw]
      | None =>
          match figure gpu_power line with
          | Some gpu_mw => [gpu_mw]
          | None =>
              match figure package_power line with
              | Some package_mw => [package_mw]
              | None => []
              end
          end
      end
  end.

(** ** Hosts used in the examples *)

(** A host on which nothing is installed and every library call fails. *)
Definition bare_host (platform : string) (now : Q) : Host :=
  mkHost platform now
         false (Raise (Exception_ "NVMLError")) (Raise (Exception_ "NVMLError"))
         (fun _ => Raise (Exception_ "NVMLError")) (Raise (Exception_ "NVMLError"))
         (fun _ => Return None)
         (fun _ => Raise (FileNotFoundError "sudo"))
         (Return tt) (Return 0%Z) (Return tt) (Return 0%Z)
         (fun _ => Return false) (fun _ _ => Return [])
         (fun _ => false)
         (fun _ => Raise (FileNotFoundError "energy_uj")).

(** A Linux host with one powercap zone, [intel-rapl:0], whose counter
    holds [counter] microjoules and is readable or not. *)
Definition zone0 : string := "/sys/class/powercap/intel-rapl:0".

Definition rapl_host (now : Q) (readable : bool) (counter : Q) : Host :=
  mkHost "linux" now
         false (Raise (Exception_ "NVMLError")) (Raise (Exception_ "NVMLError"))
         (fun _ => Raise (Exception_ "NVMLError")) (Raise (Exception_ "NVMLError"))
         (fun _ => Return None)
         (fun _ => Raise (FileNotFoundError "sudo"))
         (Return tt) (Return 0%Z) (Return tt) (Return 0%Z)
         (fun p => Return ((p =? RaplMeter.rapl_base)
                           || (p =? RaplMeter.energy_file zone0))%string)
         (fun _ _ => Return [zone0])
         (fun _ => readable)
         (fun _ => if readable then Return counter
                   else Raise (PermissionError "energy_uj")).

(** A Linux host with the NVIDIA library and [n] GPUs, and with rocm-smi
    on the path or not. *)
Definition gpu_host (n : Z) (rocm_smi : bool) : Host :=
  mkHost "linux" 0
         true (Return tt) (Return n) (fun i => Return i) (Return tt)
         (fun cmd => Return (if rocm_smi then Some ("/opt/rocm/bin/" ++ cmd)%string
                             else None))
         (fun _ => Return tt)
         (Return tt) (Return 0%Z) (Return tt) (Return 0%Z)
         (fun _ => Return false) (fun _ _ => Return [])
         (fun _ => false)
         (fun _ => Raise (FileNotFoundError "energy_uj")).

(** A host on which pynvml is installed and the driver is not: every call
    of the library raises. *)
Definition no_driver_host : Host :=
  mkHost "linux" 0
         true (Raise (Exception_ "NVMLError_DriverNotLoaded"))
         (Raise (Exception_ "NVMLError_Uninitialized"))
         (fun _ => Raise (Exception_ "NVMLError_Uninitialized"))
         (Raise (Exception_ "NVMLError_Uninitialized"))
         (fun _ => Return None)
         (fun _ => Raise (FileNotFoundError "sudo"))
         (Return tt) (Return 0%Z) (Return tt) (Return 0%Z)
         (fun _ => Return false) (fun _ _ => Return [])
         (fun _ => false)
         (fun _ => Raise (FileNotFoundError "energy_uj")).

(** A host on which the powercap directory cannot be examined:
    [Path.exists()] re-raises the [OSError] of [stat] when it is not one of
    "no such file", "not a directory", "bad descriptor", "loop". *)
Definition sealed_sysfs_host : Host :=
  mkHost "linux" 0
         false (Raise (Exception_ "NVMLError")) (Raise (Exception_ "NVMLError"))
         (fun _ => Raise (Exception_ "NVMLError")) (Raise (Exception_ "NVMLError"))
         (fun _ => Return None)
         (fun _ => Raise (FileNotFoundError "sudo"))
         (Return tt) (Return 0%Z) (Return tt) (Return 0%Z)
         (fun p => Raise (PermissionError p)) (fun _ _ => Return [])
         (fun _ => false)
         (fun _ => Raise (FileNotFoundError "energy_uj")).

(** ** [main.py]: the test set named on the command line

    Text is text of code points below 256. *)
Module Main.

(** [c.lower()]: the letters A-Z and the capital letters of Latin-1. *)
Definition lower_char (c : ascii) : ascii :=
  let n := nat_of_ascii c in
  if (((65 <=? n) && (n <=? 90)) || ((192 <=? n) && (n <=? 214))
      || ((216 <=? n) && (n <=? 222)))%nat
  then ascii_of_nat (n + 32) else c.

(** [s.lower()] *)
Fixpoint str_lower (s : string) : string :=
  match s with
  | String c s' => String (lower_char c) (str_lower s')
  | EmptyString => EmptyString
  end.

(** [c in chars], for a character [c] *)
Fixpoint in_chars (chars : string) (c : ascii) : bool :=
  match chars with
  | String a chars' => (a =? c)%char || in_chars chars' c
  | EmptyString => false
  end.

(** [s.rstrip(chars)]: [s] without its trailing characters that are in
    [chars]. *)
Fixpoint rstrip_chars (chars s : string) : string :=
  match s with
  | String c s' =>
      let r := rstrip_chars chars s' in
      if in_chars chars c && is_empty r then EmptyString else String c r
  | EmptyString => EmptyString
  end.

(** [s.replace(old, "", 1)], for a text [old] that is not empty: [s]
    without the first occurrence of [old]. *)
Fixpoint remove_first (old s : string) : string :=
  match strip_literal false old s with
  | Some rest => rest
  | None =>
      match s with
      | String c s' => String c (remove_first old s')
      | EmptyString => EmptyString
      end
  end.

(** [needle in s], for two texts *)
Fixpoint contains (needle s : string) : bool :=
  prefix needle s ||
  match s with
  | String _ s' => contains needle s'
  | EmptyString => false
  end.

(** [sorted(l)] for a list of texts: by code points. *)
Fixpoint insort (x : string) (l : list string) : list string :=
  match l with
  | [] => [x]
  | y :: l' => if String.leb x y then x :: l else y :: insort x l'
  end.

Definition sorted (l : list string) : list string := fold_right insort [] l.

(** What [json.load] returns: [None], a bool, an int, a float, a str, a
    list, or a dict, whose keys are distinct, in the order of the file. *)
#[warnings="-register-all"]
Inductive json : Type :=
| JNull
| JBool (b : bool)
| JInt (n : Z)
| JFloat (x : float)
| JStr (s : string)
| JList (l : list json)
| JDict (items : list (string * json)).

(** [with open(testset_path, "r") as f: data = json.load(f)] *)
Inductive json_load : Type :=
| Parsed (data : json)
| JSONDecodeError (e_str : string)      (* [str(e)] *)
| LoadRaised (e : exn).                 (* an exception of another class *)

(** The directory of the test sets, [Path(__file__).parent / "data" /
    "testsets"], as the calls of [main.py] find it.  A path
    [testset_dir / name] is given by [name]. *)
Record TestsetDir : Type := mkTestsetDir {
  testset_dir : string;                        (* [str(testset_dir)] *)
  path_str : string -> string;                 (* [str(testset_dir / name)] *)
  candidate_exists : string -> outcome bool;   (* [(testset_dir / name).exists()] *)
  glob_json : outcome (list string);
      (* [[p.stem for p in testset_dir.glob("*.json")]], in the order the
         directory gives them *)
  load_json : string -> json_load
}.

(** The loop [for candidate in candidates] of [resolve_testset_path];
    [None] when it ends without returning. *)
Fixpoint first_existing (d : TestsetDir) (candidates : list string)
    : outcome (option string) :=
  match candidates with
  | [] => Return None
  | candidate :: rest =>
      match candidate_exists d candidate with
      | Return true => Return (Some candidate)
      | Return false => first_existing d rest
      | Raise e => Raise e
      end
  end.

Definition not_found (d : TestsetDir) (testset_name : string)
    (stems : list string) : string :=
  "Testset '" ++ testset_name ++ "' not found in " ++ testset_dir d ++ ". " ++
  "Available files: " ++ String.concat ", " (sorted stems).

Definition resolve_testset_path (d : TestsetDir) (testset_name : string)
    : outcome string :=
  let normalized := rstrip_chars ".json" (str_lower testset_name) in
  let suffix_candidates :=
    ([normalized] ++
     (if negb (prefix "testset_" normalized) then [("testset_" ++ normalized)%string]
      else []))%list in
  let candidates := map (fun suffix => suffix ++ ".json") suffix_candidates in
  match first_existing d candidates with
  | Return (Some candidate) => Return candidate
  | Return None =>
      match glob_json d with
      | Return stems => Raise (FileNotFoundError (not_found d testset_name stems))
      | Raise e => Raise e
      end
  | Raise e => Raise e
  end.

(** [get_available_testsets]: the names offered for completion. *)
Definition get_available_testsets (d : TestsetDir) : outcome (list string) :=
  match glob_json d with
  | Return stems =>
      Return (sorted (nodup string_dec (map (remove_first "testset_") stems)))
  | Raise e => Raise e
  end.

(** The exceptions of [load_testset]: the [ValueError]s it raises, the
    [TypeError] of [in] on a value that is no container, and what
    [resolve_testset_path], [open] and [json.load] raised. *)
Inductive load_exn : Type :=
| ValueError (msg : string)
| TypeError (msg : string)
| Propagated (e : exn).

Inductive loaded (A : Type) : Type :=
| Ok (a : A)
| Error (e : load_exn).
Arguments Ok {A} a.
Arguments Error {A} e.

(** [key in d], for a dict [d] *)
Definition key_in (key : string) (items : list (string * json)) : bool :=
  existsb (fun kv => (fst kv =? key)%string) items.

(** [d[key]], for a key that is in [d] *)
Definition dict_get (key : string) (items : list (string * json))
    : option json :=
  option_map snd (find (fun kv => (fst kv =? key)%string) items).

(** [v == s], for a text [s] *)
Definition eq_str (s : string) (v : json) : bool :=
  match v with
  | JStr s' => (s' =? s)%string
  | _ => false
  end.

(** ["prompt" in question] *)
Definition prompt_in (question : json) : loaded bool :=
  match question with
  | JDict items => Ok (key_in "prompt" items)
  | JList l => Ok (existsb (eq_str "prompt") l)
  | JStr s => Ok (contains "prompt" s)
  | JNull => Error (TypeError "argument of type 'NoneType' is not iterable")
  | JBool _ => Error (TypeError "argument of type 'bool' is not iterable")
  | JInt _ => Error (TypeError "argument of type 'int' is not iterable")
  | JFloat _ => Error (TypeError "argument of type 'float' is not iterable")
  end.

(** The loop [for question in questions] of [load_testset]. *)
Fixpoint check_questions (questions : list json) : loaded unit :=
  match questions with
  | [] => Ok tt
  | question :: rest =>
      match prompt_in question with
      | Ok true => check_questions rest
      | Ok false =>
          Error (ValueError "Each question must include a 'prompt' field")
      | Error e => Error e
      end
  end.

Definition load_testset (d : TestsetDir) (testset_name : string)
    : loaded (list (string * json) * list json) :=
  match resolve_testset_path d testset_name with
  | Raise e => Error (Propagated e)
  | Return testset_path =>
      match load_json d testset_path with
      | JSONDecodeError e =>
          Error (ValueError ("Invalid JSON in testset file '" ++
                             path_str d testset_path ++ "': " ++ e))
      | LoadRaised e => Error (Propagated e)
      | Parsed data =>
          let shape :=
            match data with
            | JDict items =>
                if key_in "questions" items then
                  option_map
                    (fun questions =>
                       (questions,
                        filter (fun kv => negb (fst kv =? "questions")%string)
                               items))
                    (dict_get "questions" items)
                else None
            | JList l =>
                Some (JList l,
                      [("id", JStr testset_name); ("name", JStr testset_name)])
            | _ => None
            end in
          match shape with
          | None =>
              Error (ValueError
                       ("Testset file must be either a list of prompts or an object " ++
                        "containing a 'questions' array"))
          | Some (questions, metadata) =>
              match questions with
              | JList (question :: rest) =>
                  match check_questions (question :: rest) with
                  | Ok _ => Ok (metadata, question :: rest)
                  | Error e => Error e
                  end
              | _ => Error (ValueError "Testset contains no questions")
              end
          end
      end
  end.

End Main.

(** A directory that holds the files [stem ++ ".json"] for the given
    stems, with the given contents. *)
Definition dir_of (stems : list string) (contents : string -> Main.json_load)
    : Main.TestsetDir :=
  Main.mkTestsetDir
    "src/data/testsets"
    (fun name => "src/data/testsets/" ++ name)
    (fun name => Return (existsb (fun stem => (name =? stem ++ ".json")%string)
                                 stems))
    (Return stems)
    contents.

Definition no_contents (name : string) : Main.json_load :=
  Main.LoadRaised (FileNotFoundError name).

(** ** A tactic to run a method *)

Ltac run_method :=
  unfold bind, ret, raise, try_except, get, set_fields, call; simpl.

(** * Properties *)

Local Open Scope list_scope.

(** ** The trapezoidal loop is the sum over consecutive pairs *)
Section Integrator.

Variable dt : Q.

Lemma integrate_unfold power_watts :
  integrate power_watts dt
  = fold_left (integrate_step power_watts dt) (seq 0 (List.length power_watts - 1)) 0.
Proof. reflexivity. Qed.

(** The loop never indexes outside the list. *)
Lemma integrate_indices_in_range (power_watts : list Q) (i : nat) :
  In i (seq 0 (List.length power_watts - 1)) ->
  (i < List.length power_watts /\ i + 1 < List.length power_watts)%nat.
Proof. rewrite in_seq. lia. Qed.

(** The accumulator can be taken out of the loop. *)
Lemma loop_from_acc power_watts (indices : list nat) (acc : Q) :
  fold_left (integrate_step power_watts dt) indices acc
  == acc + fold_left (integrate_step power_watts dt) indices 0.
Proof.
  revert acc; induction indices as [|i indices IH]; intros acc; simpl.
  - ring.
  - rewrite IH, (IH (integrate_step power_watts dt 0 i)).
    unfold integrate_step. ring.
Qed.

(** Indexing [p :: power_watts] from 1 is indexing [power_watts] from 0. *)
Lemma loop_shift p power_watts (indices : list nat) (acc : Q) :
  fold_left (integrate_step (p :: power_watts) dt) (map S indices) acc
  = fold_left (integrate_step power_watts dt) indices acc.
Proof.
  revert acc; induction indices as [|i indices IH]; intros acc; simpl.
  - reflexivity.
  - rewrite <- IH. reflexivity.
Qed.

Lemma integrate_cons2 p q rest :
  integrate (p :: q :: rest) dt
  == ((p + q) / 2) * dt + integrate (q :: rest) dt.
Proof.
  rewrite !integrate_unfold.
  change (List.length (p :: q :: rest) - 1)%nat with (S (List.length rest)).
  change (List.length (q :: rest) - 1)%nat with (List.length rest - 0)%nat.
  rewrite Nat.sub_0_r.
  rewrite <- cons_seq, <- seq_shift. simpl fold_left.
  rewrite loop_shift, loop_from_acc.
  unfold integrate_step, item. simpl. ring.
Qed.

Lemma integrate_sum_avg_pairs power_watts :
  integrate power_watts dt == sum_avg_pairs power_watts dt.
Proof.
  induction power_watts as [|p [|q rest] IH].
  - reflexivity.
  - reflexivity.
  - rewrite integrate_cons2, IH. reflexivity.
Qed.

End Integrator.

(** ** What [stop()] returns, meter by meter *)

Lemma macos_parse_stopped host self :
  MacosMeter._parse_power_samples (macos_stopped host self)
  = MacosMeter._parse_power_samples self.
Proof. reflexivity. Qed.

Lemma stop_process_fields host self o self' :
  MacosMeter.stop_process host self = (o, self') -> self' = self.
Proof.
  unfold MacosMeter.stop_process. run_method.
  destruct (MacosMeter.process self); [|intros H; injection H as _ <-; reflexivity].
  destruct (Popen_terminate host) as [[]|e]; simpl.
  - destruct (Popen_wait_timeout host) as [code|e]; simpl.
    + intros H; injection H as _ <-; reflexivity.
    + destruct e; simpl; try (intros H; injection H as _ <-; reflexivity).
      destruct (Popen_kill host) as [[]|e]; simpl;
        [destruct (Popen_wait host); simpl|];
        intros H; injection H as _ <-; reflexivity.
  - destruct e; simpl; try (intros H; injection H as _ <-; reflexivity).
    destruct (Popen_kill host) as [[]|e]; simpl;
      [destruct (Popen_wait host); simpl|];
      intros H; injection H as _ <-; reflexivity.
Qed.

Lemma stop_process_ends host self :
  subprocess_ends host ->
  MacosMeter.stop_process host self = (Return tt, self).
Proof.
  intros (Hterm & Hwait). unfold MacosMeter.stop_process. run_method.
  destruct (MacosMeter.process self); [|reflexivity].
  rewrite Hterm. simpl.
  destruct Hwait as [[code ->]|([msg ->] & -> & [code ->])]; reflexivity.
Qed.

Lemma macos_result_stopped host self :
  macos_result host (macos_stopped host self) = macos_result host self.
Proof. reflexivity. Qed.

(** [stop()] returns when the subprocess ends. *)
Lemma macos_stop_eq host self :
  subprocess_ends host ->
  MacosMeter.stop host self
  = (Return (macos_result host self), macos_stopped host self).
Proof.
  intros Hends. unfold MacosMeter.stop, bind at 1, set_fields at 1.
  fold (macos_stopped host self). unfold bind at 1.
  rewrite (stop_process_ends host _ Hends).
  unfold macos_result. run_method. rewrite macos_parse_stopped.
  destruct (MacosMeter._parse_power_samples self) as [|s [|s' rest]];
    reflexivity.
Qed.

(** A [stop()] that returns, returns this. *)
Lemma macos_stop_inv host self r self' :
  MacosMeter.stop host self = (Return r, self') ->
  r = macos_result host self.
Proof.
  unfold MacosMeter.stop, bind at 1, set_fields at 1.
  fold (macos_stopped host self). unfold bind at 1.
  destruct (MacosMeter.stop_process host (macos_stopped host self))
    as [[[]|e] s1] eqn:Hproc; [|discriminate].
  apply stop_process_fields in Hproc. subst s1.
  unfold macos_result. run_method. rewrite macos_parse_stopped.
  destruct (MacosMeter._parse_power_samples self) as [|s [|s' rest]];
    intros H; injection H as <- _; reflexivity.
Qed.

Lemma nvml_stop_eq host self :
  NvmlMeter.stop host self =
  (Return
     (mkResult
        (if (List.length (NvmlMeter.power_samples self) <? 2)%nat then 0
         else integrate (map (fun p => p / 1000) (NvmlMeter.power_samples self))
                        (dt_hours_of (NvmlMeter.sampling_ms self)))
        (time_time host - NvmlMeter.start_time self)
        (NvmlMeter.sampling_ms self)),
   nvml_stopped host self).
Proof.
  unfold NvmlMeter.stop, nvml_stopped. run_method.
  destruct (NvmlMeter._nvml_initialized self) eqn:Hinit; simpl;
    [destruct (nvmlShutdown host) as [[]|e]; simpl|];
    destruct (List.length (NvmlMeter.power_samples self) <? 2)%nat;
    rewrite ?Hinit; reflexivity.
Qed.

Lemma rocm_stop_eq host self :
  RocmSmiMeter.stop host self =
  (Return
     (mkResult
        (if (List.length (RocmSmiMeter.power_samples self) <? 2)%nat then 0
         else integrate (RocmSmiMeter.power_samples self)
                        (dt_hours_of (RocmSmiMeter.sampling_ms self)))
        (time_time host - RocmSmiMeter.start_time self)
        (RocmSmiMeter.sampling_ms self)),
   rocm_stopped host self).
Proof.
  unfold RocmSmiMeter.stop, rocm_stopped. run_method.
  destruct (List.length (RocmSmiMeter.power_samples self) <? 2)%nat; reflexivity.
Qed.

(** The subprocess of the example hosts ends at [terminate()]. *)
Lemma bare_host_subprocess_ends platform now :
  subprocess_ends (bare_host platform now).
Proof. split; [reflexivity|]. left. exists 0%Z. reflexivity. Qed.

(** ** C1: trapezoidal integration of two or more samples *)

(** C1.  With two or more samples, [stop()] of the OS-utility
    ([MacosMeter], once its subprocess has ended), GPU-library
    ([NvmlMeter]) and GPU-CLI ([RocmSmiMeter]) meters returns as
    [energy_wh_raw] the sum, over consecutive pairs of
    samples in watts, of the pair's average times
    [dt_hours = (sampling_ms / 1000) / 3600]; the first two meters divide
    each raw sample (milliwatts) by 1000, the third uses its samples as
    they are. *)
Theorem C1_trapezoid_energy (samples : list Q) :
  (2 <= List.length samples)%nat ->
  (forall host self,
      subprocess_ends host ->
      MacosMeter._parse_power_samples self = samples ->
      exists r,
        fst (MacosMeter.stop host self) = Return r /\
        energy_wh_raw r ==
        sum_avg_pairs (map (fun p => p / 1000) samples)
                      ((inject_Z (MacosMeter.sampling_ms self) / 1000) / 3600))
  /\
  (forall host self,
      NvmlMeter.power_samples self = samples ->
      exists r,
        fst (NvmlMeter.stop host self) = Return r /\
        energy_wh_raw r ==
        sum_avg_pairs (map (fun p => p / 1000) samples)
                      ((inject_Z (NvmlMeter.sampling_ms self) / 1000) / 3600))
  /\
  (forall host self,
      RocmSmiMeter.power_samples self = samples ->
      exists r,
        fst (RocmSmiMeter.stop host self) = Return r /\
        energy_wh_raw r ==
        sum_avg_pairs samples
                      ((inject_Z (RocmSmiMeter.sampling_ms self) / 1000) / 3600)).
Proof.
  intros Hlen.
  assert (Hltb : (List.length samples <? 2)%nat = false)
    by (apply Nat.ltb_ge; exact Hlen).
  split; [|split].
  - intros host self Hends Hs. rewrite macos_stop_eq by exact Hends.
    eexists; split; [reflexivity|]. unfold macos_result. rewrite Hs. simpl.
    destruct samples as [|p [|q rest]]; simpl in Hlen; try lia.
    apply integrate_sum_avg_pairs.
  - intros host self Hs.
    rewrite nvml_stop_eq, Hs, Hltb. eexists; split; [reflexivity|]. simpl.
    apply integrate_sum_avg_pairs.
  - intros host self Hs.
    rewrite rocm_stop_eq, Hs, Hltb. eexists; split; [reflexivity|]. simpl.
    apply integrate_sum_avg_pairs.
Qed.

(** The example of C1: 10 W, 20 W, 30 W every 100 ms, on the GPU-CLI
    meter, give (15 + 25) * (100 / 3600000) Wh. *)
Lemma C1_example_10_20_30 :
  exists r,
    fst (RocmSmiMeter.stop (bare_host "linux" 1)
           (RocmSmiMeter.mk 100 0 [10; 20; 30] 0 0 true)) = Return r /\
    energy_wh_raw r == (15 + 25) * (100 / 3600000).
Proof.
  destruct (C1_trapezoid_energy [10; 20; 30]) as (_ & _ & Hrocm).
  - simpl. lia.
  - destruct (Hrocm (bare_host "linux" 1)
                    (RocmSmiMeter.mk 100 0 [10; 20; 30] 0 0 true) eq_refl)
      as (r & Hr & He).
    exists r. split; [exact Hr|].
    rewrite He. reflexivity.
Defined.

(** The same samples in milliwatts on the GPU-library meter. *)
Example nvml_example_10_20_30 :
  exists r,
    fst (NvmlMeter.stop (bare_host "linux" 1)
           (NvmlMeter.mk 100 0 (Some 0%Z) [10000; 20000; 30000] 0 0 true true))
    = Return r /\
    energy_wh_raw r == (15 + 25) * (100 / 3600000).
Proof. eexists; split; [reflexivity|]. reflexivity. Qed.

(** The same samples as three lines of powermetrics output. *)
Example macos_example_10_20_30 :
  exists r,
    fst (MacosMeter.stop (bare_host "darwin" 1)
           (MacosMeter.mk 100 (Some tt)
              [ "Combined Power (CPU + GPU + ANE): 10000 mW";
                "Combined Power (CPU + GPU + ANE): 20000 mW";
                "Combined Power (CPU + GPU + ANE): 30000 mW" ] 0 0 true))
    = Return r /\
    energy_wh_raw r == (15 + 25) * (100 / 3600000).
Proof. eexists; split; [reflexivity|]. reflexivity. Qed.

(** ** C4: one sample on the OS-utility meter *)

(** C4.  When exactly one sample [s] (milliwatts) was parsed,
    [MacosMeter.stop], once its subprocess has ended, returns [(s / 1000) * (duration_s / 3600)], where
    [duration_s] is the wall-clock time between [start()] and [stop()]. *)
Theorem C4_single_sample host self (s : Q) :
  subprocess_ends host ->
  MacosMeter._parse_power_samples self = [s] ->
  exists r,
    fst (MacosMeter.stop host self) = Return r /\
    energy_wh_raw r = (s / 1000) * (duration_s r / 3600) /\
    duration_s r = time_time host - MacosMeter.start_time self.
Proof.
  intros Hends Hs. rewrite macos_stop_eq by exact Hends.
  eexists; split; [reflexivity|]. unfold macos_result. rewrite Hs.
  split; reflexivity.
Qed.

(** The example of C4: one line with 5000 mW, a window of 0.5 s. *)
Lemma C4_example_5000mW :
  exists r,
    fst (MacosMeter.stop (bare_host "darwin" 0.5)
           (MacosMeter.mk 100 (Some tt)
              ["Combined Power (CPU + GPU + ANE): 5000 mW"] 0 0 true))
    = Return r /\
    energy_wh_raw r == 5.0 * (0.5 / 3600) /\
    duration_s r == 0.5.
Proof.
  destruct (C4_single_sample (bare_host "darwin" 0.5)
              (MacosMeter.mk 100 (Some tt)
                 ["Combined Power (CPU + GPU + ANE): 5000 mW"] 0 0 true)
              5000 (bare_host_subprocess_ends _ _) eq_refl)
    as (r & Hr & He & Hd).
  exists r. split; [exact Hr|]. rewrite He, Hd. split; reflexivity.
Defined.

(** ** A whole measurement on the polling meters *)

Lemma nvml_poll_eq reads self :
  NvmlMeter._running self = true ->
  NvmlMeter._poll_power reads self =
  (Return tt,
   NvmlMeter.mk (NvmlMeter.sampling_ms self) (NvmlMeter.device_index self)
                (NvmlMeter.handle self)
                (NvmlMeter.power_samples self
                 ++ map int_to_float (returned reads))
                (NvmlMeter.start_time self) (NvmlMeter.stop_time self)
                (NvmlMeter._running self) (NvmlMeter._nvml_initialized self)).
Proof.
  revert self; induction reads as [|r reads IH]; intros self Hrun.
  - destruct self; simpl. rewrite app_nil_r. reflexivity.
  - simpl. run_method. rewrite Hrun. destruct r as [p|e]; simpl.
    + rewrite IH by exact Hrun. simpl.
      rewrite ?Hrun, <- app_assoc. reflexivity.
    + rewrite IH by exact Hrun. rewrite ?Hrun. reflexivity.
Qed.

Lemma rocm_poll_eq runs self :
  RocmSmiMeter._running self = true ->
  RocmSmiMeter._poll_power runs self =
  (Return tt,
   RocmSmiMeter.mk (RocmSmiMeter.sampling_ms self) (RocmSmiMeter.device_index self)
                   (RocmSmiMeter.power_samples self ++ flat_map rocm_sample runs)
                   (RocmSmiMeter.start_time self) (RocmSmiMeter.stop_time self)
                   (RocmSmiMeter._running self)).
Proof.
  revert self; induction runs as [|r runs IH]; intros self Hrun.
  - destruct self; simpl. rewrite app_nil_r. reflexivity.
  - simpl. run_method. rewrite Hrun. destruct r as [[code output]|e]; simpl.
    + destruct (code =? 0)%Z; simpl.
      * destruct (RocmSmiMeter._parse_power output) as [w|]; simpl.
        -- rewrite IH by exact Hrun. simpl.
           rewrite ?Hrun, <- app_assoc. reflexivity.
        -- rewrite IH by exact Hrun. rewrite ?Hrun. reflexivity.
      * rewrite IH by exact Hrun. rewrite ?Hrun. reflexivity.
    + rewrite IH by exact Hrun. rewrite ?Hrun. reflexivity.
Qed.

Lemma read_lines_eq (stdout lines : list string) :
  fold_left (fun lines line => lines ++ [strip line]) stdout lines
  = lines ++ map strip stdout.
Proof.
  revert lines; induction stdout as [|line stdout IH]; intros lines; simpl.
  - rewrite app_nil_r. reflexivity.
  - rewrite IH, <- app_assoc. reflexivity.
Qed.

Lemma macos_read_output_eq stdout self :
  MacosMeter.process self = Some tt ->
  MacosMeter._running self = true ->
  MacosMeter._read_output stdout self =
  (Return tt,
   MacosMeter.mk (MacosMeter.sampling_ms self) (MacosMeter.process self)
                 (MacosMeter.output_lines self ++ map strip stdout)
                 (MacosMeter.start_time self) (MacosMeter.stop_time self)
                 (MacosMeter._running self)).
Proof.
  intros Hproc Hrun. unfold MacosMeter._read_output. run_method.
  rewrite Hproc, Hrun, read_lines_eq. rewrite ?Hproc, ?Hrun. reflexivity.
Qed.

(** A [start()] that returns has emptied the samples and recorded the
    clock; the sampling interval is the constructor's. *)
Lemma nvml_start_inv host self self' :
  NvmlMeter.start host self = (Return tt, self') ->
  NvmlMeter.power_samples self' = [] /\
  NvmlMeter.start_time self' = time_time host /\
  NvmlMeter.sampling_ms self' = NvmlMeter.sampling_ms self /\
  NvmlMeter._running self' = true.
Proof.
  unfold NvmlMeter.start. run_method.
  destruct (NVML_AVAILABLE host); simpl; [|discriminate].
  destruct (nvmlInit host) as [[]|e]; simpl; [|discriminate].
  destruct (nvmlDeviceGetHandleByIndex host _) as [h|e]; simpl; [|discriminate].
  intros H; injection H as <-. repeat split.
Qed.

Lemma rocm_start_inv host self self' :
  RocmSmiMeter.start host self = (Return tt, self') ->
  RocmSmiMeter.power_samples self' = [] /\
  RocmSmiMeter.start_time self' = time_time host /\
  RocmSmiMeter.sampling_ms self' = RocmSmiMeter.sampling_ms self /\
  RocmSmiMeter._running self' = true.
Proof.
  unfold RocmSmiMeter.start, RocmSmiMeter.is_available. run_method.
  destruct (shutil_which host "rocm-smi") as [[path|]|e]; simpl;
    try discriminate.
  intros H; injection H as <-. repeat split.
Qed.

Lemma macos_start_inv host self self' :
  MacosMeter.start host self = (Return tt, self') ->
  MacosMeter.output_lines self' = [] /\
  MacosMeter.start_time self' = time_time host /\
  MacosMeter.sampling_ms self' = MacosMeter.sampling_ms self /\
  MacosMeter.process self' = Some tt /\
  MacosMeter._running self' = true.
Proof.
  unfold MacosMeter.start, MacosMeter.is_available. run_method.
  destruct (sys_platform host =? "darwin")%string; simpl; [|discriminate].
  destruct (Popen host _) as [[]|e]; simpl.
  - intros H; injection H as <-. repeat split.
  - destruct e; discriminate.
Qed.

Lemma nvml_cycle_inv host0 reads host1 self r self' :
  nvml_cycle host0 reads host1 self = (Return r, self') ->
  r = mkResult
        (if (List.length (returned reads) <? 2)%nat then 0
         else integrate (map (fun p => p / 1000)
                             (map int_to_float (returned reads)))
                        (dt_hours_of (NvmlMeter.sampling_ms self)))
        (time_time host1 - time_time host0)
        (NvmlMeter.sampling_ms self).
Proof.
  unfold nvml_cycle, bind.
  destruct (NvmlMeter.start host0 self) as [[[]|e] s1] eqn:Hstart;
    [|discriminate].
  apply nvml_start_inv in Hstart. destruct Hstart as (Hp & Ht & Hms & Hrun).
  rewrite nvml_poll_eq, nvml_stop_eq by exact Hrun. simpl. rewrite Hp, Ht, Hms. simpl.
  intros H; injection H as <- _. rewrite length_map. reflexivity.
Qed.

Lemma rocm_cycle_inv host0 runs host1 self r self' :
  rocm_cycle host0 runs host1 self = (Return r, self') ->
  r = mkResult
        (if (List.length (flat_map rocm_sample runs) <? 2)%nat then 0
         else integrate (flat_map rocm_sample runs)
                        (dt_hours_of (RocmSmiMeter.sampling_ms self)))
        (time_time host1 - time_time host0)
        (RocmSmiMeter.sampling_ms self).
Proof.
  unfold rocm_cycle, bind.
  destruct (RocmSmiMeter.start host0 self) as [[[]|e] s1] eqn:Hstart;
    [|discriminate].
  apply rocm_start_inv in Hstart. destruct Hstart as (Hp & Ht & Hms & Hrun).
  rewrite rocm_poll_eq, rocm_stop_eq by exact Hrun. simpl. rewrite Hp, Ht, Hms. simpl.
  intros H; injection H as <- _. reflexivity.
Qed.

(** X2.  On the GPU-library meter a polling iteration whose read raises
    leaves no sample and does not stop the loop: after a [start()] that
    returned, the samples are the values of the iterations that returned,
    in order. *)
Theorem X2_failed_reads_are_skipped host reads self self0 :
  NvmlMeter.start host self = (Return tt, self0) ->
  exists self1,
    NvmlMeter._poll_power reads self0 = (Return tt, self1) /\
    NvmlMeter.power_samples self1 = map int_to_float (returned reads).
Proof.
  intros Hstart. apply nvml_start_inv in Hstart.
  destruct Hstart as (Hp & _ & _ & Hrun).
  rewrite nvml_poll_eq by exact Hrun. eexists. split; [reflexivity|].
  simpl. rewrite Hp. reflexivity.
Qed.

(** Four iterations, the second of which raises: three samples. *)
Lemma X2_example_three_of_four :
  exists self1,
    NvmlMeter._poll_power
      [Return 10000%N; Raise (Exception_ "NVMLError_Unknown");
       Return 20000%N; Return 30000%N]
      (snd (NvmlMeter.start (gpu_host 1 false) (NvmlMeter.init 100 0)))
    = (Return tt, self1) /\
    NvmlMeter.power_samples self1 = [10000; 20000; 30000].
Proof.
  exact (X2_failed_reads_are_skipped (gpu_host 1 false)
           [Return 10000%N; Raise (Exception_ "NVMLError_Unknown");
            Return 20000%N; Return 30000%N]
           (NvmlMeter.init 100 0) _ eq_refl).
Defined.

(** ** C5: fewer than two samples on the polling meters *)

(** C5.  When [stop()] of the GPU-library or the GPU-CLI meter finds
    fewer than two samples (none, or exactly one), it returns
    [energy_wh_raw = 0] and [duration_s] the wall-clock time elapsed since
    [start()]; so does a whole measurement in which fewer than two
    iterations of the polling thread produced a sample. *)
Theorem C5_fewer_than_two_samples :
  (forall host self,
      (List.length (NvmlMeter.power_samples self) < 2)%nat ->
      exists r,
        fst (NvmlMeter.stop host self) = Return r /\
        energy_wh_raw r = 0 /\
        duration_s r = time_time host - NvmlMeter.start_time self)
  /\
  (forall host self,
      (List.length (RocmSmiMeter.power_samples self) < 2)%nat ->
      exists r,
        fst (RocmSmiMeter.stop host self) = Return r /\
        energy_wh_raw r = 0 /\
        duration_s r = time_time host - RocmSmiMeter.start_time self)
  /\
  (forall host0 reads host1 self r self',
      (List.length (returned reads) < 2)%nat ->
      nvml_cycle host0 reads host1 self = (Return r, self') ->
      energy_wh_raw r = 0 /\
      duration_s r = time_time host1 - time_time host0)
  /\
  (forall host0 runs host1 self r self',
      (List.length (flat_map rocm_sample runs) < 2)%nat ->
      rocm_cycle host0 runs host1 self = (Return r, self') ->
      energy_wh_raw r = 0 /\
      duration_s r = time_time host1 - time_time host0).
Proof.
  split; [|split; [|split]].
  - intros host self Hlen. rewrite nvml_stop_eq.
    rewrite (proj2 (Nat.ltb_lt _ _) Hlen).
    eexists; repeat split.
  - intros host self Hlen. rewrite rocm_stop_eq.
    rewrite (proj2 (Nat.ltb_lt _ _) Hlen).
    eexists; repeat split.
  - intros host0 reads host1 self r self' Hlen Hcycle.
    apply nvml_cycle_inv in Hcycle. subst r.
    rewrite (proj2 (Nat.ltb_lt _ _) Hlen). split; reflexivity.
  - intros host0 runs host1 self r self' Hlen Hcycle.
    apply rocm_cycle_inv in Hcycle. subst r.
    rewrite (proj2 (Nat.ltb_lt _ _) Hlen). split; reflexivity.
Qed.

(** One sample is not integrated on the GPU-library meter: 5000 mW alone
    gives 0 Wh, and the duration is still reported. *)
Lemma C5_example_one_sample :
  exists r,
    fst (NvmlMeter.stop (bare_host "linux" 0.5)
           (NvmlMeter.mk 100 0 (Some 0%Z) [5000] 0 0 true true)) = Return r /\
    energy_wh_raw r = 0 /\ duration_s r == 0.5.
Proof.
  destruct (proj1 C5_fewer_than_two_samples (bare_host "linux" 0.5)
              (NvmlMeter.mk 100 0 (Some 0%Z) [5000] 0 0 true true))
    as (r & Hr & He & Hd).
  - simpl. lia.
  - exists r. rewrite Hd. repeat split; [exact Hr|exact He].
Defined.

(** ** The counter meter *)

Lemma Qltb_lt x y : Qltb x y = true <-> x < y.
Proof.
  unfold Qltb. rewrite Qlt_alt. destruct (x ?= y); split; congruence.
Qed.

Lemma Qltb_ge x y : Qltb x y = false <-> y <= x.
Proof.
  pose proof (Qltb_lt x y) as Hlt. pose proof (Qnot_lt_le x y) as Hnot.
  pose proof (Qle_not_lt y x) as Hle.
  destruct (Qltb x y); split; intros H; try congruence.
  - exfalso. apply (Hle H), Hlt. reflexivity.
  - apply Hnot. intros Hxy. apply Hlt in Hxy. discriminate.
Qed.

Lemma scan_zones_finds host before zone after self :
  (forall z, In z before ->
             Path_exists host (RaplMeter.energy_file z) = Return false) ->
  Path_exists host (RaplMeter.energy_file zone) = Return true ->
  RaplMeter.scan_zones host (before ++ zone :: after)%list self
  = (Return true, rapl_with_path self zone).
Proof.
  intros Hbefore Hzone.
  induction before as [|z before IH]; simpl; run_method.
  - rewrite Hzone. reflexivity.
  - rewrite (Hbefore z) by (left; reflexivity).
    apply IH. intros z' Hin. apply Hbefore. right; exact Hin.
Qed.

Lemma rapl_is_available_entry host zone self :
  counter_entry host zone ->
  RaplMeter.is_available host self = (Return true, rapl_with_path self zone).
Proof.
  intros (Hbase & before & after & Hglob & Hbefore & Hzone).
  unfold RaplMeter.is_available. run_method.
  rewrite Hbase. simpl. rewrite Hglob.
  apply scan_zones_finds; assumption.
Qed.

(** [start()] on a host with a counter entry. *)
Lemma rapl_start_eq host zone self :
  counter_entry host zone ->
  RaplMeter.start host self =
  if os_access_R_OK host (RaplMeter.energy_file zone) then
    match read_float host (RaplMeter.energy_file zone) with
    | Return v =>
        (Return tt,
         RaplMeter.mk (RaplMeter.sampling_ms self) (Some zone) v
                      (time_time host) (RaplMeter.stop_time self))
    | Raise e =>
        (Raise (read_failed e),
         RaplMeter.mk (RaplMeter.sampling_ms self) (Some zone)
                      (RaplMeter.start_energy_uj self)
                      (time_time host) (RaplMeter.stop_time self))
    end
  else
    (Raise (PermissionError (permission_denied zone)), rapl_with_path self zone).
Proof.
  intros Hentry. unfold RaplMeter.start, bind at 1.
  rewrite (rapl_is_available_entry host zone self Hentry).
  unfold RaplMeter._read_energy_uj. run_method.
  destruct (os_access_R_OK host (RaplMeter.energy_file zone)); simpl.
  - destruct (read_float host (RaplMeter.energy_file zone)); reflexivity.
  - reflexivity.
Qed.

(** [stop()] of a meter whose path is set. *)
Lemma rapl_stop_eq host self zone :
  RaplMeter.rapl_path self = Some zone ->
  RaplMeter.stop host self =
  let stopped :=
    RaplMeter.mk (RaplMeter.sampling_ms self) (Some zone)
                 (RaplMeter.start_energy_uj self)
                 (RaplMeter.start_time self) (time_time host) in
  match read_float host (RaplMeter.energy_file zone) with
  | Return stop_value =>
      (Return
         (mkResult
            (corrected_diff (RaplMeter.start_energy_uj self) stop_value
             / 3600000000)
            (time_time host - RaplMeter.start_time self)
            (RaplMeter.sampling_ms self)),
       stopped)
  | Raise e => (Raise (read_failed e), stopped)
  end.
Proof.
  intros Hpath. unfold RaplMeter.stop, RaplMeter._read_energy_uj.
  run_method. rewrite Hpath.
  destruct (read_float host (RaplMeter.energy_file zone)); reflexivity.
Qed.

Lemma rapl_host_entry now readable counter :
  counter_entry (rapl_host now readable counter) zone0.
Proof.
  split; [reflexivity|]. exists [], []. repeat split.
  intros z [].
Qed.

(** ** C2: the counter difference and its wrap-around *)

(** C2.  On the CPU counter meter, when [start()] read [start_value] and
    [stop()] reads [stop_value], the measurement returns
    [energy_wh_raw = diff / 3.6e9] with [diff = stop_value - start_value]
    when that is not negative, and
    [diff = stop_value - start_value + 2^32] when it is negative: one wrap
    period, whatever the size of the negative difference. *)
Theorem C2_counter_energy host0 host1 self zone (start_value stop_value : Q) :
  counter_entry host0 zone ->
  os_access_R_OK host0 (RaplMeter.energy_file zone) = true ->
  read_float host0 (RaplMeter.energy_file zone) = Return start_value ->
  read_float host1 (RaplMeter.energy_file zone) = Return stop_value ->
  exists r,
    fst (rapl_cycle host0 host1 self) = Return r /\
    (0 <= stop_value - start_value ->
     energy_wh_raw r == (stop_value - start_value) / 3600000000) /\
    (stop_value - start_value < 0 ->
     energy_wh_raw r
     == (stop_value - start_value + inject_Z (2 ^ 32)) / 3600000000).
Proof.
  intros Hentry Haccess Hstart Hstop.
  unfold rapl_cycle, bind.
  rewrite (rapl_start_eq host0 zone self Hentry), Haccess, Hstart.
  cbv beta iota. erewrite rapl_stop_eq by reflexivity. rewrite Hstop. simpl.
  eexists; split; [reflexivity|]. simpl. unfold corrected_diff.
  split; intros Hdiff.
  - rewrite (proj2 (Qltb_ge _ _) Hdiff). reflexivity.
  - rewrite (proj2 (Qltb_lt _ _) Hdiff). reflexivity.
Qed.

(** The example of C2: the counter goes from 4,000,000,000 uJ to
    1,000,000,000 uJ; the energy is 1,294,967,296 / 3.6e9 Wh. *)
Lemma C2_example_wraparound :
  exists r,
    fst (rapl_cycle (rapl_host 0 true 4000000000) (rapl_host 1 true 1000000000)
                    (RaplMeter.init 100)) = Return r /\
    energy_wh_raw r == 1294967296 / 3600000000.
Proof.
  destruct (C2_counter_energy
              (rapl_host 0 true 4000000000) (rapl_host 1 true 1000000000)
              (RaplMeter.init 100) zone0 4000000000 1000000000
              (rapl_host_entry _ _ _) eq_refl eq_refl eq_refl)
    as (r & Hr & _ & Hwrap).
  exists r. split; [exact Hr|].
  rewrite Hwrap; reflexivity.
Defined.

(** ** C7: an unreadable counter *)



(** ** Probing *)

Lemma nvml_is_available_eq host self :
  NvmlMeter.is_available host self = (Return (nvml_probe host), self).
Proof.
  unfold NvmlMeter.is_available, nvml_probe. run_method.
  destruct (NVML_AVAILABLE host); simpl; [|reflexivity].
  destruct (nvmlInit host) as [[]|e1]; simpl; [|reflexivity].
  destruct (nvmlDeviceGetCount host) as [n|e2]; simpl; [|reflexivity].
  destruct (nvmlShutdown host) as [[]|e3]; reflexivity.
Qed.

Lemma rocm_is_available_eq host self :
  RocmSmiMeter.is_available host self =
  (match shutil_which host "rocm-smi" with
   | Return (Some _) => Return true
   | Return None => Return false
   | Raise e => Raise e
   end, self).
Proof.
  unfold RocmSmiMeter.is_available. run_method.
  destruct (shutil_which host "rocm-smi") as [[path|]|e]; reflexivity.
Qed.

Lemma macos_is_available_eq host self :
  MacosMeter.is_available host self
  = (Return (sys_platform host =? "darwin")%string, self).
Proof. reflexivity. Qed.

(** The scan of the zones returns when every [exists()] it makes does. *)
(** The scan of the zones raises what the first failing [exists()]
    raises. *)
Lemma scan_zones_raises host before zone after self e :
  (forall z, In z before ->
             Path_exists host (RaplMeter.energy_file z) = Return false) ->
  Path_exists host (RaplMeter.energy_file zone) = Raise e ->
  RaplMeter.scan_zones host (before ++ zone :: after) self = (Raise e, self).
Proof.
  intros Hbefore Hzone.
  induction before as [|z before IH]; simpl; run_method.
  - rewrite Hzone. reflexivity.
  - rewrite (Hbefore z) by (left; reflexivity).
    apply IH. intros z' Hin. apply Hbefore. right; exact Hin.
Qed.

Lemma scan_zones_returns host zones self :
  (forall p, exists b, Path_exists host p = Return b) ->
  exists b self', RaplMeter.scan_zones host zones self = (Return b, self').
Proof.
  intros Hexists. induction zones as [|zone zones IH]; simpl; run_method.
  - eauto.
  - destruct (Hexists (RaplMeter.energy_file zone)) as [[|] ->]; simpl; eauto.
Qed.

(** ** C3: the order of the probes on Linux *)

(** C3.  On Linux the selector calls [is_available()] of the GPU-library
    meter, then of the GPU-CLI meter, then of the CPU counter meter, and
    returns the first that answers true without probing the later ones;
    when the GPU-library probe succeeds that meter is returned, whatever
    the GPU-CLI probe would give; when none answers true it raises
    [NotImplementedError] naming the three. *)
Theorem C3_linux_priority host sampling :
  sys_platform host = "linux" ->
  let nvml := NvmlMeter.init sampling 0 in
  let rocm := RocmSmiMeter.init sampling 0 in
  let rapl := RaplMeter.init sampling in
  (fst (NvmlMeter.is_available host nvml) = Return true ->
   get_platform_meter host sampling [] = (Return (Nvml nvml), [NvmlB]))
  /\
  (fst (NvmlMeter.is_available host nvml) = Return false ->
   fst (RocmSmiMeter.is_available host rocm) = Return true ->
   get_platform_meter host sampling []
   = (Return (RocmSmi rocm), [NvmlB; RocmSmiB]))
  /\
  (fst (NvmlMeter.is_available host nvml) = Return false ->
   fst (RocmSmiMeter.is_available host rocm) = Return false ->
   forall rapl',
     RaplMeter.is_available host rapl = (Return true, rapl') ->
     get_platform_meter host sampling []
     = (Return (Rapl rapl'), [NvmlB; RocmSmiB; RaplB]))
  /\
  (fst (NvmlMeter.is_available host nvml) = Return false ->
   fst (RocmSmiMeter.is_available host rocm) = Return false ->
   fst (RaplMeter.is_available host rapl) = Return false ->
   get_platform_meter host sampling []
   = (Raise (NotImplementedError no_linux_meter), [NvmlB; RocmSmiB; RaplB])).
Proof.
  intros Hlinux nvml rocm rapl. subst nvml rocm rapl.
  unfold get_platform_meter, probe, bind, ret, raise.
  rewrite Hlinux. cbn [String.eqb Ascii.eqb Bool.eqb].
  change (@is_available NvmlMeter.t _) with NvmlMeter.is_available.
  change (@is_available RocmSmiMeter.t _) with RocmSmiMeter.is_available.
  change (@is_available RaplMeter.t _) with RaplMeter.is_available.
  rewrite nvml_is_available_eq, rocm_is_available_eq.
  destruct (nvml_probe host);
    destruct (shutil_which host "rocm-smi") as [[path|]|e];
    cbn [fst snd app];
    (split; [|split; [|split]]); try discriminate;
    try (intros _; reflexivity); try (intros _ _; reflexivity).
  - intros _ _ rapl' ->. reflexivity.
  - intros _ _.
    destruct (RaplMeter.is_available host _) as [[[|]|e] rapl'];
      cbn [fst snd app]; try discriminate.
    reflexivity.
Qed.

(** Both GPU probes succeed: the GPU-library meter is returned and
    rocm-smi is not looked for. *)
Lemma C3_example_both_gpus :
  fst (RocmSmiMeter.is_available (gpu_host 1 true) (RocmSmiMeter.init 100 0))
  = Return true /\
  get_platform_meter (gpu_host 1 true) 100 []
  = (Return (Nvml (NvmlMeter.init 100 0)), [NvmlB]).
Proof.
  split; [reflexivity|].
  exact (proj1 (C3_linux_priority (gpu_host 1 true) 100 eq_refl) eq_refl).
Defined.

(** ** C10: the selector on macOS *)

(** C10.  On a host whose [sys.platform] is ["darwin"],
    [MacosMeter.is_available] returns true whatever else the host holds
    (it reads nothing but the platform: not the path, not the utility),
    and the selector returns the OS-utility meter without raising, having
    probed nothing else. *)
Theorem C10_darwin_selects_macos host sampling :
  sys_platform host = "darwin" ->
  (forall self, MacosMeter.is_available host self = (Return true, self)) /\
  get_platform_meter host sampling []
  = (Return (Macos (MacosMeter.init sampling)), [MacosB]).
Proof.
  intros Hdarwin. split.
  - intros self. rewrite macos_is_available_eq, Hdarwin. reflexivity.
  - unfold get_platform_meter, probe, bind, ret.
    change (@is_available MacosMeter.t _) with MacosMeter.is_available.
    rewrite macos_is_available_eq, Hdarwin. reflexivity.
Qed.

(** A macOS host on which nothing is installed: the meter is selected. *)
Lemma C10_example_nothing_installed :
  shutil_which (bare_host "darwin" 0) "powermetrics" = Return None /\
  get_platform_meter (bare_host "darwin" 0) 100 []
  = (Return (Macos (MacosMeter.init 100)), [MacosB]).
Proof.
  split; [reflexivity|].
  exact (proj2 (C10_darwin_selects_macos (bare_host "darwin" 0) 100 eq_refl)).
Defined.

(** On that host the missing utility shows only at [start()]. *)
Example macos_start_without_utility :
  fst (MacosMeter.start (bare_host "darwin" 0) (MacosMeter.init 100))
  = Raise (RuntimeError "powermetrics command not found. Is this macOS?").
Proof. reflexivity. Qed.

(** ** C6: what a probe does with an exception *)

(** What each probe does with an exception.
    [NvmlMeter.is_available] never raises: a missing module and every
    exception of [nvmlInit], [nvmlDeviceGetCount] and [nvmlShutdown] give
    false.  [MacosMeter.is_available] never raises: it compares the
    platform.  [RocmSmiMeter.is_available] and [RaplMeter.is_available]
    handle no exception: they return a boolean whenever [shutil.which],
    [Path.exists] and [Path.glob] return, and raise what these raise. *)
Lemma probe_outcomes host :
  (forall self,
      (exists b, NvmlMeter.is_available host self = (Return b, self)) /\
      ((NVML_AVAILABLE host = false \/
        (exists e, nvmlInit host = Raise e) \/
        (exists e, nvmlDeviceGetCount host = Raise e) \/
        (exists e, nvmlShutdown host = Raise e) \/
        nvmlDeviceGetCount host = Return 0%Z) ->
       NvmlMeter.is_available host self = (Return false, self)))
  /\
  (forall self, exists b, MacosMeter.is_available host self = (Return b, self))
  /\
  (forall self,
      (forall found, shutil_which host "rocm-smi" = Return found ->
                     exists b, RocmSmiMeter.is_available host self = (Return b, self)) /\
      (shutil_which host "rocm-smi" = Return None ->
       RocmSmiMeter.is_available host self = (Return false, self)) /\
      (forall e, shutil_which host "rocm-smi" = Raise e ->
                 RocmSmiMeter.is_available host self = (Raise e, self)))
  /\
  (forall self,
      (pathlib_returns host ->
       exists b self', RaplMeter.is_available host self = (Return b, self')) /\
      (Path_exists host RaplMeter.rapl_base = Return false ->
       RaplMeter.is_available host self = (Return false, self)) /\
      (forall e, Path_exists host RaplMeter.rapl_base = Raise e ->
                 RaplMeter.is_available host self = (Raise e, self)) /\
      (forall e, Path_exists host RaplMeter.rapl_base = Return true ->
                 Path_glob host RaplMeter.rapl_base "intel-rapl:*" = Raise e ->
                 RaplMeter.is_available host self = (Raise e, self)) /\
      (forall e before zone after,
          Path_exists host RaplMeter.rapl_base = Return true ->
          Path_glob host RaplMeter.rapl_base "intel-rapl:*"
          = Return (before ++ zone :: after) ->
          (forall z, In z before ->
                     Path_exists host (RaplMeter.energy_file z) = Return false) ->
          Path_exists host (RaplMeter.energy_file zone) = Raise e ->
          RaplMeter.is_available host self = (Raise e, self))).
Proof.
  split; [|split; [|split]]; intros self.
  - rewrite nvml_is_available_eq. split; [eauto|].
    unfold nvml_probe.
    intros [-> | [[e ->] | [[e ->] | [[e ->] | ->]]]];
      [reflexivity| | | |];
      destruct (NVML_AVAILABLE host); simpl; try reflexivity;
      destruct (nvmlInit host) as [[]|e1]; try reflexivity;
      try (destruct (nvmlDeviceGetCount host) as [n|e2]; reflexivity);
      destruct (nvmlShutdown host) as [[]|e3]; reflexivity.
  - rewrite macos_is_available_eq. eauto.
  - rewrite rocm_is_available_eq. repeat split.
    + intros found ->. destruct found; eauto.
    + intros ->. reflexivity.
    + intros e ->. reflexivity.
  - unfold RaplMeter.is_available. run_method. repeat split.
    + intros (Hexists & zones & Hglob).
      destruct (Hexists RaplMeter.rapl_base) as [[|] Hbase];
        unfold RaplMeter.rapl_base in *; rewrite Hbase; simpl; eauto.
      rewrite Hglob. apply scan_zones_returns. exact Hexists.
    + unfold RaplMeter.rapl_base. intros ->. reflexivity.
    + unfold RaplMeter.rapl_base. intros e ->. reflexivity.
    + unfold RaplMeter.rapl_base. intros e -> ->. reflexivity.
    + unfold RaplMeter.rapl_base. intros e before zone after -> ->.
      simpl. apply scan_zones_raises.
Qed.

(** pynvml is installed, the driver is not: [nvmlInit] raises and the
    probe answers false; the other probes of that host answer false too. *)
Example probe_outcomes_no_driver :
  nvmlInit no_driver_host = Raise (Exception_ "NVMLError_DriverNotLoaded") /\
  NvmlMeter.is_available no_driver_host (NvmlMeter.init 100 0)
  = (Return false, NvmlMeter.init 100 0) /\
  RocmSmiMeter.is_available no_driver_host (RocmSmiMeter.init 100 0)
  = (Return false, RocmSmiMeter.init 100 0) /\
  RaplMeter.is_available no_driver_host (RaplMeter.init 100)
  = (Return false, RaplMeter.init 100).
Proof.
  destruct (probe_outcomes no_driver_host) as (Hnvml & _ & Hrocm & Hrapl).
  split; [reflexivity|]. split; [|split].
  - apply (proj2 (Hnvml (NvmlMeter.init 100 0))).
    right; left. eexists; reflexivity.
  - exact (proj1 (proj2 (Hrocm (RocmSmiMeter.init 100 0))) eq_refl).
  - exact (proj1 (proj2 (Hrapl (RaplMeter.init 100))) eq_refl).
Defined.

(** C6.  The code misses the claim on the counter meter.  On a host
    where [Path("/sys/class/powercap").exists()] raises [PermissionError]
    (the directory cannot be examined), [RaplMeter.is_available] raises
    it, where the claim has it return false; the selector, which calls
    the probe unguarded, raises it too, in place of the
    [NotImplementedError] it documents.  The probe of the GPU-library
    meter, beside it, never raises: it returns a boolean on every host. *)
Theorem C6_rapl_probe_raises :
  Path_exists sealed_sysfs_host RaplMeter.rapl_base
  = Raise (PermissionError "/sys/class/powercap") /\
  RaplMeter.is_available sealed_sysfs_host (RaplMeter.init 100)
  = (Raise (PermissionError "/sys/class/powercap"), RaplMeter.init 100) /\
  ~ (exists b,
        fst (RaplMeter.is_available sealed_sysfs_host (RaplMeter.init 100))
        = Return b) /\
  get_platform_meter sealed_sysfs_host 100 []
  = (Raise (PermissionError "/sys/class/powercap"),
     [NvmlB; RocmSmiB; RaplB]) /\
  (forall host self,
      exists b, NvmlMeter.is_available host self = (Return b, self)).
Proof.
  split; [reflexivity|]. split; [reflexivity|]. split; [|split].
  - intros [b Hb]. discriminate Hb.
  - reflexivity.
  - intros host self. rewrite nvml_is_available_eq. eauto.
Qed.

(** ** The matcher is the regular expression *)

Lemma strip_literal_spells ic lit s rest :
  strip_literal ic lit s = Some rest ->
  exists l, s = (l ++ rest)%string /\ spells ic lit l = true.
Proof.
  revert s; induction lit as [|a lit IH]; intros s; simpl.
  - intros H; injection H as ->. exists EmptyString. split; reflexivity.
  - destruct s as [|b s]; [discriminate|].
    destruct (char_eq ic a b) eqn:Hab; [|discriminate].
    intros H. destruct (IH s H) as (l & -> & Hl).
    exists (String b l). split; [reflexivity|]. simpl. rewrite Hab. exact Hl.
Qed.

Lemma spells_strip_literal ic lit l rest :
  spells ic lit l = true ->
  strip_literal ic lit (l ++ rest)%string = Some rest.
Proof.
  revert l; induction lit as [|a lit IH]; intros [|b l]; simpl;
    try discriminate.
  - reflexivity.
  - destruct (char_eq ic a b); [|discriminate]. apply IH.
Qed.

Lemma span_spec f s a b :
  span f s = (a, b) ->
  s = (a ++ b)%string /\ all_chars f a = true /\ head_in f b = false.
Proof.
  revert a b; induction s as [|c s IH]; intros a b; simpl.
  - intros H; injection H as <- <-. repeat split.
  - destruct (f c) eqn:Hc.
    + destruct (span f s) as [a' b'] eqn:Hs.
      intros H; injection H as <- <-.
      destruct (IH a' b' eq_refl) as (-> & Ha & Hb).
      simpl. rewrite Hc. repeat split; assumption.
    + intros H; injection H as <- <-. simpl. rewrite Hc. repeat split.
Qed.

Lemma span_longest f a b :
  all_chars f a = true -> head_in f b = false ->
  span f (a ++ b)%string = (a, b).
Proof.
  intros Ha Hb. induction a as [|c a IH]; simpl in *.
  - destruct b as [|d b]; [reflexivity|]. simpl in *. rewrite Hb.
    reflexivity.
  - apply andb_true_iff in Ha. destruct Ha as [Hc Ha].
    rewrite Hc, (IH Ha). reflexivity.
Qed.

Lemma is_empty_false s : is_empty s = false <-> s <> EmptyString.
Proof. destruct s; simpl; split; congruence. Qed.

Lemma head_in_app f a b :
  a <> EmptyString -> head_in f (a ++ b)%string = head_in f a.
Proof. destruct a; [congruence|reflexivity]. Qed.

(** No character is both whitespace and part of a number. *)
Lemma space_not_num c : is_space c = true -> is_num_char c = false.
Proof.
  destruct c as [[] [] [] [] [] [] [] []]; vm_compute; congruence.
Qed.

Lemma head_space_not_num s :
  s <> EmptyString -> all_chars is_space s = true ->
  head_in is_num_char s = false.
Proof.
  destruct s as [|c s]; [congruence|]. simpl. intros _ H.
  apply andb_true_iff in H. apply space_not_num, H.
Qed.

Lemma head_num_not_space s :
  s <> EmptyString -> all_chars is_num_char s = true ->
  head_in is_space s = false.
Proof.
  destruct s as [|c s]; [congruence|]. simpl. intros _ H.
  apply andb_true_iff in H. destruct H as [H _].
  destruct (is_space c) eqn:Hs; [|reflexivity].
  apply space_not_num in Hs. congruence.
Qed.

(** Matching at a position decides the language of the pattern, and the
    group is the only one possible. *)
Lemma match_here_spec p s g :
  unit_ok p -> (match_here p s = Some g <-> matches_here p s g).
Proof.
  intros Hunit. unfold match_here, matches_here. split.
  - destruct (strip_literal _ (literal p) s) as [s1|] eqn:Hlit; [|discriminate].
    destruct (span is_space s1) as [ws1 s2] eqn:H1.
    destruct (is_empty ws1) eqn:He1; [discriminate|].
    destruct (span is_num_char s2) as [g' s3] eqn:H2.
    destruct (is_empty g') eqn:He2; [discriminate|].
    destruct (span is_space s3) as [ws2 s4] eqn:H3.
    destruct (gap_required p && is_empty ws2) eqn:Hgap; [discriminate|].
    destruct (strip_literal _ (unit_text p) s4) as [rest|] eqn:Hu;
      [|discriminate].
    intros H; injection H as ->.
    apply strip_literal_spells in Hlit. destruct Hlit as (lit & -> & Hlit).
    apply strip_literal_spells in Hu. destruct Hu as (u & -> & Hu).
    apply span_spec in H1. destruct H1 as (-> & Hws1 & _).
    apply span_spec in H2. destruct H2 as (-> & Hg & _).
    apply span_spec in H3. destruct H3 as (-> & Hws2 & _).
    exists lit, ws1, ws2, u, rest.
    repeat split; try assumption; try (apply is_empty_false; assumption).
    intros Hreq. rewrite Hreq in Hgap. apply is_empty_false. exact Hgap.
  - intros (lit & ws1 & ws2 & u & rest & -> & Hlit & Hws1 & Hne1 & Hg & Hneg
            & Hws2 & Hgap & Hu).
    destruct (Hunit u Hu) as (Hneu & Hus & Hun).
    rewrite (spells_strip_literal _ _ _ _ Hlit).
    rewrite (span_longest is_space ws1 _ Hws1)
      by (rewrite head_in_app by exact Hneg;
          apply head_num_not_space; assumption).
    rewrite (proj2 (is_empty_false ws1) Hne1).
    rewrite (span_longest is_num_char g _ Hg).
    2:{ destruct ws2 as [|c ws2].
        - simpl. rewrite head_in_app by exact Hneu. exact Hun.
        - rewrite head_in_app by discriminate.
          apply head_space_not_num; [discriminate|exact Hws2]. }
    rewrite (proj2 (is_empty_false g) Hneg).
    rewrite (span_longest is_space ws2 _ Hws2)
      by (rewrite head_in_app by exact Hneu; exact Hus).
    assert (Hcheck : gap_required p && is_empty ws2 = false).
    { destruct (gap_required p); [|reflexivity]. simpl.
      apply is_empty_false, Hgap. reflexivity. }
    rewrite Hcheck, (spells_strip_literal _ _ _ _ Hu). reflexivity.
Qed.

(** The units of the patterns of both parsers. *)
Lemma unit_ok_mW lit gap : unit_ok (mkPattern lit false gap "mW").
Proof.
  intros [|c [|d [|e u]]]; cbn [ignorecase unit_text spells char_eq];
    try discriminate.
  - rewrite andb_false_r. discriminate.
  - intros H. apply andb_true_iff in H.
    destruct H as [Hc _]. apply Ascii.eqb_eq in Hc. subst c.
    repeat split. discriminate.
  - rewrite !andb_false_r. discriminate.
Qed.

Lemma unit_ok_W lit gap : unit_ok (mkPattern lit true gap "W").
Proof.
  intros [|c [|d u]]; cbn [ignorecase unit_text spells char_eq];
    try discriminate.
  - rewrite andb_true_r. intros H. split; [discriminate|].
    destruct c as [[] [] [] [] [] [] [] []]; vm_compute in H;
      try discriminate H; split; reflexivity.
  - rewrite andb_false_r. discriminate.
Qed.

Lemma parser_patterns_unit_ok p :
  In p (MacosMeter.patterns ++ RocmSmiMeter.patterns) -> unit_ok p.
Proof.
  simpl. intros [<-|[<-|[<-|[<-|[<-|[<-|[<-|[]]]]]]]];
    first [apply unit_ok_mW | apply unit_ok_W].
Qed.

Lemma re_search_unfold p s :
  re_search p s =
  match match_here p s with
  | Some g => Some g
  | None => match s with
            | String _ s' => re_search p s'
            | EmptyString => None
            end
  end.
Proof. destruct s; reflexivity. Qed.

(** [re_search] returns the group of the leftmost position at which the
    pattern matches. *)
Lemma re_search_some p s g :
  unit_ok p ->
  (re_search p s = Some g <->
   exists pre post,
     s = (pre ++ post)%string /\ matches_here p post g /\
     forall a b, s = (a ++ b)%string ->
                 (String.length a < String.length pre)%nat ->
                 forall g', ~ matches_here p b g').
Proof.
  intros Hunit. split.
  - revert g; induction s as [|c s IH]; intros g; rewrite re_search_unfold.
    + destruct (match_here p EmptyString) as [g0|] eqn:Hm; [|discriminate].
      intros H; injection H as ->.
      exists EmptyString, EmptyString. split; [reflexivity|].
      split; [apply match_here_spec; assumption|].
      intros a b _ Hlt. inversion Hlt.
    + destruct (match_here p (String c s)) as [g0|] eqn:Hm.
      * intros H; injection H as ->.
        exists EmptyString, (String c s). split; [reflexivity|].
        split; [apply match_here_spec; assumption|].
        intros a b _ Hlt. inversion Hlt.
      * intros H. destruct (IH g H) as (pre & post & -> & Hpost & Hleft).
        exists (String c pre), post. split; [reflexivity|].
        split; [exact Hpost|].
        intros [|c' a] b Hs Hlt g' Hb.
        -- simpl in Hs. subst b.
           apply match_here_spec in Hb; [|exact Hunit]. congruence.
        -- simpl in Hs. injection Hs as -> Hs. simpl in Hlt.
           apply (Hleft a b Hs ltac:(lia) g' Hb).
  - intros (pre & post & -> & Hpost & Hleft).
    induction pre as [|c pre IH]; rewrite re_search_unfold.
    + simpl. apply match_here_spec in Hpost; [|exact Hunit].
      rewrite Hpost. reflexivity.
    + destruct (match_here p (String c pre ++ post)) as [g0|] eqn:Hm.
      * exfalso. apply match_here_spec in Hm; [|exact Hunit].
        apply (Hleft EmptyString (String c pre ++ post)%string eq_refl
                 ltac:(simpl; lia) g0 Hm).
      * simpl. apply IH. intros a b Hs Hlt g' Hb.
        apply (Hleft (String c a) b) with (g' := g');
          [simpl; rewrite Hs; reflexivity| |exact Hb].
        simpl. lia.
Qed.

(** [re_search] finds nothing exactly when the pattern matches at no
    position. *)
Lemma re_search_none p s :
  unit_ok p ->
  (re_search p s = None <->
   forall a b g, s = (a ++ b)%string -> ~ matches_here p b g).
Proof.
  intros Hunit. split.
  - intros Hnone a b g Hs Hb.
    assert (Hsome : exists g0, re_search p s = Some g0).
    { subst s. clear Hnone. induction a as [|c a IH];
        rewrite re_search_unfold.
      - simpl. apply match_here_spec in Hb; [|exact Hunit].
        rewrite Hb. eauto.
      - destruct (match_here p (String c a ++ b)); [eauto|exact IH]. }
    destruct Hsome as [g0 Hg0]. congruence.
  - intros Hno. destruct (re_search p s) as [g|] eqn:Hs; [|reflexivity].
    apply re_search_some in Hs; [|exact Hunit].
    destruct Hs as (pre & post & Hs & Hpost & _).
    exfalso. apply (Hno pre post g Hs Hpost).
Qed.

(** X1.  For each pattern of the powermetrics and rocm-smi parsers,
    [re_search] is [re.search] on ASCII text: it returns group 1 of the
    leftmost position at which the regular expression matches, and
    nothing exactly when it matches at no position. *)
Theorem X1_re_search_is_leftmost_match p s :
  In p (MacosMeter.patterns ++ RocmSmiMeter.patterns) ->
  (forall g,
      re_search p s = Some g <->
      exists pre post,
        s = (pre ++ post)%string /\ matches_here p post g /\
        forall a b, s = (a ++ b)%string ->
                    (String.length a < String.length pre)%nat ->
                    forall g', ~ matches_here p b g')
  /\
  (re_search p s = None <->
   forall a b g, s = (a ++ b)%string -> ~ matches_here p b g).
Proof.
  intros Hp. apply parser_patterns_unit_ok in Hp. split.
  - intros g. apply re_search_some. exact Hp.
  - apply re_search_none. exact Hp.
Qed.

(** The combined figure of a line that starts with a CPU fragment: the
    match begins after the fragment. *)
Lemma X1_example_combined :
  exists pre post,
    "CPU Power: 100 mW  Combined Power (CPU + GPU + ANE): 300 mW"
    = (pre ++ post)%string /\
    matches_here MacosMeter.combined post "300".
Proof.
  destruct (proj1 (proj1 (X1_re_search_is_leftmost_match
                            MacosMeter.combined
                            "CPU Power: 100 mW  Combined Power (CPU + GPU + ANE): 300 mW"
                            (or_introl eq_refl)) "300") eq_refl)
    as (pre & post & Hs & Hm & _).
  exists pre, post. split; assumption.
Defined.

(** ** C8: the combined figure and the fragment figures *)

Lemma parse_line_samples line power_samples :
  MacosMeter.parse_line line power_samples
  = power_samples ++ line_samples line.
Proof.
  unfold MacosMeter.parse_line, line_samples, figure.
  change (tl MacosMeter.patterns) with [cpu_power; gpu_power; package_power].
  destruct (re_search MacosMeter.combined line) as [g|];
    [destruct (py_float g) as [v|]; [reflexivity|]|];
    simpl;
    (destruct (re_search cpu_power line) as [g1|];
     [destruct (py_float g1); [reflexivity|]|]);
    (destruct (re_search gpu_power line) as [g2|];
     [destruct (py_float g2); [reflexivity|]|]);
    (destruct (re_search package_power line) as [g3|];
     [destruct (py_float g3); [reflexivity|]|]);
    rewrite app_nil_r; reflexivity.
Qed.

Lemma parse_lines_samples lines power_samples :
  fold_left (fun acc line => MacosMeter.parse_line line acc) lines power_samples
  = power_samples ++ flat_map line_samples lines.
Proof.
  revert power_samples; induction lines as [|line lines IH]; intros acc; simpl.
  - rewrite app_nil_r. reflexivity.
  - rewrite IH, parse_line_samples, <- app_assoc. reflexivity.
Qed.

(** The figure computed is the figure of the leftmost match. *)
Lemma figure_has_figure p line v :
  unit_ok p -> (figure p line = Some v <-> has_figure p line v).
Proof.
  intros Hunit. unfold figure, has_figure, leftmost_match. split.
  - destruct (re_search p line) as [g|] eqn:Hs; [|discriminate].
    intros Hv. exists g. split; [|exact Hv].
    apply re_search_some; assumption.
  - intros (g & Hg & Hv).
    apply (re_search_some p line g Hunit) in Hg. rewrite Hg. exact Hv.
Qed.

Lemma figure_no_figure p line :
  unit_ok p -> (figure p line = None <-> no_figure p line).
Proof.
  intros Hunit. unfold figure, no_figure, no_match, leftmost_match. split.
  - destruct (re_search p line) as [g|] eqn:Hs.
    + intros Hv. right. exists g. split; [|exact Hv].
      apply re_search_some; assumption.
    + intros _. left. apply re_search_none; assumption.
  - intros [Hno|(g & Hg & Hv)].
    + apply (re_search_none p line Hunit) in Hno. rewrite Hno. reflexivity.
    + apply (re_search_some p line g Hunit) in Hg. rewrite Hg. exact Hv.
Qed.

(** A line is parsed by itself: what it adds does not depend on the
    samples before it. *)
Lemma parse_line_alone line power_samples :
  MacosMeter.parse_line line power_samples
  = power_samples ++ MacosMeter.parse_line line [].
Proof. rewrite !parse_line_samples. reflexivity. Qed.

(** C8 (as the code has it).  For every captured line: when the leftmost
    match of the combined CPU+GPU+ANE pattern on the line holds a number
    [float] accepts, the parser appends that figure and nothing else,
    whatever fragment figures (CPU, GPU, package) the line has.  When the
    combined pattern matches nowhere on the line, or its leftmost match
    holds no such number, the fragment patterns are tried in the fixed
    order CPU, GPU, package, and the first whose leftmost match holds a
    number [float] accepts gives the one sample of the line; when none
    does the line gives no sample.  The samples are those of the lines,
    in order. *)
Theorem C8_leftmost_combined_takes_precedence :
  (forall line power_samples combined_mw,
      has_figure MacosMeter.combined line combined_mw ->
      MacosMeter.parse_line line power_samples = power_samples ++ [combined_mw])
  /\
  (forall line power_samples,
      no_figure MacosMeter.combined line ->
      (forall cpu_mw,
          has_figure cpu_power line cpu_mw ->
          MacosMeter.parse_line line power_samples = power_samples ++ [cpu_mw])
      /\
      (no_figure cpu_power line ->
       (forall gpu_mw,
           has_figure gpu_power line gpu_mw ->
           MacosMeter.parse_line line power_samples
           = power_samples ++ [gpu_mw])
       /\
       (no_figure gpu_power line ->
        (forall package_mw,
            has_figure package_power line package_mw ->
            MacosMeter.parse_line line power_samples
            = power_samples ++ [package_mw])
        /\
        (no_figure package_power line ->
         MacosMeter.parse_line line power_samples = power_samples))))
  /\
  (forall self,
      MacosMeter._parse_power_samples self
      = flat_map (fun line => MacosMeter.parse_line line [])
                 (MacosMeter.output_lines self)).
Proof.
  assert (Hu : forall lit, unit_ok (mkPattern lit false true "mW"))
    by (intros lit; apply unit_ok_mW).
  split; [|split].
  - intros line acc v Hc.
    apply (figure_has_figure MacosMeter.combined _ _ (Hu _)) in Hc.
    rewrite parse_line_samples. unfold line_samples. rewrite Hc. reflexivity.
  - intros line acc Hc.
    apply (figure_no_figure MacosMeter.combined _ (Hu _)) in Hc.
    rewrite parse_line_samples. unfold line_samples. rewrite Hc. split.
    { intros v Hv. apply (figure_has_figure cpu_power _ _ (Hu _)) in Hv.
      rewrite Hv. reflexivity. }
    intros Hcpu. apply (figure_no_figure cpu_power _ (Hu _)) in Hcpu.
    rewrite Hcpu. split.
    { intros v Hv. apply (figure_has_figure gpu_power _ _ (Hu _)) in Hv.
      rewrite Hv. reflexivity. }
    intros Hgpu. apply (figure_no_figure gpu_power _ (Hu _)) in Hgpu.
    rewrite Hgpu. split.
    { intros v Hv. apply (figure_has_figure package_power _ _ (Hu _)) in Hv.
      rewrite Hv. reflexivity. }
    intros Hpkg. apply (figure_no_figure package_power _ (Hu _)) in Hpkg.
    rewrite Hpkg. apply app_nil_r.
  - intros self. unfold MacosMeter._parse_power_samples.
    rewrite parse_lines_samples. cbn [app].
    induction (MacosMeter.output_lines self) as [|line lines IH];
      [reflexivity|].
    cbn [flat_map]. rewrite IH, parse_line_samples. reflexivity.
Qed.

(** A line with a CPU fragment before the combined figure: only the
    combined figure is taken. *)
Lemma C8_example_combined_after_fragment :
  has_figure cpu_power
    "CPU Power: 100 mW  Combined Power (CPU + GPU + ANE): 300 mW" 100 /\
  MacosMeter.parse_line
    "CPU Power: 100 mW  Combined Power (CPU + GPU + ANE): 300 mW" []
  = [300].
Proof.
  split.
  - apply figure_has_figure; [apply unit_ok_mW|reflexivity].
  - apply (proj1 C8_leftmost_combined_takes_precedence
             "CPU Power: 100 mW  Combined Power (CPU + GPU + ANE): 300 mW"
             [] 300).
    apply figure_has_figure; [apply unit_ok_mW|reflexivity].
Defined.

(** The claim as stated fails on a line whose first combined text is not
    a number: the line holds the combined figure 300 further on, and the
    parser appends the CPU fragment, 5. *)
Lemma C8_counterexample_malformed_combined_first :
  let line :=
    "Combined Power (CPU + GPU + ANE): 1.2.3 mW Combined Power (CPU + GPU + ANE): 300 mW CPU Power: 5 mW" in
  (exists pre post,
      line = (pre ++ post)%string /\
      matches_here MacosMeter.combined post "300") /\
  py_float "300" = Some 300 /\
  has_figure cpu_power line 5 /\
  MacosMeter.parse_line line [] = [5] /\
  MacosMeter.parse_line line [] <> [300].
Proof.
  cbv zeta. split; [|split; [|split; [|split]]].
  - exists "Combined Power (CPU + GPU + ANE): 1.2.3 mW ",
           "Combined Power (CPU + GPU + ANE): 300 mW CPU Power: 5 mW".
    split; [reflexivity|].
    apply match_here_spec; [apply unit_ok_mW|reflexivity].
  - reflexivity.
  - apply figure_has_figure; [apply unit_ok_mW|reflexivity].
  - reflexivity.
  - discriminate.
Qed.

(** Without a combined figure the order of the patterns decides, not the
    order on the line. *)
Example fragments_in_pattern_order :
  MacosMeter.parse_line "GPU Power: 7 mW  CPU Power: 5 mW" [] = [5] /\
  MacosMeter.parse_line "Package Power: 9 mW  GPU Power: 7 mW" [] = [7] /\
  MacosMeter.parse_line "Package Power: 9 mW" [] = [9] /\
  MacosMeter.parse_line "E-Cluster HW active frequency: 1100 MHz" [] = [].
Proof. repeat split. Qed.

(** ** C9: signs of the result *)

(** The number [float] reads from digits and dots is not negative. *)
Lemma float_digits_nonneg g :
  forall mant frac any_digit v,
    (0 <= mant)%Z ->
    float_digits g mant frac any_digit = Some v -> nonneg v.
Proof.
  induction g as [|c g IH]; cbn [float_digits];
    intros mant frac any_digit v Hmant Hv.
  - destruct any_digit; [|discriminate]. injection Hv as <-.
    unfold nonneg, Qle. cbn [Qnum Qden]. lia.
  - destruct (is_digit c).
    + apply IH in Hv; [exact Hv|]. lia.
    + destruct (c =? ".")%char; [|discriminate].
      destruct frac; [discriminate|]. apply IH in Hv; assumption.
Qed.

Lemma figure_nonneg pat line v : figure pat line = Some v -> nonneg v.
Proof.
  unfold figure, py_float. destruct (re_search pat line) as [g|];
    [|discriminate].
  apply float_digits_nonneg. lia.
Qed.

Lemma line_samples_nonneg line : Forall nonneg (line_samples line).
Proof.
  unfold line_samples.
  destruct (figure MacosMeter.combined line) eqn:H0;
    [|destruct (figure cpu_power line) eqn:H1;
      [|destruct (figure gpu_power line) eqn:H2;
        [|destruct (figure package_power line) eqn:H3]]];
    try (constructor; [eapply figure_nonneg; eassumption|]); constructor.
Qed.

Lemma flat_map_Forall {A B} (P : B -> Prop) (f : A -> list B) (l : list A) :
  (forall a, Forall P (f a)) -> Forall P (flat_map f l).
Proof.
  intros Hf. induction l as [|a l IH]; simpl.
  - constructor.
  - apply Forall_app. split; [apply Hf|exact IH].
Qed.

(** Every sample the powermetrics parser produces is non-negative. *)
Lemma macos_samples_nonneg self :
  Forall nonneg (MacosMeter._parse_power_samples self).
Proof.
  unfold MacosMeter._parse_power_samples. rewrite parse_lines_samples.
  apply flat_map_Forall, line_samples_nonneg.
Qed.

Lemma rocm_parse_with_nonneg pats output v :
  RocmSmiMeter.parse_with pats output = Some v -> nonneg v.
Proof.
  induction pats as [|pat pats IH]; simpl; [discriminate|].
  destruct (re_search pat output) as [g|] eqn:Hg; [|exact IH].
  destruct (py_float g) as [w|] eqn:Hw; [|exact IH].
  intros H; injection H as <-.
  apply (figure_nonneg pat output). unfold figure. rewrite Hg. exact Hw.
Qed.

(** Every sample the rocm-smi parser produces is non-negative. *)
Lemma rocm_samples_nonneg runs : Forall nonneg (flat_map rocm_sample runs).
Proof.
  apply flat_map_Forall. intros [[code output]|e]; simpl; [|constructor].
  destruct (code =? 0)%Z; [|constructor].
  destruct (RocmSmiMeter._parse_power output) as [w|] eqn:Hw; [|constructor].
  constructor; [|constructor].
  apply (rocm_parse_with_nonneg _ _ _ Hw).
Qed.

Lemma sum_avg_pairs_nonneg power_watts dt :
  Forall nonneg power_watts -> 0 <= dt -> 0 <= sum_avg_pairs power_watts dt.
Proof.
  intros Hp Hdt. induction Hp as [|p rest Hp Hrest IH]; simpl.
  - apply Qle_refl.
  - destruct rest as [|q rest]; [apply Qle_refl|].
    inversion Hrest as [|? ? Hq _]; subst. unfold nonneg in *.
    assert (Havg : 0 <= (p + q) / 2).
    { apply Qle_shift_div_l; [reflexivity|]. lra. }
    specialize (Qmult_le_0_compat _ _ Havg Hdt). lra.
Qed.

Lemma integrate_nonneg power_watts dt :
  Forall nonneg power_watts -> 0 <= dt -> 0 <= integrate power_watts dt.
Proof.
  intros Hp Hdt. rewrite integrate_sum_avg_pairs.
  apply sum_avg_pairs_nonneg; assumption.
Qed.

Lemma dt_hours_nonneg sampling : (0 < sampling)%Z -> 0 <= dt_hours_of sampling.
Proof.
  intros Hpos. unfold dt_hours_of.
  assert (0 <= inject_Z sampling) by (unfold Qle; simpl; lia).
  apply Qle_shift_div_l; [reflexivity|].
  apply Qle_shift_div_l; [reflexivity|]. lra.
Qed.

Lemma readings_nonneg (readings : list N) :
  Forall nonneg (map int_to_float readings).
Proof.
  apply Forall_map, Forall_forall. intros n _.
  unfold nonneg, int_to_float, Qle. simpl. lia.
Qed.

Lemma watts_nonneg samples :
  Forall nonneg samples -> Forall nonneg (map (fun p => p / 1000) samples).
Proof.
  intros H. apply Forall_map. eapply Forall_impl; [|exact H].
  intros p Hp. unfold nonneg in *.
  apply Qle_shift_div_l; [reflexivity|]. lra.
Qed.

Lemma macos_cycle_inv host0 stdout host1 self r self' :
  macos_cycle host0 stdout host1 self = (Return r, self') ->
  exists samples,
    Forall nonneg samples /\
    r = mkResult
          (match samples with
           | [] => 0
           | [s] => (s / 1000) * ((time_time host1 - time_time host0) / 3600)
           | _ => integrate (map (fun p => p / 1000) samples)
                            (dt_hours_of (MacosMeter.sampling_ms self))
           end)
          (time_time host1 - time_time host0)
          (MacosMeter.sampling_ms self).
Proof.
  unfold macos_cycle, bind.
  destruct (MacosMeter.start host0 self) as [[[]|e] s1] eqn:Hstart;
    [|discriminate].
  apply macos_start_inv in Hstart.
  destruct Hstart as (Hl & Ht & Hms & Hproc & Hrun).
  rewrite macos_read_output_eq by assumption.
  intros Hstop. apply macos_stop_inv in Hstop. subst r.
  unfold macos_result. cbn [MacosMeter.start_time MacosMeter.sampling_ms].
  rewrite Ht, Hms.
  match goal with
  | |- context [MacosMeter._parse_power_samples ?s] =>
      exists (MacosMeter._parse_power_samples s)
  end.
  split; [apply macos_samples_nonneg|].
  destruct (MacosMeter._parse_power_samples _) as [|s [|s2 rest]];
    reflexivity.
Qed.

(** The scan of the zones changes no field but the path. *)
Lemma scan_zones_inv host zones self b self' :
  RaplMeter.scan_zones host zones self = (Return b, self') ->
  (b = false /\ self' = self) \/
  (b = true /\ exists zone, self' = rapl_with_path self zone).
Proof.
  induction zones as [|zone zones IH]; simpl; run_method.
  - intros H; injection H as <- <-. left; split; reflexivity.
  - destruct (Path_exists host (RaplMeter.energy_file zone)) as [[|]|e];
      simpl; [| exact IH | discriminate].
    intros H; injection H as <- <-. right; split; [reflexivity|].
    exists zone; reflexivity.
Qed.

Lemma rapl_is_available_inv host self b self' :
  RaplMeter.is_available host self = (Return b, self') ->
  (b = false /\ self' = self) \/
  (b = true /\ exists zone, self' = rapl_with_path self zone).
Proof.
  unfold RaplMeter.is_available. run_method.
  destruct (Path_exists host _) as [[|]|e]; simpl; [| |discriminate].
  - destruct (Path_glob host _ _) as [zones|e]; simpl; [|discriminate].
    apply scan_zones_inv.
  - intros H; injection H as <- <-. left; split; reflexivity.
Qed.

(** A [start()] that returns has found a zone and read its counter. *)
Lemma rapl_start_inv host self self' :
  RaplMeter.start host self = (Return tt, self') ->
  exists zone start_value,
    read_float host (RaplMeter.energy_file zone) = Return start_value /\
    self' = RaplMeter.mk (RaplMeter.sampling_ms self) (Some zone) start_value
                         (time_time host) (RaplMeter.stop_time self).
Proof.
  unfold RaplMeter.start, bind at 1.
  destruct (RaplMeter.is_available host self) as [[b|e] s1] eqn:Havail;
    [|discriminate].
  apply rapl_is_available_inv in Havail.
  destruct Havail as [[-> ->]|[-> [zone ->]]]; [discriminate|].
  unfold RaplMeter._read_energy_uj. run_method.
  destruct (os_access_R_OK host (RaplMeter.energy_file zone)); simpl;
    [|discriminate].
  destruct (read_float host (RaplMeter.energy_file zone)) as [v|e] eqn:Hread;
    simpl; [|discriminate].
  intros H; injection H as <-. exists zone, v.
  split; [exact Hread|reflexivity].
Qed.

Lemma rapl_cycle_inv host0 host1 self r self' :
  rapl_cycle host0 host1 self = (Return r, self') ->
  exists zone start_value stop_value,
    read_float host0 (RaplMeter.energy_file zone) = Return start_value /\
    read_float host1 (RaplMeter.energy_file zone) = Return stop_value /\
    r = mkResult (corrected_diff start_value stop_value / 3600000000)
                 (time_time host1 - time_time host0)
                 (RaplMeter.sampling_ms self).
Proof.
  unfold rapl_cycle, bind.
  destruct (RaplMeter.start host0 self) as [[[]|e] s1] eqn:Hstart;
    [|discriminate].
  apply rapl_start_inv in Hstart.
  destruct Hstart as (zone & v0 & Hread0 & ->).
  erewrite rapl_stop_eq by reflexivity. cbv zeta.
  destruct (read_float host1 (RaplMeter.energy_file zone)) as [v1|e] eqn:Hread1;
    [|discriminate].
  intros H; injection H as <- _.
  exists zone, v0, v1. repeat split; assumption.
Qed.

Lemma corrected_diff_nonneg start_value stop_value :
  start_value - stop_value <= inject_Z (2 ^ 32) ->
  0 <= corrected_diff start_value stop_value.
Proof.
  intros Hrange. unfold corrected_diff.
  destruct (Qltb (stop_value - start_value) 0) eqn:Hlt.
  - lra.
  - apply Qltb_ge in Hlt. exact Hlt.
Qed.

(** C9 (as the code has it).  A measurement that returns gives
    [energy_wh_raw >= 0], [duration_s >= 0] and a positive [sampling_ms]
    when the meter was built with a positive sampling interval and the
    clock read by [stop()] is not before the one read by [start()], and
    - on the OS-utility and GPU-CLI meters: always (their parsers read
      unsigned numbers);
    - on the GPU-library meter: always (the library's readings are
      unsigned);
    - on the CPU counter meter: when the counter fell by at most 2^32
      between [start()] and [stop()] (as it does when both readings lie in
      the range of 2^32 microjoules the correction assumes). *)
Theorem C9_nonnegative_result :
  (forall host0 stdout host1 self r self',
      (0 < MacosMeter.sampling_ms self)%Z ->
      time_time host0 <= time_time host1 ->
      macos_cycle host0 stdout host1 self = (Return r, self') ->
      0 <= energy_wh_raw r /\ 0 <= duration_s r /\ (0 < sampling_ms r)%Z)
  /\
  (forall host0 reads host1 self r self',
      (0 < NvmlMeter.sampling_ms self)%Z ->
      time_time host0 <= time_time host1 ->
      nvml_cycle host0 reads host1 self = (Return r, self') ->
      0 <= energy_wh_raw r /\ 0 <= duration_s r /\ (0 < sampling_ms r)%Z)
  /\
  (forall host0 runs host1 self r self',
      (0 < RocmSmiMeter.sampling_ms self)%Z ->
      time_time host0 <= time_time host1 ->
      rocm_cycle host0 runs host1 self = (Return r, self') ->
      0 <= energy_wh_raw r /\ 0 <= duration_s r /\ (0 < sampling_ms r)%Z)
  /\
  (forall host0 host1 self r self',
      (0 < RaplMeter.sampling_ms self)%Z ->
      time_time host0 <= time_time host1 ->
      (forall zone start_value stop_value,
          read_float host0 (RaplMeter.energy_file zone) = Return start_value ->
          read_float host1 (RaplMeter.energy_file zone) = Return stop_value ->
          start_value - stop_value <= inject_Z (2 ^ 32)) ->
      rapl_cycle host0 host1 self = (Return r, self') ->
      0 <= energy_wh_raw r /\ 0 <= duration_s r /\ (0 < sampling_ms r)%Z).
Proof.
  split; [|split; [|split]].
  - intros host0 stdout host1 self r self' Hms Hclock Hcycle.
    apply macos_cycle_inv in Hcycle. destruct Hcycle as (samples & Hs & ->).
    cbn [energy_wh_raw duration_s sampling_ms].
    assert (Hd : 0 <= time_time host1 - time_time host0) by lra.
    repeat split; [|exact Hd|exact Hms].
    destruct samples as [|s [|s2 rest]].
    + apply Qle_refl.
    + inversion Hs as [|? ? Hs0 _]; subst. unfold nonneg in Hs0.
      apply Qmult_le_0_compat.
      * apply Qle_shift_div_l; [reflexivity|]. lra.
      * apply Qle_shift_div_l; [reflexivity|]. lra.
    + apply integrate_nonneg;
        [apply watts_nonneg; exact Hs|apply dt_hours_nonneg; exact Hms].
  - intros host0 reads host1 self r self' Hms Hclock Hcycle.
    apply nvml_cycle_inv in Hcycle. subst r.
    cbn [energy_wh_raw duration_s sampling_ms].
    repeat split; [|lra|exact Hms].
    destruct (List.length (returned reads) <? 2)%nat; [apply Qle_refl|].
    apply integrate_nonneg;
      [apply watts_nonneg, readings_nonneg|apply dt_hours_nonneg; exact Hms].
  - intros host0 runs host1 self r self' Hms Hclock Hcycle.
    apply rocm_cycle_inv in Hcycle. subst r.
    cbn [energy_wh_raw duration_s sampling_ms].
    repeat split; [|lra|exact Hms].
    destruct (List.length (flat_map rocm_sample runs) <? 2)%nat;
      [apply Qle_refl|].
    apply integrate_nonneg;
      [apply rocm_samples_nonneg|apply dt_hours_nonneg; exact Hms].
  - intros host0 host1 self r self' Hms Hclock Hrange Hcycle.
    apply rapl_cycle_inv in Hcycle.
    destruct Hcycle as (zone & v0 & v1 & Hread0 & Hread1 & ->).
    cbn [energy_wh_raw duration_s sampling_ms].
    repeat split; [|lra|exact Hms].
    apply Qle_shift_div_l; [reflexivity|].
    pose proof (corrected_diff_nonneg v0 v1 (Hrange zone v0 v1 Hread0 Hread1)).
    lra.
Qed.

(** The wrap-around of C2 stays within one period: the result is not
    negative. *)
Lemma C9_example_one_wrap :
  exists r,
    fst (rapl_cycle (rapl_host 0 true 4000000000) (rapl_host 1 true 1000000000)
                    (RaplMeter.init 100)) = Return r /\
    0 <= energy_wh_raw r /\ 0 <= duration_s r /\ (0 < sampling_ms r)%Z.
Proof.
  eexists. split; [reflexivity|].
  eapply (proj2 (proj2 (proj2 C9_nonnegative_result))
            (rapl_host 0 true 4000000000) (rapl_host 1 true 1000000000)
            (RaplMeter.init 100)).
  - reflexivity.
  - discriminate.
  - intros zone v0 v1 H0 H1. injection H0 as <-. injection H1 as <-.
    discriminate.
  - reflexivity.
Defined.

(** The claim as stated fails on the counter meter: a counter that reads
    5,000,000,000 uJ at [start()] and 0 uJ at [stop()] (it wrapped at a
    maximum above 2^32) gives a negative energy, the clock going forward
    and the sampling interval being positive. *)
Lemma C9_counterexample_negative_energy :
  exists r,
    fst (rapl_cycle (rapl_host 0 true 5000000000) (rapl_host 1 true 0)
                    (RaplMeter.init 100)) = Return r /\
    energy_wh_raw r == - (705032704 / 3600000000) /\
    ~ (0 <= energy_wh_raw r).
Proof.
  eexists. split; [reflexivity|]. split; [reflexivity|].
  intros H. vm_compute in H. apply H. reflexivity.
Qed.

(** ** Further examples *)

(** [float] on the texts the patterns can capture. *)
Example py_float_examples :
  py_float "5000" = Some 5000 /\
  py_float "12.50" = Some (1250 # 100) /\
  py_float "1." = Some 1 /\
  py_float ".5" = Some (5 # 10) /\
  py_float "." = None /\
  py_float "1.2.3" = None.
Proof. repeat split. Qed.

(** The number of the leftmost match is the one read: a malformed first
    match is not replaced by a later well-formed one. *)
Example leftmost_match_decides :
  MacosMeter.parse_line
    "Combined Power (CPU + GPU + ANE): 1.2.3 mW  Combined Power (CPU + GPU + ANE): 300 mW"
    [] = [] /\
  MacosMeter.parse_line
    "Combined Power (CPU + GPU + ANE): 1.2.3 mW  CPU Power: 5 mW" [] = [5].
Proof. split; reflexivity. Qed.

(** A read that raises is skipped: three samples out of four iterations. *)
Example nvml_skips_failed_read :
  exists r self',
    nvml_cycle (gpu_host 1 false)
               [Return 10000%N; Raise (Exception_ "NVMLError_Unknown");
                Return 20000%N; Return 30000%N]
               (gpu_host 1 false) (NvmlMeter.init 100 0) = (Return r, self') /\
    NvmlMeter.power_samples self' = [10000; 20000; 30000] /\
    energy_wh_raw r == (15 + 25) * (100 / 3600000).
Proof.
  do 2 eexists. split; [vm_compute; reflexivity|].
  split; vm_compute; reflexivity.
Qed.

(** rocm-smi: a run that fails, a run without a figure, two runs with
    one.  The figures are watts. *)
Example rocm_cycle_example :
  exists r self',
    rocm_cycle (gpu_host 0 true)
               [Return (0%Z, "GPU[0] : Average Graphics Package Power: 35.0 W");
                Return (1%Z, "ERROR");
                Raise (Exception_ "TimeoutExpired");
                Return (0%Z, "GPU[0] : Temperature: 40.0 c");
                Return (0%Z, "GPU[0] : average graphics package power: 37.0W")]
               (gpu_host 0 true) (RocmSmiMeter.init 100 0) = (Return r, self') /\
    RocmSmiMeter.power_samples self' = [35.0; 37.0] /\
    energy_wh_raw r == 36 * (100 / 3600000).
Proof.
  do 2 eexists. split; [vm_compute; reflexivity|].
  split; vm_compute; reflexivity.
Qed.

(** An unreadable counter is still available: the probe looks for the
    entry, not at its permissions. *)
Example rapl_probe_ignores_permissions :
  fst (RaplMeter.is_available (rapl_host 0 false 0) (RaplMeter.init 100))
  = Return true.
Proof. reflexivity. Qed.

(** On binary64 numbers the loop gives the example of the specification
    exactly as well. *)
Example binary64_trapezoid_example :
  Binary64.integrate [10; 20; 30]%float ((100 / 1000) / 3600)%float
  = ((15 + 25) * (100 / 3600000))%float.
Proof. vm_compute. reflexivity. Qed.

(** * More of the meters *)

(** ** The trapezoidal loop in closed form *)










(** ** What [start()] does, whatever the meter held before *)

(** [start()] either returns for every meter built with the same
    arguments, leaving the same fields but the old stop time, or raises
    the same exception for all of them. *)
Lemma macos_start_uniform host sampling :
  (forall self, MacosMeter.sampling_ms self = sampling ->
     MacosMeter.start host self
     = (Return tt,
        MacosMeter.mk sampling (Some tt) [] (time_time host)
                      (MacosMeter.stop_time self) true)) \/
  (exists msg, forall self, MacosMeter.sampling_ms self = sampling ->
     fst (MacosMeter.start host self) = Raise (RuntimeError msg)).
Proof.
  destruct (sys_platform host =? "darwin")%string eqn:Hp.
  - destruct (Popen host (MacosMeter.cmd (MacosMeter.init sampling)))
      as [[]|e] eqn:HP.
    + left. intros self <-.
      unfold MacosMeter.start, MacosMeter.is_available. run_method.
      rewrite Hp. simpl. unfold MacosMeter.cmd in *. simpl in *.
      rewrite HP. reflexivity.
    + right.
      exists (match e with
              | FileNotFoundError _ =>
                  "powermetrics command not found. Is this macOS?"
              | _ => "Failed to start powermetrics: " ++ exn_str e
              end)%string.
      intros self <-.
      unfold MacosMeter.start, MacosMeter.is_available. run_method.
      rewrite Hp. simpl. unfold MacosMeter.cmd in *. simpl in *.
      rewrite HP. destruct e; reflexivity.
  - right. eexists. intros self _.
    unfold MacosMeter.start, MacosMeter.is_available. run_method.
    rewrite Hp. reflexivity.
Qed.

Lemma nvml_start_uniform host device :
  (exists h, forall self, NvmlMeter.device_index self = device ->
     NvmlMeter.start host self
     = (Return tt,
        NvmlMeter.mk (NvmlMeter.sampling_ms self) device (Some h) []
                     (time_time host) (NvmlMeter.stop_time self) true true)) \/
  (exists msg, forall self, NvmlMeter.device_index self = device ->
     fst (NvmlMeter.start host self) = Raise (RuntimeError msg)).
Proof.
  destruct (NVML_AVAILABLE host) eqn:Ha.
  - destruct (nvmlInit host) as [[]|e] eqn:Hi.
    + destruct (nvmlDeviceGetHandleByIndex host device) as [h|e] eqn:Hh.
      * left. exists h. intros self <-.
        unfold NvmlMeter.start. run_method. rewrite Ha. simpl.
        rewrite Hi. simpl. rewrite Hh. reflexivity.
      * right. eexists. intros self <-.
        unfold NvmlMeter.start. run_method. rewrite Ha. simpl.
        rewrite Hi. simpl. rewrite Hh. reflexivity.
    + right. eexists. intros self _.
      unfold NvmlMeter.start. run_method. rewrite Ha. simpl.
      rewrite Hi. reflexivity.
  - right. eexists. intros self _.
    unfold NvmlMeter.start. run_method. rewrite Ha. reflexivity.
Qed.

Lemma rocm_start_uniform host :
  (forall self,
     RocmSmiMeter.start host self
     = (Return tt,
        RocmSmiMeter.mk (RocmSmiMeter.sampling_ms self)
                        (RocmSmiMeter.device_index self) [] (time_time host)
                        (RocmSmiMeter.stop_time self) true)) \/
  (exists e, (shutil_which host "rocm-smi" = Raise e \/
              exists msg, e = RuntimeError msg) /\
     forall self, RocmSmiMeter.start host self = (Raise e, self)).
Proof.
  destruct (shutil_which host "rocm-smi") as [[path|]|e] eqn:Hw.
  - left. intros self.
    unfold RocmSmiMeter.start, RocmSmiMeter.is_available. run_method.
    rewrite Hw. reflexivity.
  - right. eexists. split; [right; eexists; reflexivity|]. intros self.
    unfold RocmSmiMeter.start, RocmSmiMeter.is_available. run_method.
    rewrite Hw. reflexivity.
  - right. exists e. split; [left; reflexivity|]. intros self.
    unfold RocmSmiMeter.start, RocmSmiMeter.is_available. run_method.
    rewrite Hw. reflexivity.
Qed.

(** The probe of the counter meter does the same whatever the fields:
    it finds a zone and caches it, or finds none and changes nothing, or
    raises what the file system raised. *)
Lemma scan_zones_uniform host zones :
  (exists zone, In zone zones /\
      Path_exists host (RaplMeter.energy_file zone) = Return true /\
      forall self,
      RaplMeter.scan_zones host zones self
      = (Return true, rapl_with_path self zone)) \/
  (forall self, RaplMeter.scan_zones host zones self = (Return false, self)) \/
  (exists e, forall self,
      RaplMeter.scan_zones host zones self = (Raise e, self)).
Proof.
  induction zones as [|zone zones IH]; simpl.
  - right; left. reflexivity.
  - run_method.
    destruct (Path_exists host (RaplMeter.energy_file zone)) as [[|]|e] eqn:He;
      simpl.
    + left. exists zone. repeat split; auto.
    + destruct IH as [(z & Hin & Hz & H)|[H|H]].
      * left. exists z. repeat split; auto.
      * right; left. exact H.
      * right; right. exact H.
    + right; right. exists e. reflexivity.
Qed.

Lemma rapl_probe_uniform host :
  (exists zone,
      Path_exists host (RaplMeter.energy_file zone) = Return true /\
      forall self,
      RaplMeter.is_available host self
      = (Return true, rapl_with_path self zone)) \/
  (forall self, RaplMeter.is_available host self = (Return false, self)) \/
  (exists e, forall self,
      RaplMeter.is_available host self = (Raise e, self)).
Proof.
  unfold RaplMeter.is_available. run_method.
  destruct (Path_exists host RaplMeter.rapl_base) as [[|]|e]; simpl.
  - destruct (Path_glob host _ _) as [zones|e]; simpl.
    + destruct (scan_zones_uniform host zones) as [(z & Hin & Hz & H)|[H|H]].
      * left. exists z. split; assumption.
      * right; left. exact H.
      * right; right. exact H.
    + right; right. exists e. reflexivity.
  - right; left. reflexivity.
  - right; right. exists e. reflexivity.
Qed.

Lemma rapl_start_found host zone :
  (forall self, RaplMeter.is_available host self
                = (Return true, rapl_with_path self zone)) ->
  forall self,
  RaplMeter.start host self =
  if os_access_R_OK host (RaplMeter.energy_file zone) then
    match read_float host (RaplMeter.energy_file zone) with
    | Return v =>
        (Return tt,
         RaplMeter.mk (RaplMeter.sampling_ms self) (Some zone) v
                      (time_time host) (RaplMeter.stop_time self))
    | Raise e =>
        (Raise (read_failed e),
         RaplMeter.mk (RaplMeter.sampling_ms self) (Some zone)
                      (RaplMeter.start_energy_uj self)
                      (time_time host) (RaplMeter.stop_time self))
    end
  else
    (Raise (PermissionError (permission_denied zone)), rapl_with_path self zone).
Proof.
  intros Hz self. unfold RaplMeter.start, bind at 1. rewrite Hz.
  unfold RaplMeter._read_energy_uj. run_method.
  destruct (os_access_R_OK host (RaplMeter.energy_file zone)); simpl.
  - destruct (read_float host (RaplMeter.energy_file zone)); reflexivity.
  - reflexivity.
Qed.

Lemma rapl_start_not_found host :
  (forall self, RaplMeter.is_available host self = (Return false, self)) ->
  forall self,
  RaplMeter.start host self
  = (Raise (RuntimeError
              ("RAPL interface not available. " ++
               "Ensure you're on a Linux system with Intel/AMD CPU.")), self).
Proof.
  intros Hz self. unfold RaplMeter.start, bind at 1. rewrite Hz. reflexivity.
Qed.

Lemma rapl_start_probe_raises host e :
  (forall self, RaplMeter.is_available host self = (Raise e, self)) ->
  forall self, RaplMeter.start host self = (Raise e, self).
Proof.
  intros Hz self. unfold RaplMeter.start, bind at 1. rewrite Hz. reflexivity.
Qed.

Lemma macos_stop_congr host self1 self2 :
  MacosMeter.sampling_ms self1 = MacosMeter.sampling_ms self2 ->
  MacosMeter.process self1 = MacosMeter.process self2 ->
  MacosMeter.output_lines self1 = MacosMeter.output_lines self2 ->
  MacosMeter.start_time self1 = MacosMeter.start_time self2 ->
  fst (MacosMeter.stop host self1) = fst (MacosMeter.stop host self2).
Proof.
  destruct self1, self2; simpl. intros -> -> -> ->. reflexivity.
Qed.

(** ** A meter that is used again *)

(** X5.  The outcome of a measurement (the result, or the exception)
    depends on the meter object only through the arguments it was built
    with: the samples, lines, times, path and flags that an earlier
    measurement left in a stopped meter have no effect on the next one. *)
Theorem X5_measurement_ignores_earlier_state host0 host1 :
  (forall stdout self1 self2,
      MacosMeter._running self1 = false ->
      MacosMeter._running self2 = false ->
      MacosMeter.sampling_ms self1 = MacosMeter.sampling_ms self2 ->
      fst (macos_cycle host0 stdout host1 self1)
      = fst (macos_cycle host0 stdout host1 self2))
  /\
  (forall reads self1 self2,
      NvmlMeter._running self1 = false ->
      NvmlMeter._running self2 = false ->
      NvmlMeter.sampling_ms self1 = NvmlMeter.sampling_ms self2 ->
      NvmlMeter.device_index self1 = NvmlMeter.device_index self2 ->
      fst (nvml_cycle host0 reads host1 self1)
      = fst (nvml_cycle host0 reads host1 self2))
  /\
  (forall runs self1 self2,
      RocmSmiMeter._running self1 = false ->
      RocmSmiMeter._running self2 = false ->
      RocmSmiMeter.sampling_ms self1 = RocmSmiMeter.sampling_ms self2 ->
      fst (rocm_cycle host0 runs host1 self1)
      = fst (rocm_cycle host0 runs host1 self2))
  /\
  (forall self1 self2,
      RaplMeter.sampling_ms self1 = RaplMeter.sampling_ms self2 ->
      fst (rapl_cycle host0 host1 self1) = fst (rapl_cycle host0 host1 self2)).
Proof.
  split; [|split; [|split]].
  - intros stdout self1 self2 _ _ Hms. unfold macos_cycle, bind.
    destruct (macos_start_uniform host0 (MacosMeter.sampling_ms self2))
      as [H|[msg H]].
    + rewrite (H self1 Hms), (H self2 eq_refl).
      rewrite !macos_read_output_eq by reflexivity.
      apply macos_stop_congr; reflexivity.
    + generalize (H self1 Hms), (H self2 eq_refl).
      destruct (MacosMeter.start host0 self1) as [o1 s1],
               (MacosMeter.start host0 self2) as [o2 s2]; simpl.
      intros -> ->. reflexivity.
  - intros reads self1 self2 _ _ Hms Hdev. unfold nvml_cycle, bind.
    destruct (nvml_start_uniform host0 (NvmlMeter.device_index self2))
      as [[h H]|[msg H]].
    + rewrite (H self1 Hdev), (H self2 eq_refl).
      rewrite !nvml_poll_eq by reflexivity. rewrite !nvml_stop_eq. simpl.
      rewrite Hms. reflexivity.
    + generalize (H self1 Hdev), (H self2 eq_refl).
      destruct (NvmlMeter.start host0 self1) as [o1 s1],
               (NvmlMeter.start host0 self2) as [o2 s2]; simpl.
      intros -> ->. reflexivity.
  - intros runs self1 self2 _ _ Hms. unfold rocm_cycle, bind.
    destruct (rocm_start_uniform host0) as [H|(e & _ & H)].
    + rewrite !H. rewrite !rocm_poll_eq by reflexivity.
      rewrite !rocm_stop_eq. simpl. rewrite Hms. reflexivity.
    + rewrite !H. reflexivity.
  - intros self1 self2 Hms.
    unfold rapl_cycle, bind.
    destruct (rapl_probe_uniform host0) as [(zone & _ & Hz)|[Hnone|[e He]]].
    + rewrite !(rapl_start_found host0 zone Hz).
      destruct (os_access_R_OK host0 _); simpl; [|reflexivity].
      destruct (read_float host0 _) as [v|e]; simpl; [|reflexivity].
      rewrite !(rapl_stop_eq host1 _ zone) by reflexivity. cbv zeta.
      destruct (read_float host1 _); simpl; [|reflexivity].
      rewrite Hms. reflexivity.
    + rewrite !(rapl_start_not_found host0 Hnone). reflexivity.
    + rewrite !(rapl_start_probe_raises host0 e He). reflexivity.
Qed.

(** A GPU-library meter that has measured before, with three old samples
    and old times in its fields, gives what a new one gives. *)
Lemma X5_example_used_meter :
  fst (nvml_cycle (gpu_host 1 false) [Return 10000%N; Return 30000%N]
         (gpu_host 1 false) (NvmlMeter.init 100 0))
  = fst (nvml_cycle (gpu_host 1 false) [Return 10000%N; Return 30000%N]
           (gpu_host 1 false)
           (NvmlMeter.mk 100 0 (Some 0%Z) [5; 6; 7] 3 4 false false)).
Proof.
  apply (proj1 (proj2
           (X5_measurement_ignores_earlier_state (gpu_host 1 false)
                                                 (gpu_host 1 false))));
    reflexivity.
Defined.

(** ** What the selector returns, and what it raises *)

Lemma rapl_with_path_twice self zone :
  rapl_with_path (rapl_with_path self zone) zone = rapl_with_path self zone.
Proof. reflexivity. Qed.

(** What the selector gives, by cases on its outcome. *)
Lemma get_platform_meter_inv host sampling :
  match get_platform_meter host sampling [] with
  | (Return (Macos m), probed) =>
      sys_platform host = "darwin" /\ m = MacosMeter.init sampling /\
      MacosMeter.is_available host m = (Return true, m)
  | (Return (Nvml m), probed) =>
      sys_platform host = "linux" /\ m = NvmlMeter.init sampling 0 /\
      NvmlMeter.is_available host m = (Return true, m)
  | (Return (RocmSmi m), probed) =>
      sys_platform host = "linux" /\ m = RocmSmiMeter.init sampling 0 /\
      RocmSmiMeter.is_available host m = (Return true, m)
  | (Return (Rapl m), probed) =>
      sys_platform host = "linux" /\
      (exists zone,
          m = rapl_with_path (RaplMeter.init sampling) zone /\
          Path_exists host (RaplMeter.energy_file zone) = Return true) /\
      RaplMeter.is_available host m = (Return true, m)
  | (Raise e, probed) =>
      (sys_platform host = "linux" /\
       (e = NotImplementedError no_linux_meter \/
        shutil_which host "rocm-smi" = Raise e \/
        fst (RaplMeter.is_available host (RaplMeter.init sampling)) = Raise e))
      \/
      (sys_platform host <> "darwin" /\ sys_platform host <> "linux" /\
       e = NotImplementedError (no_platform_meter (sys_platform host)) /\
       probed = [])
  end.
Proof.
  unfold get_platform_meter, probe, bind, ret, raise.
  change (@is_available MacosMeter.t _) with MacosMeter.is_available.
  change (@is_available NvmlMeter.t _) with NvmlMeter.is_available.
  change (@is_available RocmSmiMeter.t _) with RocmSmiMeter.is_available.
  change (@is_available RaplMeter.t _) with RaplMeter.is_available.
  rewrite macos_is_available_eq.
  destruct (sys_platform host =? "darwin")%string eqn:Hdarwin.
  - cbn [fst snd]. apply String.eqb_eq in Hdarwin.
    repeat split; [assumption|].
    rewrite macos_is_available_eq, Hdarwin. reflexivity.
  - apply String.eqb_neq in Hdarwin.
    destruct (sys_platform host =? "linux")%string eqn:Hlinux.
    + apply String.eqb_eq in Hlinux.
      rewrite nvml_is_available_eq.
      destruct (nvml_probe host) eqn:Hnvml; cbn [fst snd].
      * repeat split; [assumption|].
        rewrite nvml_is_available_eq, Hnvml. reflexivity.
      * rewrite rocm_is_available_eq.
        destruct (shutil_which host "rocm-smi") as [[path|]|e] eqn:Hwhich;
          cbn [fst snd].
        -- repeat split; [assumption|].
           rewrite rocm_is_available_eq, Hwhich. reflexivity.
        -- destruct (rapl_probe_uniform host)
             as [(zone & Hzone & Hz)|[Hnone|[e He]]].
           ++ rewrite Hz. cbn [fst snd].
              split; [assumption|]. split.
              ** exists zone. split; [reflexivity|assumption].
              ** rewrite Hz. reflexivity.
           ++ rewrite Hnone. cbn [fst snd]. left. split; [assumption|].
              left. reflexivity.
           ++ rewrite He. left. split; [assumption|]. right; right.
              reflexivity.
        -- left. split; [assumption|]. right; left. reflexivity.
    + apply String.eqb_neq in Hlinux. right. repeat split; assumption.
Qed.

(** X6.  Whatever the host, the selector gives back a meter only of the
    platform it runs on, built with the interval asked for, and whose own
    probe answers true on that host (for the counter meter: with the path
    of a zone whose counter file exists); it raises only
    [NotImplementedError], or what the probe of the GPU-CLI or of the
    counter meter raised; on macOS it never raises, and on a platform that
    is neither macOS nor Linux it raises without probing anything. *)
Theorem X6_selected_meter host sampling :
  match get_platform_meter host sampling [] with
  | (Return (Macos m), probed) =>
      sys_platform host = "darwin" /\ m = MacosMeter.init sampling /\
      MacosMeter.is_available host m = (Return true, m)
  | (Return (Nvml m), probed) =>
      sys_platform host = "linux" /\ m = NvmlMeter.init sampling 0 /\
      NvmlMeter.is_available host m = (Return true, m)
  | (Return (RocmSmi m), probed) =>
      sys_platform host = "linux" /\ m = RocmSmiMeter.init sampling 0 /\
      RocmSmiMeter.is_available host m = (Return true, m)
  | (Return (Rapl m), probed) =>
      sys_platform host = "linux" /\
      (exists zone,
          m = rapl_with_path (RaplMeter.init sampling) zone /\
          Path_exists host (RaplMeter.energy_file zone) = Return true) /\
      RaplMeter.is_available host m = (Return true, m)
  | (Raise e, probed) =>
      (sys_platform host = "linux" /\
       (e = NotImplementedError no_linux_meter \/
        shutil_which host "rocm-smi" = Raise e \/
        fst (RaplMeter.is_available host (RaplMeter.init sampling)) = Raise e))
      \/
      (sys_platform host <> "darwin" /\ sys_platform host <> "linux" /\
       e = NotImplementedError (no_platform_meter (sys_platform host)) /\
       probed = [])
  end.
Proof. exact (get_platform_meter_inv host sampling). Qed.

(** ** The exceptions of [start()] and [stop()] *)

(** X7.  [start()] of the OS-utility meter and of the GPU-library meter
    raises nothing but [RuntimeError], whatever the subprocess or the
    library raised.  [start()] of the GPU-CLI meter raises [RuntimeError]
    or what [shutil.which] raised.  [start()] of the counter meter raises
    [RuntimeError], or [PermissionError] for a counter file that
    [os.access] refuses, or what its own probe raised. *)
Theorem X7_start_exceptions host e :
  (forall self, fst (MacosMeter.start host self) = Raise e ->
                exists msg, e = RuntimeError msg)
  /\
  (forall self, fst (NvmlMeter.start host self) = Raise e ->
                exists msg, e = RuntimeError msg)
  /\
  (forall self, fst (RocmSmiMeter.start host self) = Raise e ->
                (exists msg, e = RuntimeError msg) \/
                shutil_which host "rocm-smi" = Raise e)
  /\
  (forall self, fst (RaplMeter.start host self) = Raise e ->
                (exists msg, e = RuntimeError msg) \/
                (exists zone,
                    e = PermissionError (permission_denied zone) /\
                    os_access_R_OK host (RaplMeter.energy_file zone) = false) \/
                fst (RaplMeter.is_available host self) = Raise e).
Proof.
  split; [|split; [|split]]; intros self.
  - destruct (macos_start_uniform host (MacosMeter.sampling_ms self))
      as [H|[msg H]]; rewrite (H self eq_refl).
    + discriminate.
    + intros [= <-]. exists msg. reflexivity.
  - destruct (nvml_start_uniform host (NvmlMeter.device_index self))
      as [[h H]|[msg H]]; rewrite (H self eq_refl).
    + discriminate.
    + intros [= <-]. exists msg. reflexivity.
  - destruct (rocm_start_uniform host) as [H|(e' & He' & H)]; rewrite H.
    + discriminate.
    + intros [= <-]. destruct He' as [He'|He']; [right|left]; assumption.
  - destruct (rapl_probe_uniform host) as [(zone & _ & Hz)|[Hnone|[e' He']]].
    + rewrite (rapl_start_found host zone Hz).
      destruct (os_access_R_OK host (RaplMeter.energy_file zone)) eqn:Hacc.
      * destruct (read_float host _) as [v|e']; [discriminate|].
        intros [= <-]. left. eexists. reflexivity.
      * intros [= <-]. right; left. exists zone. split; [reflexivity|assumption].
    + rewrite (rapl_start_not_found host Hnone). intros [= <-].
      left. eexists. reflexivity.
    + rewrite (rapl_start_probe_raises host e' He'), He'. intros [= <-].
      right; right. reflexivity.
Qed.

(** The NVIDIA library is there and the driver is not: [start()] wraps
    the exception of [nvmlInit]. *)
Lemma X7_example_no_driver :
  let e := RuntimeError "Failed to initialize NVML: NVMLError_DriverNotLoaded" in
  fst (NvmlMeter.start no_driver_host (NvmlMeter.init 100 0)) = Raise e /\
  exists msg, e = RuntimeError msg.
Proof.
  intros e. split; [reflexivity|].
  exact (proj1 (proj2 (X7_start_exceptions no_driver_host e))
           (NvmlMeter.init 100 0) eq_refl).
Defined.

(** X8.  Every result of [stop()] reports as duration the clock at
    [stop()] less the clock recorded by [start()], whatever the samples
    and the interval, and gives back the interval of the constructor.
    [stop()] of the two polling meters returns in every state; [stop()]
    of the counter meter raises nothing but [RuntimeError]; [stop()] of
    the OS-utility meter raises nothing but what ending the subprocess
    raised, and raises nothing when no subprocess was spawned. *)
Theorem X8_stop_results host :
  (forall self r,
      fst (MacosMeter.stop host self) = Return r ->
      duration_s r = time_time host - MacosMeter.start_time self /\
      sampling_ms r = MacosMeter.sampling_ms self)
  /\
  (forall self e,
      fst (MacosMeter.stop host self) = Raise e ->
      MacosMeter.process self <> None /\
      (Popen_terminate host = Raise e \/
       Popen_wait_timeout host = Raise e \/
       Popen_kill host = Raise e \/
       Popen_wait host = Raise e))
  /\
  (forall self, exists r,
      fst (NvmlMeter.stop host self) = Return r /\
      duration_s r = time_time host - NvmlMeter.start_time self /\
      sampling_ms r = NvmlMeter.sampling_ms self)
  /\
  (forall self, exists r,
      fst (RocmSmiMeter.stop host self) = Return r /\
      duration_s r = time_time host - RocmSmiMeter.start_time self /\
      sampling_ms r = RocmSmiMeter.sampling_ms self)
  /\
  (forall self r,
      fst (RaplMeter.stop host self) = Return r ->
      duration_s r = time_time host - RaplMeter.start_time self /\
      sampling_ms r = RaplMeter.sampling_ms self)
  /\
  (forall self e,
      fst (RaplMeter.stop host self) = Raise e -> exists msg, e = RuntimeError msg).
Proof.
  split; [|split; [|split; [|split; [|split]]]].
  - intros self r Hstop.
    destruct (MacosMeter.stop host self) as [o s] eqn:H. simpl in Hstop.
    subst o. apply macos_stop_inv in H. subst r. split; reflexivity.
  - intros self e. unfold MacosMeter.stop, MacosMeter.stop_process.
    run_method. destruct (MacosMeter.process self) as [[]|].
    + destruct (Popen_terminate host) as [[]|e1]; simpl.
      * destruct (Popen_wait_timeout host) as [code|e2]; simpl.
        -- destruct (List.length _ <? 2)%nat;
             [destruct (List.length _ =? 1)%nat|]; discriminate.
        -- destruct e2; simpl;
             try (intros [= <-]; split; [discriminate|auto]).
           destruct (Popen_kill host) as [[]|e3]; simpl;
             [|intros [= <-]; split; [discriminate|auto]].
           destruct (Popen_wait host) as [code|e4]; simpl;
             [|intros [= <-]; split; [discriminate|auto]].
           destruct (List.length _ <? 2)%nat;
             [destruct (List.length _ =? 1)%nat|]; discriminate.
      * destruct e1; simpl;
          try (intros [= <-]; split; [discriminate|auto]).
        destruct (Popen_kill host) as [[]|e3]; simpl;
          [|intros [= <-]; split; [discriminate|auto]].
        destruct (Popen_wait host) as [code|e4]; simpl;
          [|intros [= <-]; split; [discriminate|auto]].
        destruct (List.length _ <? 2)%nat;
          [destruct (List.length _ =? 1)%nat|]; discriminate.
    + simpl. destruct (List.length _ <? 2)%nat;
        [destruct (List.length _ =? 1)%nat|]; discriminate.
  - intros self. rewrite nvml_stop_eq. eexists. repeat split.
  - intros self. rewrite rocm_stop_eq. eexists. repeat split.
  - intros self r. unfold RaplMeter.stop, RaplMeter._read_energy_uj.
    run_method. destruct (RaplMeter.rapl_path self) as [zone|]; simpl;
      [|discriminate].
    destruct (read_float host _) as [v|e]; simpl; [|discriminate].
    intros [= <-]. split; reflexivity.
  - intros self e. unfold RaplMeter.stop, RaplMeter._read_energy_uj.
    run_method. destruct (RaplMeter.rapl_path self) as [zone|]; simpl.
    + destruct (read_float host _) as [v|e']; simpl; [discriminate|].
      intros [= <-]. eexists. reflexivity.
    + intros [= <-]. eexists. reflexivity.
Qed.

(** [stop()] of a counter meter that was never started, nor probed:
    there is no path to read. *)
Lemma X8_example_stop_before_start :
  let e := RuntimeError "RAPL path not initialized" in
  fst (RaplMeter.stop (rapl_host 0 true 5) (RaplMeter.init 100)) = Raise e /\
  exists msg, e = RuntimeError msg.
Proof.
  intros e. split; [reflexivity|].
  exact (proj2 (proj2 (proj2 (proj2 (proj2
           (X8_stop_results (rapl_host 0 true 5))))))
           (RaplMeter.init 100) e eq_refl).
Defined.

(** ** The three patterns of the rocm-smi parser *)

Lemma spells_app ic lit1 lit2 s :
  spells ic (lit1 ++ lit2)%string s = true ->
  exists s1 s2, s = (s1 ++ s2)%string /\
                spells ic lit1 s1 = true /\ spells ic lit2 s2 = true.
Proof.
  revert s; induction lit1 as [|a lit1 IH]; intros s; simpl.
  - intros H. exists EmptyString, s. repeat split; assumption.
  - destruct s as [|b s]; [discriminate|].
    intros H. apply andb_true_iff in H. destruct H as [Hab H].
    destruct (IH s H) as (s1 & s2 & -> & H1 & H2).
    exists (String b s1), s2. repeat split; [|assumption].
    simpl. rewrite Hab. exact H1.
Qed.

Lemma string_app_assoc (a b c : string) :
  ((a ++ b) ++ c = a ++ (b ++ c))%string.
Proof. induction a as [|x a IH]; simpl; [|rewrite IH]; reflexivity. Qed.

(** A match of a pattern whose literal ends with the literal of another
    contains a match of the other, with the same group. *)
Lemma matches_here_suffix_literal ic gap unit lit1 lit2 s g :
  matches_here (mkPattern (lit1 ++ lit2) ic gap unit) s g ->
  exists a b, s = (a ++ b)%string /\
              matches_here (mkPattern lit2 ic gap unit) b g.
Proof.
  intros (lit & ws1 & ws2 & u & rest & -> & Hlit & Hrest). simpl in Hlit.
  apply spells_app in Hlit. destruct Hlit as (l1 & l2 & -> & _ & H2).
  exists l1, (l2 ++ ws1 ++ g ++ ws2 ++ u ++ rest)%string.
  split; [apply string_app_assoc|].
  exists l2, ws1, ws2, u, rest. split; [reflexivity|].
  split; [exact H2|exact Hrest].
Qed.

Lemma re_search_suffix_literal ic gap unit lit1 lit2 s :
  unit_ok (mkPattern (lit1 ++ lit2) ic gap unit) ->
  unit_ok (mkPattern lit2 ic gap unit) ->
  re_search (mkPattern lit2 ic gap unit) s = None ->
  re_search (mkPattern (lit1 ++ lit2) ic gap unit) s = None.
Proof.
  intros Hu1 Hu2 Hnone. apply re_search_none; [exact Hu1|].
  intros a b g -> Hb.
  apply matches_here_suffix_literal in Hb. destruct Hb as (a' & b' & -> & Hb').
  apply (proj1 (re_search_none _ _ Hu2) Hnone (a ++ a')%string b' g);
    [|exact Hb'].
  symmetry. apply string_app_assoc.
Qed.

(** X10.  The second pattern of the rocm-smi parser, [Power:], decides
    whether an output can give a sample: the literals of the first and
    of the third pattern end with [Power:], so an output in which
    [Power:\s+([\d.]+)\s*W] matches nowhere gives no sample. *)
Theorem X10_power_pattern_decides output :
  re_search (mkPattern "Power:" true false "W") output = None ->
  RocmSmiMeter._parse_power output = None.
Proof.
  intros Hnone.
  pose proof (re_search_suffix_literal true false "W"
                "Average Graphics Package " "Power:" output
                (unit_ok_W _ _) (unit_ok_W _ _) Hnone) as Hfirst.
  pose proof (re_search_suffix_literal true false "W" "GPU " "Power:" output
                (unit_ok_W _ _) (unit_ok_W _ _) Hnone) as Hthird.
  cbn [append] in Hfirst, Hthird.
  unfold RocmSmiMeter._parse_power, RocmSmiMeter.patterns.
  cbn [RocmSmiMeter.parse_with]. rewrite Hfirst, Hnone, Hthird. reflexivity.
Qed.

(** A power line with the unit before the colon gives no sample. *)
Lemma X10_example_unit_before_colon :
  RocmSmiMeter._parse_power
    "GPU[0] : Average Graphics Package Power (W): 25.0"
  = None.
Proof.
  apply X10_power_pattern_decides. reflexivity.
Defined.

(** The third pattern is reached only past a match of the second whose
    text is not a number. *)
Example rocm_third_pattern :
  RocmSmiMeter._parse_power "Power: 1.2.3 W, GPU Power: 5 W" = Some 5.
Proof. reflexivity. Qed.

(** ** From the selector to [start()] *)

(** X11.  [start()] of the meter the selector returned, on a host that
    answers as it did to the selector, does not fail for want of the
    meter: the GPU-CLI meter starts; the OS-utility meter starts when the
    subprocess can be spawned; the GPU-library meter starts when the
    handle of device 0 can be had; the counter meter starts, and records
    the counter of the zone the selector found, when the counter file is
    readable and holds a number. *)
Theorem X11_start_of_selected_meter host sampling :
  match fst (get_platform_meter host sampling []) with
  | Return (Macos m) =>
      Popen host (MacosMeter.cmd m) = Return tt ->
      MacosMeter.start host m
      = (Return tt,
         MacosMeter.mk sampling (Some tt) [] (time_time host) 0 true)
  | Return (Nvml m) =>
      forall h, nvmlDeviceGetHandleByIndex host 0 = Return h ->
      NvmlMeter.start host m
      = (Return tt,
         NvmlMeter.mk sampling 0 (Some h) [] (time_time host) 0 true true)
  | Return (RocmSmi m) =>
      RocmSmiMeter.start host m
      = (Return tt,
         RocmSmiMeter.mk sampling 0 [] (time_time host) 0 true)
  | Return (Rapl m) =>
      forall zone start_value,
        RaplMeter.rapl_path m = Some zone ->
        os_access_R_OK host (RaplMeter.energy_file zone) = true ->
        read_float host (RaplMeter.energy_file zone) = Return start_value ->
        RaplMeter.start host m
        = (Return tt,
           RaplMeter.mk sampling (Some zone) start_value (time_time host) 0)
  | Raise _ => True
  end.
Proof.
  pose proof (get_platform_meter_inv host sampling) as Hsel.
  destruct (get_platform_meter host sampling []) as [[[m|m|m|m]|e] probed];
    cbn [fst]; [| | | |exact I].
  - destruct Hsel as (Hdarwin & -> & _). intros HP.
    unfold MacosMeter.start, MacosMeter.is_available. run_method.
    rewrite Hdarwin. simpl. unfold MacosMeter.cmd in *. simpl in *.
    rewrite HP. reflexivity.
  - destruct Hsel as (_ & -> & Hprobe). intros h Hh.
    rewrite nvml_is_available_eq in Hprobe. injection Hprobe as Hprobe.
    unfold nvml_probe in Hprobe.
    unfold NvmlMeter.start. run_method.
    destruct (NVML_AVAILABLE host); [|discriminate]. simpl in *.
    destruct (nvmlInit host) as [[]|e]; [|discriminate]. simpl.
    rewrite Hh. reflexivity.
  - destruct Hsel as (_ & -> & Hprobe).
    rewrite rocm_is_available_eq in Hprobe.
    unfold RocmSmiMeter.start, RocmSmiMeter.is_available. run_method.
    destruct (shutil_which host "rocm-smi") as [[path|]|e];
      try discriminate.
    reflexivity.
  - destruct Hsel as (_ & (zone & -> & Hzone) & Hprobe).
    intros zone' v [= <-] Hacc Hread.
    unfold RaplMeter.start, bind at 1. rewrite Hprobe.
    unfold RaplMeter._read_energy_uj. run_method.
    rewrite Hacc. simpl. rewrite Hread. reflexivity.
Qed.

(** A Linux host without GPU and with one readable zone: the selector
    returns the counter meter with the path of the zone, and [start()]
    records the counter. *)
Lemma X11_example_counter_meter :
  fst (get_platform_meter (rapl_host 7 true 5) 100 [])
  = Return (Rapl (rapl_with_path (RaplMeter.init 100) zone0)) /\
  RaplMeter.start (rapl_host 7 true 5)
                  (rapl_with_path (RaplMeter.init 100) zone0)
  = (Return tt, RaplMeter.mk 100 (Some zone0) 5 7 0).
Proof.
  split; [reflexivity|].
  exact (X11_start_of_selected_meter (rapl_host 7 true 5) 100 zone0 5
           eq_refl eq_refl eq_refl).
Defined.

(** ** [stop()] called again *)

(** X9.  [stop()] keeps the samples, the captured lines and the counter
    read by [start()]: a second [stop()] with no [start()] between
    returns on the polling meters, and on the OS-utility meter when the
    subprocess calls return, the energy the first returned, with the
    duration counted from the same [start()]; on the counter meter it
    returns the energy counted from the same first reading up to the
    counter it reads now. *)
Theorem X9_stop_again host1 host2 :
  (forall self, exists r1 r2,
      fst (NvmlMeter.stop host1 self) = Return r1 /\
      fst (NvmlMeter.stop host2 (snd (NvmlMeter.stop host1 self))) = Return r2 /\
      energy_wh_raw r2 = energy_wh_raw r1 /\
      duration_s r2 = time_time host2 - NvmlMeter.start_time self)
  /\
  (forall self, exists r1 r2,
      fst (RocmSmiMeter.stop host1 self) = Return r1 /\
      fst (RocmSmiMeter.stop host2 (snd (RocmSmiMeter.stop host1 self)))
      = Return r2 /\
      energy_wh_raw r2 = energy_wh_raw r1 /\
      duration_s r2 = time_time host2 - RocmSmiMeter.start_time self)
  /\
  (forall self,
      subprocess_ends host1 -> subprocess_ends host2 ->
      List.length (MacosMeter._parse_power_samples self) <> 1%nat ->
      exists r1 r2,
        fst (MacosMeter.stop host1 self) = Return r1 /\
        fst (MacosMeter.stop host2 (snd (MacosMeter.stop host1 self)))
        = Return r2 /\
        energy_wh_raw r2 = energy_wh_raw r1 /\
        duration_s r2 = time_time host2 - MacosMeter.start_time self)
  /\
  (forall self zone stop_value,
      RaplMeter.rapl_path self = Some zone ->
      read_float host2 (RaplMeter.energy_file zone) = Return stop_value ->
      exists r2,
        fst (RaplMeter.stop host2 (snd (RaplMeter.stop host1 self)))
        = Return r2 /\
        energy_wh_raw r2
        = corrected_diff (RaplMeter.start_energy_uj self) stop_value
          / 3600000000 /\
        duration_s r2 = time_time host2 - RaplMeter.start_time self).
Proof.
  split; [|split; [|split]].
  - intros self. rewrite !nvml_stop_eq. cbn [fst snd].
    do 2 eexists. repeat split.
  - intros self. rewrite !rocm_stop_eq. cbn [fst snd].
    do 2 eexists. repeat split.
  - intros self Hends1 Hends2 Hlen.
    rewrite (macos_stop_eq host1 self Hends1). cbn [fst snd].
    rewrite (macos_stop_eq host2 _ Hends2). cbn [fst snd].
    do 2 eexists. split; [reflexivity|]. split; [reflexivity|].
    split; [|reflexivity].
    unfold macos_result. rewrite macos_parse_stopped.
    cbn [energy_wh_raw MacosMeter.sampling_ms macos_stopped].
    destruct (MacosMeter._parse_power_samples self) as [|s [|s' rest]];
      [reflexivity| |reflexivity].
    exfalso. apply Hlen. reflexivity.
  - intros self zone stop_value Hpath Hread.
    rewrite (rapl_stop_eq host1 self zone Hpath). cbv zeta.
    destruct (read_float host1 (RaplMeter.energy_file zone)); cbn [fst snd];
      rewrite (rapl_stop_eq host2 _ zone) by reflexivity; cbv zeta;
      rewrite Hread; cbn [fst snd];
      eexists; repeat split.
Qed.

(** A counter read twice after one [start()]: the second [stop()] counts
    from the reading of [start()], 1000, to the reading it makes, 5000. *)
Lemma X9_example_counter_read_twice :
  exists r2,
    fst (RaplMeter.stop (rapl_host 2 true 5000)
           (snd (RaplMeter.stop (rapl_host 1 true 3000)
                   (RaplMeter.mk 100 (Some zone0) 1000 0 0))))
    = Return r2 /\
    energy_wh_raw r2 == 4000 / 3600000000.
Proof.
  destruct (proj2 (proj2 (proj2
              (X9_stop_again (rapl_host 1 true 3000) (rapl_host 2 true 5000))))
              (RaplMeter.mk 100 (Some zone0) 1000 0 0) zone0 5000
              eq_refl eq_refl) as (r2 & Hr & He & _).
  exists r2. split; [exact Hr|]. rewrite He. reflexivity.
Defined.

(** ** What the background threads keep *)

(** X17.  On the GPU-CLI meter, after a [start()] that returned, the
    samples are the figures of the runs of rocm-smi that exited with code
    0 and whose output the parser read, in order: a run that raised (a
    timeout, a missing binary), that exited with another code or that
    printed no figure leaves no sample and does not stop the loop.  On
    the OS-utility meter, after a [start()] that returned, the lines kept
    are the lines the subprocess wrote, each without the whitespace
    around it, in order. *)
Theorem X17_skipped_runs host :
  (forall runs self self0,
      RocmSmiMeter.start host self = (Return tt, self0) ->
      exists self1,
        RocmSmiMeter._poll_power runs self0 = (Return tt, self1) /\
        RocmSmiMeter.power_samples self1 = flat_map rocm_sample runs)
  /\
  (forall stdout self self0,
      MacosMeter.start host self = (Return tt, self0) ->
      exists self1,
        MacosMeter._read_output stdout self0 = (Return tt, self1) /\
        MacosMeter.output_lines self1 = map strip stdout).
Proof.
  split.
  - intros runs self self0 Hstart. apply rocm_start_inv in Hstart.
    destruct Hstart as (Hp & _ & _ & Hrun).
    rewrite rocm_poll_eq by exact Hrun. eexists. split; [reflexivity|].
    simpl. rewrite Hp. reflexivity.
  - intros stdout self self0 Hstart. apply macos_start_inv in Hstart.
    destruct Hstart as (Hl & _ & _ & Hproc & Hrun).
    rewrite macos_read_output_eq by assumption. eexists.
    split; [reflexivity|]. simpl. rewrite Hl. reflexivity.
Qed.

(** Five runs of rocm-smi: one exits with code 1, one times out, one
    prints no figure; two samples. *)
Lemma X17_example_two_of_five :
  exists self1,
    RocmSmiMeter._poll_power
      [Return (0%Z, "Power: 25 W"); Return (1%Z, "Power: 30 W");
       Raise (TimeoutExpired "rocm-smi"); Return (0%Z, "GPU[0] : idle");
       Return (0%Z, "GPU Power: 35 W")]
      (snd (RocmSmiMeter.start (gpu_host 0 true) (RocmSmiMeter.init 100 0)))
    = (Return tt, self1) /\
    RocmSmiMeter.power_samples self1 = [25; 35].
Proof.
  destruct (proj1 (X17_skipped_runs (gpu_host 0 true))
              [Return (0%Z, "Power: 25 W"); Return (1%Z, "Power: 30 W");
               Raise (TimeoutExpired "rocm-smi"); Return (0%Z, "GPU[0] : idle");
               Return (0%Z, "GPU Power: 35 W")]
              (RocmSmiMeter.init 100 0) _ eq_refl) as (self1 & Hpoll & Hs).
  exists self1. split; [exact Hpoll|]. rewrite Hs. reflexivity.
Defined.

(** * The test sets of [main.py] *)

(** ** Text *)

Lemma lower_char_idem c : Main.lower_char (Main.lower_char c) = Main.lower_char c.
Proof. destruct c as [[] [] [] [] [] [] [] []]; reflexivity. Qed.

Lemma str_lower_idem s : Main.str_lower (Main.str_lower s) = Main.str_lower s.
Proof.
  induction s as [|c s IH]; simpl; [reflexivity|].
  rewrite lower_char_idem, IH. reflexivity.
Qed.

Lemma str_lower_app a b :
  Main.str_lower (a ++ b) = (Main.str_lower a ++ Main.str_lower b)%string.
Proof. induction a as [|c a IH]; simpl; [|rewrite IH]; reflexivity. Qed.

Lemma rstrip_chars_idem chars s :
  Main.rstrip_chars chars (Main.rstrip_chars chars s) = Main.rstrip_chars chars s.
Proof.
  induction s as [|c s IH]; simpl; [reflexivity|].
  destruct (Main.in_chars chars c && is_empty (Main.rstrip_chars chars s))
    eqn:E; simpl; [reflexivity|].
  rewrite IH, E. reflexivity.
Qed.

Lemma rstrip_chars_all chars t :
  all_chars (Main.in_chars chars) t = true -> Main.rstrip_chars chars t = EmptyString.
Proof.
  induction t as [|c t IH]; simpl; [reflexivity|].
  intros H. apply andb_true_iff in H. destruct H as [Hc Ht].
  rewrite (IH Ht), Hc. reflexivity.
Qed.

(** Trailing characters of the set make no difference. *)
Lemma rstrip_chars_app chars s t :
  all_chars (Main.in_chars chars) t = true ->
  Main.rstrip_chars chars (s ++ t) = Main.rstrip_chars chars s.
Proof.
  intros Ht. induction s as [|c s IH]; simpl.
  - apply rstrip_chars_all. exact Ht.
  - rewrite IH. reflexivity.
Qed.

Lemma rstrip_chars_lower chars s :
  Main.str_lower s = s ->
  Main.str_lower (Main.rstrip_chars chars s) = Main.rstrip_chars chars s.
Proof.
  induction s as [|c s IH]; simpl; [reflexivity|].
  intros H. injection H as Hc Hs.
  destruct (Main.in_chars chars c && is_empty (Main.rstrip_chars chars s));
    simpl; [reflexivity|].
  rewrite Hc, (IH Hs). reflexivity.
Qed.

Lemma rstrip_chars_cons chars c s :
  Main.rstrip_chars chars s = s ->
  is_empty s = false \/ Main.in_chars chars c = false ->
  Main.rstrip_chars chars (String c s) = String c s.
Proof.
  intros Hs Hc. simpl. rewrite Hs.
  destruct Hc as [-> | ->]; [rewrite andb_false_r|]; reflexivity.
Qed.

Lemma string_length_app (a b : string) :
  String.length (a ++ b) = (String.length a + String.length b)%nat.
Proof. induction a as [|c a IH]; simpl; [|rewrite IH]; reflexivity. Qed.

Lemma string_app_inv_tail (a b t : string) :
  (a ++ t = b ++ t)%string -> a = b.
Proof.
  revert b; induction a as [|c a IH]; intros [|c' b] H; simpl in H.
  - reflexivity.
  - exfalso. apply (f_equal String.length) in H. simpl in H.
    rewrite string_length_app in H. lia.
  - exfalso. apply (f_equal String.length) in H. simpl in H.
    rewrite string_length_app in H. lia.
  - injection H as -> H. rewrite (IH b H). reflexivity.
Qed.

(** ** [resolve_testset_path] *)

(** The name the candidates are built from. *)
Lemma normalized_fixed testset_name :
  let normalized := Main.rstrip_chars ".json" (Main.str_lower testset_name) in
  Main.str_lower normalized = normalized /\
  Main.rstrip_chars ".json" normalized = normalized /\
  Main.str_lower ("testset_" ++ normalized) = ("testset_" ++ normalized)%string /\
  Main.rstrip_chars ".json" ("testset_" ++ normalized)
  = ("testset_" ++ normalized)%string.
Proof.
  intros normalized.
  assert (Hl : Main.str_lower normalized = normalized)
    by (apply rstrip_chars_lower, str_lower_idem).
  assert (Hr : Main.rstrip_chars ".json" normalized = normalized)
    by apply rstrip_chars_idem.
  split; [exact Hl|]. split; [exact Hr|]. split.
  - rewrite str_lower_app, Hl. reflexivity.
  - cbn [append].
    repeat (apply rstrip_chars_cons; [|first [left; reflexivity
                                             |right; reflexivity]]).
    exact Hr.
Qed.

(** What [resolve_testset_path] returns, by cases. *)
Lemma resolve_testset_path_inv d testset_name file :
  Main.resolve_testset_path d testset_name = Return file ->
  let normalized := Main.rstrip_chars ".json" (Main.str_lower testset_name) in
  Main.candidate_exists d file = Return true /\
  (file = (normalized ++ ".json")%string \/
   (file = (("testset_" ++ normalized) ++ ".json")%string /\
    prefix "testset_" normalized = false /\
    Main.candidate_exists d (normalized ++ ".json") = Return false)).
Proof.
  intros H. cbv zeta. unfold Main.resolve_testset_path in H. cbv zeta in H.
  set (normalized := Main.rstrip_chars ".json" (Main.str_lower testset_name))
    in *.
  destruct (prefix "testset_" normalized) eqn:Hp; cbn [negb app map] in H;
    cbn [Main.first_existing] in H;
    destruct (Main.candidate_exists d (normalized ++ ".json"))
      as [[|]|e] eqn:H1; try discriminate.
  - injection H as <-. split; [exact H1|left; reflexivity].
  - destruct (Main.glob_json d); discriminate.
  - injection H as <-. split; [exact H1|left; reflexivity].
  - destruct (Main.candidate_exists d (("testset_" ++ normalized) ++ ".json"))
      as [[|]|e] eqn:H2; try discriminate.
    + injection H as <-. split; [exact H2|]. right. repeat split.
    + destruct (Main.glob_json d); discriminate.
Qed.

(** The candidates, in order: the first that exists is returned. *)
Lemma resolve_testset_path_first d testset_name :
  let normalized := Main.rstrip_chars ".json" (Main.str_lower testset_name) in
  (Main.candidate_exists d (normalized ++ ".json") = Return true ->
   Main.resolve_testset_path d testset_name
   = Return (normalized ++ ".json")%string) /\
  (Main.candidate_exists d (normalized ++ ".json") = Return false ->
   prefix "testset_" normalized = false ->
   Main.candidate_exists d (("testset_" ++ normalized) ++ ".json")
   = Return true ->
   Main.resolve_testset_path d testset_name
   = Return (("testset_" ++ normalized) ++ ".json")%string).
Proof.
  cbv zeta. unfold Main.resolve_testset_path. cbv zeta. split.
  - intros H1.
    destruct (prefix "testset_" _); cbn [negb app map Main.first_existing];
      rewrite H1; reflexivity.
  - intros H1 Hp H2. rewrite Hp. cbn [negb app map Main.first_existing].
    rewrite H1, H2. reflexivity.
Qed.

(** X12.  [resolve_testset_path] returns a file exactly in two cases.
    With [normalized] the name given, in lower case and without its
    trailing characters among [.], [j], [s], [o], [n] (what
    [rstrip(".json")] removes): it returns [normalized.json] when that
    file exists; and it returns [testset_normalized.json] when
    [normalized.json] does not exist, [normalized] does not begin with
    [testset_], and that second file exists.  So the file returned
    exists, and its stem is in lower case and does not end with one of
    the five characters: a file whose stem does (say
    [testset_lessons.json]) is returned for no name. *)
Theorem X12_resolved_file d testset_name file :
  let normalized := Main.rstrip_chars ".json" (Main.str_lower testset_name) in
  (Main.resolve_testset_path d testset_name = Return file <->
   (file = (normalized ++ ".json")%string /\
    Main.candidate_exists d (normalized ++ ".json") = Return true)
   \/
   (file = (("testset_" ++ normalized) ++ ".json")%string /\
    prefix "testset_" normalized = false /\
    Main.candidate_exists d (normalized ++ ".json") = Return false /\
    Main.candidate_exists d (("testset_" ++ normalized) ++ ".json")
    = Return true))
  /\
  (Main.resolve_testset_path d testset_name = Return file ->
   Main.candidate_exists d file = Return true /\
   forall stem, file = (stem ++ ".json")%string ->
                Main.str_lower stem = stem /\
                Main.rstrip_chars ".json" stem = stem).
Proof.
  cbv zeta.
  destruct (resolve_testset_path_first d testset_name) as [Hfirst Hsecond].
  cbv zeta in Hfirst, Hsecond.
  split; [split|].
  - intros H. apply resolve_testset_path_inv in H. cbv zeta in H.
    destruct H as [Hex [->|(-> & Hp & H1)]].
    + left. split; [reflexivity|exact Hex].
    + right. repeat split; assumption.
  - intros [(-> & H1)|(-> & Hp & H1 & H2)].
    + apply Hfirst. exact H1.
    + apply Hsecond; assumption.
  - intros H. apply resolve_testset_path_inv in H. cbv zeta in H.
    destruct H as [Hex Hfile].
    destruct (normalized_fixed testset_name) as (Hl & Hr & Hl' & Hr').
    split; [exact Hex|].
    destruct Hfile as [->|(-> & _ & _)];
      intros stem Hs; apply string_app_inv_tail in Hs; subst stem;
      split; assumption.
Qed.

(** A name in capitals, with the extension: [easy.json] does not exist,
    the file of the set is [testset_easy.json], and it exists. *)
Lemma X12_example_easy :
  Main.resolve_testset_path (dir_of ["testset_easy"; "testset_lessons"] no_contents)
                            "Easy.JSON"
  = Return "testset_easy.json" /\
  Main.candidate_exists (dir_of ["testset_easy"; "testset_lessons"] no_contents)
                        "testset_easy.json"
  = Return true.
Proof.
  assert (H : Main.resolve_testset_path
                (dir_of ["testset_easy"; "testset_lessons"] no_contents)
                "Easy.JSON"
              = Return "testset_easy.json").
  { apply (proj1 (X12_resolved_file
                    (dir_of ["testset_easy"; "testset_lessons"] no_contents)
                    "Easy.JSON" "testset_easy.json")).
    right. repeat split. }
  split; [exact H|].
  exact (proj1 (proj2 (X12_resolved_file
                         (dir_of ["testset_easy"; "testset_lessons"] no_contents)
                         "Easy.JSON" "testset_easy.json") H)).
Defined.

(** The set [testset_lessons.json] of that directory is found under
    neither of its names: [lessons] is cut down to [le]. *)
Example lessons_is_not_found :
  Main.resolve_testset_path (dir_of ["testset_easy"; "testset_lessons"] no_contents)
                            "lessons"
  = Raise (FileNotFoundError
             "Testset 'lessons' not found in src/data/testsets. Available files: testset_easy, testset_lessons") /\
  Main.resolve_testset_path (dir_of ["testset_easy"; "testset_lessons"] no_contents)
                            "testset_lessons.json"
  = Raise (FileNotFoundError
             "Testset 'testset_lessons.json' not found in src/data/testsets. Available files: testset_easy, testset_lessons").
Proof. split; reflexivity. Qed.

(** The file returned depends on the name only through the name in lower
    case and without the trailing characters. *)
Lemma resolve_by_normalized d name1 name2 file :
  Main.rstrip_chars ".json" (Main.str_lower name1)
  = Main.rstrip_chars ".json" (Main.str_lower name2) ->
  Main.resolve_testset_path d name1 = Return file ->
  Main.resolve_testset_path d name2 = Return file.
Proof.
  unfold Main.resolve_testset_path. cbv zeta. intros ->.
  destruct (Main.first_existing d _) as [[candidate|]|e];
    [trivial| |discriminate].
  destruct (Main.glob_json d); discriminate.
Qed.

(** X13.  [resolve_testset_path] returns the same file for a name, for
    that name in another case, and for that name followed by any
    characters that in lower case are among [.], [j], [s], [o], [n]
    (the extension [.json], [.JSON], a dot, ...). *)
Theorem X13_name_variants d testset_name tail file :
  all_chars (Main.in_chars ".json") (Main.str_lower tail) = true ->
  (Main.resolve_testset_path d (testset_name ++ tail) = Return file <->
   Main.resolve_testset_path d testset_name = Return file)
  /\
  (Main.resolve_testset_path d (Main.str_lower testset_name) = Return file <->
   Main.resolve_testset_path d testset_name = Return file).
Proof.
  intros Htail.
  assert (H1 : Main.rstrip_chars ".json" (Main.str_lower (testset_name ++ tail))
               = Main.rstrip_chars ".json" (Main.str_lower testset_name))
    by (rewrite str_lower_app; apply rstrip_chars_app; exact Htail).
  assert (H2 : Main.rstrip_chars ".json"
                 (Main.str_lower (Main.str_lower testset_name))
               = Main.rstrip_chars ".json" (Main.str_lower testset_name))
    by (rewrite str_lower_idem; reflexivity).
  split; split; apply resolve_by_normalized; auto.
Qed.

(** [hard], [HARD.json] and [hard.] name the same file. *)
Lemma X13_example_hard :
  Main.resolve_testset_path (dir_of ["hard"] no_contents) "HARD.json"
  = Return "hard.json" /\
  Main.resolve_testset_path (dir_of ["hard"] no_contents) "HARD"
  = Return "hard.json".
Proof.
  split; [reflexivity|].
  apply (proj1 (X13_name_variants (dir_of ["hard"] no_contents)
                  "HARD" ".json" "hard.json" eq_refl)).
  reflexivity.
Defined.

(** ** [load_testset] *)

Lemma check_questions_ok questions u :
  Main.check_questions questions = Main.Ok u ->
  Forall (fun question => Main.prompt_in question = Main.Ok true) questions.
Proof.
  induction questions as [|question rest IH]; simpl; [constructor|].
  destruct (Main.prompt_in question) as [[|]|e] eqn:Hq; try discriminate.
  intros H. constructor; [exact Hq|exact (IH H)].
Qed.

Lemma key_in_filter key items :
  Main.key_in key
    (filter (fun kv : string * Main.json => negb (fst kv =? key)%string) items)
  = false.
Proof.
  induction items as [|[k v] items IH]; simpl; [reflexivity|].
  destruct (k =? key)%string eqn:Hk; simpl; [exact IH|].
  rewrite Hk. exact IH.
Qed.

(** X14.  [load_testset] returns only a list of questions that is not
    empty and in which ["prompt" in question] holds of every question,
    with metadata that have no key [questions]: the questions are the
    list the file holds, with the given name as [id] and [name], or the
    list under the key [questions] of the object the file holds, with
    the other entries of the object, in their order. *)
Theorem X14_loaded_testset d testset_name metadata questions :
  Main.load_testset d testset_name = Main.Ok (metadata, questions) ->
  questions <> [] /\
  Forall (fun question => Main.prompt_in question = Main.Ok true) questions /\
  Main.key_in "questions" metadata = false /\
  exists file,
    Main.resolve_testset_path d testset_name = Return file /\
    ((Main.load_json d file = Main.Parsed (Main.JList questions) /\
      metadata = [("id", Main.JStr testset_name);
                  ("name", Main.JStr testset_name)])
     \/
     (exists items,
         Main.load_json d file = Main.Parsed (Main.JDict items) /\
         Main.dict_get "questions" items = Some (Main.JList questions) /\
         metadata
         = filter (fun kv => negb (fst kv =? "questions")%string) items)).
Proof.
  unfold Main.load_testset.
  destruct (Main.resolve_testset_path d testset_name) as [file|e];
    [|discriminate].
  destruct (Main.load_json d file) as [data|msg|e] eqn:Hload;
    try discriminate.
  destruct data as [| | | | |l|items]; try discriminate.
  - destruct l as [|question rest]; [discriminate|].
    destruct (Main.check_questions (question :: rest)) as [u|e] eqn:Hcheck;
      [|discriminate].
    intros H. injection H as <- <-.
    split; [discriminate|]. split; [exact (check_questions_ok _ _ Hcheck)|].
    split; [reflexivity|].
    exists file. split; [reflexivity|]. left. split; [exact Hload|reflexivity].
  - destruct (Main.key_in "questions" items); [|discriminate].
    destruct (Main.dict_get "questions" items) as [value|] eqn:Hget;
      [|discriminate].
    cbn [option_map].
    destruct value as [| | | | |l|items']; try discriminate.
    destruct l as [|question rest]; [discriminate|].
    destruct (Main.check_questions (question :: rest)) as [u|e] eqn:Hcheck;
      [|discriminate].
    intros H. injection H as <- <-.
    split; [discriminate|]. split; [exact (check_questions_ok _ _ Hcheck)|].
    split; [apply key_in_filter|].
    exists file. split; [reflexivity|]. right.
    exists items. split; [exact Hload|]. split; [exact Hget|reflexivity].
Qed.

(** An object with one question is loaded, without its key
    [questions]. *)
Lemma X14_example_object :
  let contents := fun _ : string =>
    Main.Parsed
      (Main.JDict [("id", Main.JStr "easy");
                   ("questions",
                    Main.JList [Main.JDict [("prompt", Main.JStr "2+2?")]])]) in
  Main.load_testset (dir_of ["testset_easy"] contents) "easy"
  = Main.Ok ([("id", Main.JStr "easy")],
             [Main.JDict [("prompt", Main.JStr "2+2?")]]) /\
  Main.key_in "questions" [("id", Main.JStr "easy")] = false.
Proof.
  intros contents. split; [reflexivity|].
  exact (proj1 (proj2 (proj2
           (X14_loaded_testset (dir_of ["testset_easy"] contents) "easy"
              [("id", Main.JStr "easy")]
              [Main.JDict [("prompt", Main.JStr "2+2?")]] eq_refl)))).
Defined.

Lemma check_questions_texts prompts :
  Main.check_questions (map Main.JStr prompts)
  = if forallb (Main.contains "prompt") prompts then Main.Ok tt
    else Main.Error
           (Main.ValueError "Each question must include a 'prompt' field").
Proof.
  induction prompts as [|prompt prompts IH]; [reflexivity|].
  cbn [map Main.check_questions Main.prompt_in forallb].
  destruct (Main.contains "prompt" prompt); [exact IH|reflexivity].
Qed.

(** X15.  A file that holds a list of texts, the "legacy flat list" of
    prompts, is loaded exactly when every text contains the word
    [prompt]: on a text, ["prompt" in question] looks for the word in
    it.  Otherwise [load_testset] raises the [ValueError] of a question
    without prompt. *)
Theorem X15_list_of_texts d testset_name file prompts :
  Main.resolve_testset_path d testset_name = Return file ->
  Main.load_json d file = Main.Parsed (Main.JList (map Main.JStr prompts)) ->
  prompts <> [] ->
  Main.load_testset d testset_name
  = if forallb (Main.contains "prompt") prompts then
      Main.Ok ([("id", Main.JStr testset_name);
                ("name", Main.JStr testset_name)],
               map Main.JStr prompts)
    else
      Main.Error (Main.ValueError "Each question must include a 'prompt' field").
Proof.
  intros Hfile Hload Hprompts. unfold Main.load_testset.
  rewrite Hfile, Hload.
  destruct prompts as [|prompt prompts]; [contradiction|].
  pose proof (check_questions_texts (prompt :: prompts)) as Hcheck.
  cbn [map] in *. cbv beta iota zeta. rewrite Hcheck.
  destruct (forallb (Main.contains "prompt") (prompt :: prompts)); reflexivity.
Qed.

(** A list of two prompts is refused. *)
Lemma X15_example_two_prompts :
  Main.load_testset
    (dir_of ["testset_easy"]
       (fun _ => Main.Parsed (Main.JList (map Main.JStr
                                ["What is 2+2?"; "Name a prime."]))))
    "easy"
  = Main.Error (Main.ValueError "Each question must include a 'prompt' field").
Proof.
  apply (X15_list_of_texts
           (dir_of ["testset_easy"]
              (fun _ => Main.Parsed (Main.JList (map Main.JStr
                                       ["What is 2+2?"; "Name a prime."]))))
           "easy" "testset_easy.json" ["What is 2+2?"; "Name a prime."]);
    [reflexivity|reflexivity|discriminate].
Defined.

(** ** [get_available_testsets] *)

Lemma insort_In x y l : In x (Main.insort y l) <-> x = y \/ In x l.
Proof.
  induction l as [|z l IH]; simpl.
  - intuition.
  - destruct (String.leb y z); simpl; [intuition|].
    rewrite IH. intuition.
Qed.

Lemma sorted_In x l : In x (Main.sorted l) <-> In x l.
Proof.
  induction l as [|y l IH]; simpl; [reflexivity|].
  rewrite insort_In, IH. intuition.
Qed.

(** The names offered are the stems of the files without their first
    [testset_]. *)
Lemma get_available_testsets_In d stems name :
  Main.glob_json d = Return stems ->
  exists names,
    Main.get_available_testsets d = Return names /\
    (In name names <->
     exists stem, In stem stems /\ name = Main.remove_first "testset_" stem).
Proof.
  intros Hglob. unfold Main.get_available_testsets. rewrite Hglob.
  eexists. split; [reflexivity|].
  rewrite sorted_In, nodup_In, in_map_iff.
  split; intros (stem & H1 & H2); exists stem; auto.
Qed.

(** X16.  A name that [get_available_testsets] offers for a file
    [testset_x.json] is found again by [resolve_testset_path] when [x]
    is in lower case, does not end with one of [.], [j], [s], [o], [n]
    and does not itself begin with [testset_]: the name offered is [x],
    and it resolves to [x.json] when that file exists too, and to
    [testset_x.json] otherwise. *)
Theorem X16_offered_name_resolves d stems x :
  Main.glob_json d = Return stems ->
  In ("testset_" ++ x)%string stems ->
  Main.candidate_exists d (("testset_" ++ x) ++ ".json") = Return true ->
  (exists b, Main.candidate_exists d (x ++ ".json") = Return b) ->
  Main.str_lower x = x ->
  Main.rstrip_chars ".json" x = x ->
  prefix "testset_" x = false ->
  exists names,
    Main.get_available_testsets d = Return names /\
    In x names /\
    Main.resolve_testset_path d x
    = Return (match Main.candidate_exists d (x ++ ".json") with
              | Return true => x ++ ".json"
              | _ => ("testset_" ++ x) ++ ".json"
              end)%string.
Proof.
  intros Hglob Hin Hfile [b Hplain] Hlower Hstrip Hprefix.
  destruct (get_available_testsets_In d stems x Hglob) as (names & Hnames & HIn).
  exists names. split; [exact Hnames|]. split.
  - apply HIn. exists ("testset_" ++ x)%string. split; [exact Hin|].
    reflexivity.
  - unfold Main.resolve_testset_path. cbv zeta.
    rewrite Hlower, Hstrip, Hprefix. cbn [negb app map Main.first_existing].
    rewrite Hplain. destruct b; [reflexivity|].
    rewrite Hfile. reflexivity.
Qed.

(** The directory holds [testset_easy.json] and [testset_hard.json]:
    [easy] is offered, and resolves to the first. *)
Lemma X16_example_easy :
  exists names,
    Main.get_available_testsets
      (dir_of ["testset_hard"; "testset_easy"] no_contents) = Return names /\
    In "easy" names /\
    Main.resolve_testset_path
      (dir_of ["testset_hard"; "testset_easy"] no_contents) "easy"
    = Return "testset_easy.json".
Proof.
  apply (X16_offered_name_resolves
           (dir_of ["testset_hard"; "testset_easy"] no_contents)
           ["testset_hard"; "testset_easy"] "easy");
    try reflexivity.
  - right; left; reflexivity.
  - exists false. reflexivity.
Defined.

(** A stem with [testset_] inside is offered under a name that is not
    found. *)
Example offered_name_not_found :
  Main.get_available_testsets (dir_of ["my_testset_a"] no_contents)
  = Return ["my_a"] /\
  Main.resolve_testset_path (dir_of ["my_testset_a"] no_contents) "my_a"
  = Raise (FileNotFoundError
             "Testset 'my_a' not found in src/data/testsets. Available files: my_testset_a").
Proof. split; reflexivity. Qed.
